(** * PT prior-authorization intake pipeline and IVR simulator

    A shallow embedding of the Python services under [backend/app/services]
    ([ivr_service.py], [ocr_service.py], [erp_service.py], [audit_service.py],
    [portia_plan.py]) and of the intake and audit routes under
    [backend/app/routes], together with the properties of the rule engine,
    the IVR session state machine, the intake pipeline and the answers of
    the routes.

    Layout: Python values and builtins, calendar and UUID rendering, the
    effect monad over the process state, the document store, the services,
    and then the lemmas. *)

From stdpp Require Import base numbers list strings gmap sorting.
From Stdlib Require Import Ascii.

Local Open Scope Z_scope.

(** ** Python values *)

(** The dynamically typed values the services pass around: JSON data decoded
    from the extraction response, plus the two BSON-only scalars the store
    sees (datetimes, as microseconds since 1970-01-01T00:00:00 UTC, and
    generated object ids).  Floating-point numbers are not represented.
    A [dict] keeps insertion order, as Python's does. *)
#[warnings="-register-all"]
Inductive value : Type :=
  | VNone
  | VBool (b : bool)
  | VInt (n : Z)
  | VStr (s : string)
  | VList (l : list value)
  | VDict (d : list (string * value))
  | VDatetime (us : Z)
  | VObjectId (n : nat).

Abbreviation dict := (list (string * value)).

Inductive exn : Type :=
  | TypeError
  | AttributeError
  | ValueError
  | DuplicateKeyError.

Inductive result (A : Type) : Type :=
  | Ok (a : A)
  | Raise (e : exn).
Arguments Ok {A} a.
Arguments Raise {A} e.

Module Py.

(** [bool(v)]. *)
Definition truthy (v : value) : bool :=
  match v with
  | VNone => false
  | VBool b => b
  | VInt n => negb (n =? 0)
  | VStr s => negb (String.eqb s EmptyString)
  | VList l => match l with [] => false | _ => true end
  | VDict d => match d with [] => false | _ => true end
  | VDatetime _ => true
  | VObjectId _ => true
  end.

(** [d.get(k)] as an option; [d[k] = v]; [d.update(items)] / [{**items}]. *)
Fixpoint get (k : string) (d : dict) : option value :=
  match d with
  | [] => None
  | (k', v) :: r => if String.eqb k k' then Some v else get k r
  end.

Fixpoint set (k : string) (v : value) (d : dict) : dict :=
  match d with
  | [] => [(k, v)]
  | (k', v') :: r =>
      if String.eqb k k' then (k, v) :: r else (k', v') :: set k v r
  end.

Definition update (d : dict) (items : dict) : dict :=
  fold_left (fun acc kv => set (fst kv) (snd kv) acc) items d.

(** [d.get(k, default)]. *)
Definition get_default (k : string) (default : value) (d : dict) : value :=
  match get k d with Some v => v | None => default end.

(** [x or y]. *)
Definition or (x y : value) : value := if truthy x then x else y.

(** Attribute access [v.get]: only a dict has it. *)
Definition as_dict (v : value) : result dict :=
  match v with
  | VDict d => Ok d
  | _ => Raise AttributeError
  end.

(** *** [int(v)] *)

Definition is_space (c : ascii) : bool :=
  let n := nat_of_ascii c in
  orb (Nat.eqb n 32) (andb (Nat.leb 9 n) (Nat.leb n 13)).

Definition digit_of (c : ascii) : option Z :=
  let n := nat_of_ascii c in
  if andb (Nat.leb 48 n) (Nat.leb n 57) then Some (Z.of_nat n - 48) else None.

Fixpoint lstrip (l : list ascii) : list ascii :=
  match l with
  | c :: r => if is_space c then lstrip r else l
  | [] => []
  end.

Definition strip (l : list ascii) : list ascii :=
  rev (lstrip (rev (lstrip l))).

(** Decimal digits, single underscores allowed between two digits.
    [after_digit] tells whether the previous character was a digit. *)
Fixpoint digits (acc : Z) (after_digit : bool) (l : list ascii) : option Z :=
  match l with
  | [] => if after_digit then Some acc else None
  | c :: r =>
      match digit_of c with
      | Some d => digits (10 * acc + d) true r
      | None =>
          if andb after_digit (Nat.eqb (nat_of_ascii c) 95)
          then match r with
               | c' :: _ =>
                   match digit_of c' with
                   | Some _ => digits acc false r
                   | None => None
                   end
               | [] => None
               end
          else None
      end
  end.

Definition int_of_str (s : string) : option Z :=
  match strip (String.list_ascii_of_string s) with
  | c :: r =>
      if Nat.eqb (nat_of_ascii c) 45 then option_map Z.opp (digits 0 false r)
      else if Nat.eqb (nat_of_ascii c) 43 then digits 0 false r
      else digits 0 false (c :: r)
  | [] => None
  end.

(** [int(v)]: integers and booleans convert, ASCII decimal text parses,
    anything else raises. *)
Definition int (v : value) : result Z :=
  match v with
  | VInt n => Ok n
  | VBool b => Ok (Z.b2z b)
  | VStr s => match int_of_str s with Some n => Ok n | None => Raise ValueError end
  | _ => Raise TypeError
  end.

(** [s.upper()] on ASCII text. *)
Definition upper_char (c : ascii) : ascii :=
  let n := nat_of_ascii c in
  if andb (Nat.leb 97 n) (Nat.leb n 122) then ascii_of_nat (n - 32) else c.

Definition upper (l : list ascii) : list ascii := map upper_char l.

End Py.

(** ** Calendar: [datetime], [date], [timedelta] *)

Module Cal.

Definition us_per_day : Z := 86400 * 1000000.

(** [timedelta(days=n)]. *)
Definition timedelta_days (n : Z) : Z := n * us_per_day.

(** [dt.date()], as the number of days since 1970-01-01. *)
Definition date (dt : Z) : Z := dt / us_per_day.

(** Proleptic Gregorian year, month and day of a day number. *)
Definition civil (days : Z) : Z * Z * Z :=
  let z := days + 719468 in
  let era := z / 146097 in
  let doe := z - era * 146097 in
  let yoe := (doe - doe / 1460 + doe / 36524 - doe / 146096) / 365 in
  let y := yoe + era * 400 in
  let doy := doe - (365 * yoe + yoe / 4 - yoe / 100) in
  let mp := (5 * doy + 2) / 153 in
  let d := doy - (153 * mp + 2) / 5 + 1 in
  let m := if mp <? 10 then mp + 3 else mp - 9 in
  (if m <=? 2 then y + 1 else y, m, d).

Definition dec_char (n : Z) : ascii := ascii_of_nat (48 + Z.to_nat (n mod 10)).

Definition pad2 (n : Z) : list ascii := [dec_char (n / 10); dec_char n].

Definition pad4 (n : Z) : list ascii :=
  [dec_char (n / 1000); dec_char (n / 100); dec_char (n / 10); dec_char n].

(** [str(d)] for a [date]: ISO format [YYYY-MM-DD] (Python's dates span
    the years 1 to 9999, so four digits). *)
Definition isoformat (days : Z) : string :=
  let '(y, m, d) := civil days in
  String.string_of_list_ascii (pad4 y ++ "-"%char :: pad2 m ++ "-"%char :: pad2 d).

End Cal.

(** ** [uuid.uuid4()] *)

Module Uuid.

(** The 128-bit integer of a version-4 UUID built from 16 random bytes
    (given as a big-endian integer): variant and version bits forced. *)
Definition uuid4_int (random : Z) : Z :=
  let i := random mod 2 ^ 128 in
  let i := Z.ldiff i (Z.shiftl 0xc000 48) in
  let i := Z.lor i (Z.shiftl 0x8000 48) in
  let i := Z.ldiff i (Z.shiftl 0xf000 64) in
  Z.lor i (Z.shiftl 4 76).

Definition hex_chars : list ascii :=
  String.list_ascii_of_string "0123456789abcdef".

Definition hex_char (d : Z) : ascii := nth (Z.to_nat d) hex_chars "0"%char.

(** The [k]-th of [n] hexadecimal digits of [i], most significant first. *)
Definition hex_at (n : nat) (i : Z) (k : nat) : ascii :=
  hex_char ((i / 16 ^ Z.of_nat (n - 1 - k)) mod 16).

(** [u.hex]: 32 lowercase hexadecimal digits. *)
Definition hex (i : Z) : list ascii := map (hex_at 32 i) (seq 0 32).

(** [str(u)]: the 8-4-4-4-12 grouping. *)
Definition str (i : Z) : string :=
  let h := hex i in
  let dash := "-"%char in
  String.string_of_list_ascii
    (firstn 8 h ++ dash :: firstn 4 (skipn 8 h) ++ dash ::
     firstn 4 (skipn 12 h) ++ dash :: firstn 4 (skipn 16 h) ++ dash ::
     skipn 20 h).

End Uuid.

(** ** The document store *)

(** A Mongo collection is the list of its documents in insertion order. *)
Inductive collection : Type :=
  | pt_intakes
  | eligibility_results
  | authorization_records
  | call_transcripts
  | audit_events.

Global Instance value_eq_dec : EqDecision value.
Proof.
  refine (fix go (x y : value) {struct x} : Decision (x = y) :=
    let _ : EqDecision value := go in
    match x, y with
    | VNone, VNone => left eq_refl
    | VBool a, VBool b => cast_if (decide (a = b))
    | VInt a, VInt b => cast_if (decide (a = b))
    | VStr a, VStr b => cast_if (decide (a = b))
    | VList a, VList b =>
        cast_if ((fix gol (l1 l2 : list value) {struct l1} : Decision (l1 = l2) :=
          match l1, l2 with
          | [], [] => left eq_refl
          | v1 :: r1, v2 :: r2 => cast_if_and (go v1 v2) (gol r1 r2)
          | _, _ => right _
          end) a b)
    | VDict a, VDict b =>
        cast_if ((fix god (l1 l2 : dict) {struct l1} : Decision (l1 = l2) :=
          match l1, l2 with
          | [], [] => left eq_refl
          | (k1, v1) :: r1, (k2, v2) :: r2 =>
              cast_if_and3 (decide (k1 = k2)) (go v1 v2) (god r1 r2)
          | _, _ => right _
          end) a b)
    | VDatetime a, VDatetime b => cast_if (decide (a = b))
    | VObjectId a, VObjectId b => cast_if (decide (a = b))
    | _, _ => right _
    end); abstract congruence.
Defined.

Global Instance collection_eq_dec : EqDecision collection.
Proof. solve_decision. Defined.

Record Database : Type := mkDatabase {
  c_pt_intakes : list dict;
  c_eligibility_results : list dict;
  c_authorization_records : list dict;
  c_call_transcripts : list dict;
  c_audit_events : list dict }.

Module Mongo.

Definition empty : Database := mkDatabase [] [] [] [] [].

(** [db[c]]. *)
Definition docs (c : collection) (db : Database) : list dict :=
  match c with
  | pt_intakes => c_pt_intakes db
  | eligibility_results => c_eligibility_results db
  | authorization_records => c_authorization_records db
  | call_transcripts => c_call_transcripts db
  | audit_events => c_audit_events db
  end.

Definition with_docs (c : collection) (l : list dict) (db : Database) : Database :=
  match c with
  | pt_intakes =>
      mkDatabase l (c_eligibility_results db) (c_authorization_records db)
        (c_call_transcripts db) (c_audit_events db)
  | eligibility_results =>
      mkDatabase (c_pt_intakes db) l (c_authorization_records db)
        (c_call_transcripts db) (c_audit_events db)
  | authorization_records =>
      mkDatabase (c_pt_intakes db) (c_eligibility_results db) l
        (c_call_transcripts db) (c_audit_events db)
  | call_transcripts =>
      mkDatabase (c_pt_intakes db) (c_eligibility_results db)
        (c_authorization_records db) l (c_audit_events db)
  | audit_events =>
      mkDatabase (c_pt_intakes db) (c_eligibility_results db)
        (c_authorization_records db) (c_call_transcripts db) l
  end.

(** The query [{key: x}] for a string [x]: the field equals [x], or is an
    array with [x] among its elements. *)
Definition is_str (x : string) (v : value) : bool :=
  match v with
  | VStr s => String.eqb s x
  | _ => false
  end.

Definition matches (key x : string) (d : dict) : bool :=
  match Py.get key d with
  | Some (VList l) => existsb (is_str x) l
  | Some v => is_str x v
  | None => false
  end.

(** [find_one({key: x})]: the first matching document. *)
Definition find_one (key x : string) (l : list dict) : option dict :=
  List.find (matches key x) l.

(** Apply [f] to the first document satisfying [p], if there is one. *)
Fixpoint update_first (p : dict -> bool) (f : dict -> dict) (l : list dict)
  : option (list dict) :=
  match l with
  | [] => None
  | d :: r =>
      if p d then Some (f d :: r)
      else option_map (cons d) (update_first p f r)
  end.

(** What [update_one({key: x}, {"$set": fields}, upsert)] leaves in a
    collection: the first match updated, or, with [upsert], a new document
    made of the query and the fields, under the object id [oid]. *)
Definition upserted (key x : string) (fields : dict) (upsert : bool) (oid : nat)
    (l : list dict) : list dict :=
  match update_first (matches key x) (fun doc => Py.update doc fields) l with
  | Some l' => l'
  | None =>
      if upsert
      then l ++ [Py.update [("_id", VObjectId oid); (key, VStr x)] fields]
      else l
  end.

(** The documents keyed by [x] under [key]. *)
Definition keyed (key x : string) (l : list dict) : list dict :=
  List.filter (matches key x) l.

End Mongo.

(** ** The process state and its effects *)

(** What the environment decides: the readings of the system clock, the
    random bytes behind each UUID, the configuration, the answers of the
    extraction endpoint and the working directory ([os.path.abspath]).
    Each reading is indexed by how many were taken before it. *)
Record Env : Type := mkEnv {
  utcnow : nat -> Z;
  urandom16 : nat -> Z;
  azure_configured : bool;
  azure_response : nat -> string -> option value;
  abspath : string -> string }.

Inductive ivr_state : Type :=
  | mainMenu
  | collectMemberIdElig
  | collectMemberIdAuth
  | collectDobElig
  | collectDobAuth
  | benefitsSummary
  | checkAuthRequirement
  | ended.

Global Instance ivr_state_eq_dec : EqDecision ivr_state.
Proof. solve_decision. Defined.

(** The per-call dict kept in [IVRService.sessions]. *)
Module Session.
Record t : Type := mk {
  state : ivr_state;
  prompt : string;
  dtmf : list string;
  transcript : list value;
  memberId : option string;
  dob : option string;
  benefits : option dict;
  authResult : option dict }.
End Session.

(** The state of the process: the store, the sessions of the IVR service
    the routes use (the pipeline's own [IVRService()] never gets a session),
    and how many readings of each kind were taken from the environment. *)
Record World : Type := mkWorld {
  db : Database;
  sessions : gmap string Session.t;
  clock_reads : nat;
  uuid_draws : nat;
  oid_draws : nat;
  azure_calls : nat }.

(** A computation reads and updates the process state and returns a value
    or raises; what it did before raising stays done. *)
Definition M (A : Type) : Type := World -> result A * World.

Global Instance M_ret : MRet M := fun A a w => (Ok a, w).

Global Instance M_bind : MBind M := fun A B k m w =>
  match m w with
  | (Ok a, w') => k a w'
  | (Raise e, w') => (Raise e, w')
  end.

(** A pure step that may raise. *)
Definition lift {A} (r : result A) : M A := fun w => (r, w).

Definition get_db : M Database := fun w => (Ok (db w), w).

Definition put_db (d : Database) : M unit :=
  fun w => (Ok tt, mkWorld d (sessions w) (clock_reads w) (uuid_draws w)
                     (oid_draws w) (azure_calls w)).

Definition get_sessions : M (gmap string Session.t) :=
  fun w => (Ok (sessions w), w).

Definition put_sessions (s : gmap string Session.t) : M unit :=
  fun w => (Ok tt, mkWorld (db w) s (clock_reads w) (uuid_draws w)
                     (oid_draws w) (azure_calls w)).

Section Effects.
Context (E : Env).

(** [datetime.utcnow()]. *)
Definition datetime_utcnow : M Z :=
  fun w => (Ok (utcnow E (clock_reads w)),
            mkWorld (db w) (sessions w) (S (clock_reads w)) (uuid_draws w)
              (oid_draws w) (azure_calls w)).

(** [uuid.uuid4()], as its 128-bit integer. *)
Definition uuid4 : M Z :=
  fun w => (Ok (Uuid.uuid4_int (urandom16 E (uuid_draws w))),
            mkWorld (db w) (sessions w) (clock_reads w) (S (uuid_draws w))
              (oid_draws w) (azure_calls w)).

(** The response of the chat-completions call for [url], already decoded:
    [None] when anything in the [try] block raised. *)
Definition azure_chat (url : string) : M (option value) :=
  fun w => (Ok (azure_response E (azure_calls w) url),
            mkWorld (db w) (sessions w) (clock_reads w) (uuid_draws w)
              (oid_draws w) (S (azure_calls w))).

End Effects.

(** A fresh [ObjectId]. *)
Definition new_object_id : M value :=
  fun w => (Ok (VObjectId (oid_draws w)),
            mkWorld (db w) (sessions w) (clock_reads w) (uuid_draws w)
              (S (oid_draws w)) (azure_calls w)).

(** [db[c].insert_one(doc)]: a document without [_id] gets a fresh one; a
    given [_id] must be new to the collection. *)
Definition insert_one (c : collection) (doc : dict) : M unit :=
  match Py.get "_id" doc with
  | None =>
      oid ← new_object_id;
      d ← get_db;
      put_db (Mongo.with_docs c (Mongo.docs c d ++ [("_id", oid) :: doc]) d)
  | Some id =>
      d ← get_db;
      if existsb (fun doc' => bool_decide (Py.get "_id" doc' = Some id)) (Mongo.docs c d)
      then lift (Raise DuplicateKeyError)
      else put_db (Mongo.with_docs c (Mongo.docs c d ++ [doc]) d)
  end.

(** [db[c].update_one({key: x}, {"$set": fields}, upsert=upsert)]. *)
Definition update_one (c : collection) (key x : string) (fields : dict)
    (upsert : bool) : M unit :=
  d ← get_db;
  match Mongo.update_first (Mongo.matches key x)
          (fun doc => Py.update doc fields) (Mongo.docs c d) with
  | Some l => put_db (Mongo.with_docs c l d)
  | None =>
      if upsert then
        oid ← new_object_id;
        d ← get_db;
        put_db (Mongo.with_docs c
                  (Mongo.docs c d ++ [Py.update [("_id", oid); (key, VStr x)] fields]) d)
      else mret tt
  end.

(** [db[c].find_one({key: x})]. *)
Definition find_one (c : collection) (key x : string) : M (option dict) :=
  d ← get_db;
  mret (Mongo.find_one key x (Mongo.docs c d)).

Global Instance result_ret : MRet result := fun A a => Ok a.

Global Instance result_bind : MBind result := fun A B k r =>
  match r with
  | Ok a => k a
  | Raise e => Raise e
  end.

(** ** [ocr_service.py] *)

Definition _empty_payload : value :=
  VDict
    [("patient",
      VDict [("firstName", VStr EmptyString); ("lastName", VStr EmptyString);
             ("dob", VStr EmptyString)]);
     ("insurance",
      VDict [("payerName", VStr EmptyString); ("planName", VStr EmptyString);
             ("groupNumber", VNone); ("memberId", VStr EmptyString);
             ("subscriberName", VStr EmptyString)]);
     ("clinical",
      VDict [("icd10Code", VStr EmptyString); ("cptCodes", VList []);
             ("visitsRequested", VInt 0)]);
     ("provider",
      VDict [("referringProviderName", VStr EmptyString);
             ("referringProviderNpi", VStr EmptyString);
             ("siteOfCare", VStr EmptyString)])].

(** [apply_defaults(payload)].  [setdefault] keeps an existing [clinical]
    entry whatever it is; the three fields are then set on that same dict,
    so the payload sees them. *)
Definition apply_defaults (payload : value) : result value :=
  p ← Py.as_dict payload;
  let p :=
    match Py.get "clinical" p with
    | Some _ => p
    | None => Py.set "clinical" (VDict []) p
    end in
  clinical ← Py.as_dict (Py.get_default "clinical" VNone p);
  let clinical :=
    if negb (Py.truthy (Py.get_default "cptCodes" VNone clinical))
    then Py.set "cptCodes" (VList [VStr "97161"; VStr "97110"]) clinical
    else clinical in
  let clinical :=
    if negb (Py.truthy (Py.get_default "icd10Code" VNone clinical))
    then Py.set "icd10Code" (VStr "M25.561") clinical
    else clinical in
  let clinical :=
    if negb (Py.truthy (Py.get_default "visitsRequested" VNone clinical))
    then Py.set "visitsRequested" (VInt 8) clinical
    else clinical in
  mret (VDict (Py.set "clinical" (VDict clinical) p)).

Section Services.
Context (E : Env).

(** [extract_fields_with_azure(image_url)]: the empty payload when the
    service is not configured or anything in the call raised. *)
Definition extract_fields_with_azure (image_url : string) : M value :=
  if negb (azure_configured E) then mret _empty_payload
  else
    r ← azure_chat E image_url;
    match r with
    | Some data => mret data
    | None => mret _empty_payload
    end.

(** ** [audit_service.py] *)

(** [emit_audit], at the defaults [actor_role="system"] and [run_id=None]
    every caller leaves in place. *)
Definition emit_audit (entity_type entity_id action : string)
    (before after : value) : M unit :=
  now ← datetime_utcnow E;
  insert_one audit_events
    [("entityType", VStr entity_type);
     ("entityId", VStr entity_id);
     ("action", VStr action);
     ("actorRole", VStr "system");
     ("timestamp", VDatetime now);
     ("beforeJson", before);
     ("afterJson", after);
     ("runId", VNone)].

(** ** [erp_service.py] *)

Definition _flatten_extracted (extracted : value) : result dict :=
  extracted ← Py.as_dict extracted;
  let patient := Py.get_default "patient" (VDict []) extracted in
  let insurance := Py.get_default "insurance" (VDict []) extracted in
  let clinical := Py.get_default "clinical" (VDict []) extracted in
  let provider := Py.get_default "provider" (VDict []) extracted in
  patient ← Py.as_dict patient;
  insurance ← Py.as_dict insurance;
  provider ← Py.as_dict provider;
  clinical ← Py.as_dict clinical;
  mret
    [("patientFirst", Py.get_default "firstName" (VStr EmptyString) patient);
     ("patientLast", Py.get_default "lastName" (VStr EmptyString) patient);
     ("dob", Py.get_default "dob" (VStr EmptyString) patient);
     ("payerName", Py.get_default "payerName" (VStr EmptyString) insurance);
     ("planName", Py.get_default "planName" (VStr EmptyString) insurance);
     ("groupNumber", Py.get_default "groupNumber" VNone insurance);
     ("memberId", Py.get_default "memberId" (VStr EmptyString) insurance);
     ("subscriberName", Py.get_default "subscriberName" (VStr EmptyString) insurance);
     ("referringProviderName",
      Py.get_default "referringProviderName" (VStr EmptyString) provider);
     ("referringProviderNpi",
      Py.get_default "referringProviderNpi" (VStr EmptyString) provider);
     ("siteOfCare", Py.get_default "siteOfCare" (VStr EmptyString) provider);
     ("cptCodes", Py.get_default "cptCodes" (VList []) clinical);
     ("icd10Code", Py.get_default "icd10Code" (VStr EmptyString) clinical);
     ("visitsRequested", Py.get_default "visitsRequested" (VInt 0) clinical)].

Definition persist_results (intake_id : string) (extracted : value)
    (benefits auth_result transcript : dict) : M unit :=
  update_one eligibility_results "intakeId" intake_id
    (Py.update [("intakeId", VStr intake_id)] benefits) true;;
  update_one authorization_records "intakeId" intake_id
    (Py.update [("intakeId", VStr intake_id)] auth_result) true;;
  update_one call_transcripts "intakeId" intake_id
    (Py.update [("intakeId", VStr intake_id)] transcript) true;;
  now ← datetime_utcnow E;
  flat ← lift (_flatten_extracted extracted);
  update_one pt_intakes "_id" intake_id
    (Py.update [("updatedAt", VDatetime now); ("status", VStr "saved")] flat)
    false.

End Services.

(** ** [ivr_service.py] *)

Module IVRService.

Definition menu_prompt : string :=
  "Press 1 for Eligibility and benefits, 2 for Prior authorization (PT), 0 to end".

Definition state_name (s : ivr_state) : string :=
  match s with
  | mainMenu => "mainMenu"
  | collectMemberIdElig => "collectMemberIdElig"
  | collectMemberIdAuth => "collectMemberIdAuth"
  | collectDobElig => "collectDobElig"
  | collectDobAuth => "collectDobAuth"
  | benefitsSummary => "benefitsSummary"
  | checkAuthRequirement => "checkAuthRequirement"
  | ended => "ended"
  end.

(** Field assignments [s[k] = v] on a session. *)
Definition set_state (x : ivr_state) (s : Session.t) : Session.t :=
  Session.mk x (Session.prompt s) (Session.dtmf s) (Session.transcript s)
    (Session.memberId s) (Session.dob s) (Session.benefits s)
    (Session.authResult s).

Definition set_prompt (x : string) (s : Session.t) : Session.t :=
  Session.mk (Session.state s) x (Session.dtmf s) (Session.transcript s)
    (Session.memberId s) (Session.dob s) (Session.benefits s)
    (Session.authResult s).

Definition set_dtmf (x : list string) (s : Session.t) : Session.t :=
  Session.mk (Session.state s) (Session.prompt s) x (Session.transcript s)
    (Session.memberId s) (Session.dob s) (Session.benefits s)
    (Session.authResult s).

Definition set_memberId (x : option string) (s : Session.t) : Session.t :=
  Session.mk (Session.state s) (Session.prompt s) (Session.dtmf s)
    (Session.transcript s) x (Session.dob s) (Session.benefits s)
    (Session.authResult s).

Definition set_dob (x : option string) (s : Session.t) : Session.t :=
  Session.mk (Session.state s) (Session.prompt s) (Session.dtmf s)
    (Session.transcript s) (Session.memberId s) x (Session.benefits s)
    (Session.authResult s).

Definition set_benefits (x : option dict) (s : Session.t) : Session.t :=
  Session.mk (Session.state s) (Session.prompt s) (Session.dtmf s)
    (Session.transcript s) (Session.memberId s) (Session.dob s) x
    (Session.authResult s).

(** [s.get(k) or ""] for the two text buffers. *)
Definition or_empty (o : option string) : string :=
  match o with
  | Some x => x
  | None => EmptyString
  end.

Definition opt_value (o : option dict) : value :=
  match o with
  | Some d => VDict d
  | None => VNone
  end.

Definition _benefits_summary : dict :=
  [("coverageStart", VStr "2025-01-01");
   ("coverageEnd", VStr "2025-12-31");
   ("copayOrCoins", VStr "20% coinsurance");
   ("ptVisitLimit", VInt 12);
   ("ptVisitsUsed", VInt 2)].

(** The [if]/[elif] chain of [dtmf] on the session's state. *)
Definition on_state (digit : string) (s : Session.t) : Session.t :=
  match Session.state s with
  | mainMenu =>
      if String.eqb digit "1" then
        set_prompt "Enter member ID followed by #" (set_state collectMemberIdElig s)
      else if String.eqb digit "2" then
        set_prompt "Enter member ID followed by #" (set_state collectMemberIdAuth s)
      else if String.eqb digit "0" then
        set_prompt "Goodbye" (set_state ended s)
      else
        set_prompt "Invalid. Press 1 for Eligibility, 2 for Prior auth, 0 to end" s
  | collectMemberIdElig | collectMemberIdAuth =>
      if String.eqb digit "#" then
        set_state
          (if decide (Session.state s = collectMemberIdElig)
           then collectDobElig else collectDobAuth)
          (set_prompt "Enter DOB as YYYYMMDD followed by #" s)
      else
        set_prompt "Continue entering member ID, then #"
          (set_memberId (Some (or_empty (Session.memberId s) +:+ digit)) s)
  | collectDobElig | collectDobAuth =>
      if String.eqb digit "#" then
        let s := set_dob (Some (or_empty (Session.dob s))) s in
        let benefit := _benefits_summary in
        let s := set_benefits (Some benefit) s in
        if decide (Session.state s = collectDobElig) then
          set_prompt "Benefits provided. Press 9 to repeat, 0 to end"
            (set_state benefitsSummary s)
        else
          set_prompt "Checking if prior auth is required... Press 9 to repeat, 0 to end"
            (set_state checkAuthRequirement s)
      else
        set_prompt "Continue entering DOB, then #"
          (set_dob (Some (or_empty (Session.dob s) +:+ digit)) s)
  | checkAuthRequirement =>
      set_prompt "Auth requirement evaluated. Press 9 to repeat, 0 to end" s
  | benefitsSummary =>
      if String.eqb digit "9" then
        set_prompt "Benefits repeated. Press 9 to repeat, 0 to end" s
      else if String.eqb digit "0" then
        set_prompt "Goodbye" (set_state ended s)
      else s
  | ended => s
  end.

(** The closing [if digit == "0"]. *)
Definition on_zero (digit : string) (s : Session.t) : Session.t :=
  if String.eqb digit "0" then set_prompt "Goodbye" (set_state ended s) else s.

Definition reply (session_id : string) (s : Session.t) : dict :=
  [("sessionId", VStr session_id);
   ("state", VStr (state_name (Session.state s)));
   ("prompt", VStr (Session.prompt s))].

Definition not_found : dict := [("error", VStr "session not found")].

Definition dtmf (session_id digit : string) : M dict :=
  ss ← get_sessions;
  match ss !! session_id with
  | None => mret not_found
  | Some s =>
      let s := set_dtmf (Session.dtmf s ++ [digit]) s in
      let s := on_state digit s in
      let s := on_zero digit s in
      put_sessions (<[session_id := s]> ss);;
      mret (reply session_id s)
  end.

Definition result (session_id : string) : M dict :=
  ss ← get_sessions;
  match ss !! session_id with
  | None => mret not_found
  | Some s =>
      mret [("sessionId", VStr session_id);
            ("benefits", opt_value (Session.benefits s));
            ("authResult", opt_value (Session.authResult s))]
  end.

(** [f"PT-{u.hex[:8].upper()}"]. *)
Definition auth_number (u : Z) : string :=
  "PT-" +:+ String.string_of_list_ascii (Py.upper (firstn 8 (Uuid.hex u))).

Section WithEnv.
Context (E : Env).

Definition _now : M Z := datetime_utcnow E.

Definition start : M dict :=
  u ← uuid4 E;
  let session_id := Uuid.str u in
  ss ← get_sessions;
  let s := Session.mk mainMenu menu_prompt [] [] None None None None in
  put_sessions (<[session_id := s]> ss);;
  mret [("sessionId", VStr session_id);
        ("state", VStr "mainMenu");
        ("prompt", VStr (Session.prompt s))].

Definition calculate_auth (visits_requested : Z) : M dict :=
  let limit := 12 in
  let used := 2 in
  let auth_required := visits_requested >? 6 in
  let visits_approved :=
    if auth_required
    then Z.max 0 (Z.min 6 (Z.min (limit - used) visits_requested))
    else 0 in
  t ← _now;
  let valid_from := Cal.date t in
  t ← _now;
  let valid_to := Cal.date (t + Cal.timedelta_days 60) in
  auth_number ←
    (if auth_required then
       u ← uuid4 E;
       mret (VStr (auth_number u))
     else mret VNone);
  mret [("authRequired", VBool auth_required);
        ("visitsApproved", VInt visits_approved);
        ("authNumber", auth_number);
        ("validFrom", VStr (Cal.isoformat valid_from));
        ("validTo", VStr (Cal.isoformat valid_to))].

End WithEnv.

End IVRService.

(** ** [portia_plan.py] *)

Section Pipeline.
Context (E : Env).

(** [f"file://{os.path.abspath(file_path)}"]. *)
Definition image_url_of (file_path : value) : result string :=
  match file_path with
  | VStr p => Ok ("file://" +:+ abspath E p)
  | _ => Raise TypeError
  end.

(** [int(extracted.get("clinical", {}).get("visitsRequested", 0) or 0)]. *)
Definition visits_requested_of (extracted : value) : result Z :=
  e ← Py.as_dict extracted;
  clinical ← Py.as_dict (Py.get_default "clinical" (VDict []) e);
  Py.int (Py.or (Py.get_default "visitsRequested" (VInt 0) clinical) (VInt 0)).

Definition run_intake_pipeline (intake_id : string) : M unit :=
  emit_audit E "pt_intake" intake_id "runStarted" VNone VNone;;
  intake ← find_one pt_intakes "_id" intake_id;
  match intake with
  | None => mret tt
  | Some intake =>
      let file_path := Py.get_default "sourceFilePath" VNone intake in
      image_url ← lift (image_url_of file_path);
      (* Step 1: OCR *)
      extracted ← extract_fields_with_azure E image_url;
      extracted ← lift (apply_defaults extracted);
      emit_audit E "pt_intake" intake_id "ocrExtracted" VNone extracted;;
      (* asyncio.sleep(6): no effect on the state *)
      (* Step 2: eligibility and authorization by the IVR rules *)
      visits_requested ← lift (visits_requested_of extracted);
      let benefits := IVRService._benefits_summary in
      auth ← IVRService.calculate_auth E visits_requested;
      emit_audit E "pt_intake" intake_id "eligibilityChecked" VNone (VDict benefits);;
      (if Py.truthy (Py.get_default "authRequired" VNone auth)
       then emit_audit E "pt_intake" intake_id "authObtained" VNone (VDict auth)
       else emit_audit E "pt_intake" intake_id "authWaived" VNone (VDict auth));;
      (* Step 3: persist *)
      let transcript :=
        [("stepsJson", VList []); ("dtmfJson", VList []);
         ("outcomeSummary", VStr "simulated")] in
      persist_results E intake_id extracted benefits auth transcript;;
      emit_audit E "pt_intake" intake_id "saved" VNone VNone
  end.

End Pipeline.

(** ** [routes/intake.py]: what creating an intake leaves in the store *)

Section Routes.
Context (E : Env).

(** [upload_intake(file)], for the uploaded file's name: the new record
    (writing the file itself is outside the state kept here). *)
Definition upload_intake (filename : string) : M dict :=
  u ← uuid4 E;
  let intake_id := Uuid.str u in
  let dst_path := "uploads/" +:+ intake_id +:+ "_" +:+ filename in
  created ← datetime_utcnow E;
  updated ← datetime_utcnow E;
  insert_one pt_intakes
    [("_id", VStr intake_id);
     ("createdAt", VDatetime created);
     ("updatedAt", VDatetime updated);
     ("sourceFilePath", VStr dst_path);
     ("status", VStr "created")];;
  mret [("intakeId", VStr intake_id)].

End Routes.

(** ** Runs of the services *)

Module World.
(** A fresh process: empty store, [IVRService()] with no session. *)
Definition init : World := mkWorld Mongo.empty ∅ 0 0 0 0.
End World.

(** The state a computation leaves, and its outcome. *)
Definition exec {A} (m : M A) (w : World) : World := snd (m w).
Definition eval {A} (m : M A) (w : World) : result A := fst (m w).

(** One [dtmf] on the session record itself. *)
Definition press (digit : string) (s : Session.t) : Session.t :=
  IVRService.on_zero digit
    (IVRService.on_state digit
       (IVRService.set_dtmf (Session.dtmf s ++ [digit]) s)).

(** The digits of [digits] sent to one session, in order. *)
Fixpoint dial (session_id : string) (digits : list string) : M unit :=
  match digits with
  | [] => mret tt
  | d :: r => IVRService.dtmf session_id d;; dial session_id r
  end.

(** The calls a client of the IVR service can make. *)
Inductive ivr_call : Type :=
  | CallStart
  | CallDtmf (session_id digit : string)
  | CallResult (session_id : string)
  | CallCalculateAuth (visits_requested : Z).

Definition do_call (E : Env) (c : ivr_call) : M dict :=
  match c with
  | CallStart => IVRService.start E
  | CallDtmf sid d => IVRService.dtmf sid d
  | CallResult sid => IVRService.result sid
  | CallCalculateAuth v => IVRService.calculate_auth E v
  end.

Fixpoint do_calls (E : Env) (cs : list ivr_call) : M unit :=
  match cs with
  | [] => mret tt
  | c :: r => do_call E c;; do_calls E r
  end.

(** The pattern [PT-[0-9A-F]{8}]. *)
Definition is_upper_hex (c : ascii) : bool :=
  let n := nat_of_ascii c in
  orb (andb (Nat.leb 48 n) (Nat.leb n 57)) (andb (Nat.leb 65 n) (Nat.leb n 70)).

Definition is_auth_number (s : string) : bool :=
  match String.list_ascii_of_string s with
  | "P"%char :: "T"%char :: "-"%char :: r =>
      andb (Nat.eqb (length r) 8) (forallb is_upper_hex r)
  | _ => false
  end.

(** The [action] fields of a run of audit events, oldest first. *)
Definition actions (events : list dict) : list (option value) :=
  map (Py.get "action") events.

(** The audit events recorded for one entity. *)
Definition audit_of (entity_id : string) (w : World) : list dict :=
  Mongo.keyed "entityId" entity_id (c_audit_events (db w)).

(** The five actions of a completed run. *)
Definition run_actions (auth_required : bool) : list (option value) :=
  [Some (VStr "runStarted");
   Some (VStr "ocrExtracted");
   Some (VStr "eligibilityChecked");
   Some (VStr (if auth_required then "authObtained" else "authWaived"));
   Some (VStr "saved")].

(** ** Sample environments *)

(** A clock that advances by one second per reading from
    2025-01-01T12:00:00, an unconfigured extraction service. *)
Definition demo_env : Env :=
  mkEnv (fun n => 1735732800000000 + 1000000 * Z.of_nat n)
        (fun n => 0x0123456789abcdef0123456789abcdef + Z.of_nat n)
        false
        (fun _ _ => None)
        (fun p => "/srv/app/" +:+ p).

(** A clock read at 2025-01-01T23:59:59.999999 and, one microsecond later,
    at 2025-01-02T00:00:00. *)
Definition midnight_env : Env :=
  mkEnv (fun n => 1735775999999999 + Z.of_nat n)
        (fun n => 0x0123456789abcdef0123456789abcdef + Z.of_nat n)
        false
        (fun _ _ => None)
        (fun p => "/srv/app/" +:+ p).

(** The store after one upload, and the id it was given. *)
Definition demo_world : World := exec (upload_intake demo_env "referral.pdf") World.init.
Definition demo_intake : string := "01234567-89ab-4def-8123-456789abcdef".

(** ** The pieces of a pipeline run *)

(** The document [emit_audit] inserts, given the clock reading and the
    object id it drew. *)
Definition audit_event (entity_type entity_id action : string)
    (before after : value) (now : Z) (oid : nat) : dict :=
  [("_id", VObjectId oid);
   ("entityType", VStr entity_type);
   ("entityId", VStr entity_id);
   ("action", VStr action);
   ("actorRole", VStr "system");
   ("timestamp", VDatetime now);
   ("beforeJson", before);
   ("afterJson", after);
   ("runId", VNone)].

(** What [extract_fields_with_azure] returns on its [calls]-th call. *)
Definition extracted_payload (E : Env) (calls : nat) (image_url : string) : value :=
  if negb (azure_configured E) then _empty_payload
  else match azure_response E calls image_url with
       | Some data => data
       | None => _empty_payload
       end.

(** The values a run computes from the intake record, in the order the
    pipeline computes them: the payload after defaults, the visits
    requested and the flattened fields; or the first exception. *)
Definition run_plan (E : Env) (calls : nat) (intake : dict)
    : result (value * Z * dict) :=
  image_url ← image_url_of E (Py.get_default "sourceFilePath" VNone intake);
  extracted ← apply_defaults (extracted_payload E calls image_url);
  visits_requested ← visits_requested_of extracted;
  flat ← _flatten_extracted extracted;
  mret (extracted, visits_requested, flat).

(** The stub transcript of a run. *)
Definition run_transcript : dict :=
  [("stepsJson", VList []); ("dtmfJson", VList []);
   ("outcomeSummary", VStr "simulated")].

(** [ev] is an audit event of the pipeline for [id], with this action and
    [after] snapshot. *)
Definition emitted (id action : string) (after : value) (ev : dict) : Prop :=
  exists now oid, ev = audit_event "pt_intake" id action VNone after now oid.

(** What a completed run that computed [extracted], [v] and [flat] leaves
    in the store: three upserts keyed by the intake, the intake record
    updated, five audit events appended. *)
Definition run_outcome (E : Env) (id : string) (w w' : World)
    (extracted : value) (v : Z) (flat : dict) : Prop :=
  exists auth wa e1 e2 e3 e4 e5 o1 o2 o3 o4 now,
    eval (IVRService.calculate_auth E v) wa = Ok auth /\
    emitted id "runStarted" VNone e1 /\
    emitted id "ocrExtracted" extracted e2 /\
    emitted id "eligibilityChecked" (VDict IVRService._benefits_summary) e3 /\
    emitted id (if v >? 6 then "authObtained" else "authWaived") (VDict auth) e4 /\
    emitted id "saved" VNone e5 /\
    db w' =
      mkDatabase
        (Mongo.upserted "_id" id
           (Py.update [("updatedAt", VDatetime now); ("status", VStr "saved")] flat)
           false o4 (c_pt_intakes (db w)))
        (Mongo.upserted "intakeId" id
           (Py.update [("intakeId", VStr id)] IVRService._benefits_summary)
           true o1 (c_eligibility_results (db w)))
        (Mongo.upserted "intakeId" id
           (Py.update [("intakeId", VStr id)] auth)
           true o2 (c_authorization_records (db w)))
        (Mongo.upserted "intakeId" id
           (Py.update [("intakeId", VStr id)] run_transcript)
           true o3 (c_call_transcripts (db w)))
        (c_audit_events (db w) ++ [e1; e2; e3; e4; e5]).

(** The empty payload with the three clinical defaults filled in. *)
Definition defaulted_payload : value :=
  VDict
    [("patient",
      VDict [("firstName", VStr EmptyString); ("lastName", VStr EmptyString);
             ("dob", VStr EmptyString)]);
     ("insurance",
      VDict [("payerName", VStr EmptyString); ("planName", VStr EmptyString);
             ("groupNumber", VNone); ("memberId", VStr EmptyString);
             ("subscriberName", VStr EmptyString)]);
     ("clinical",
      VDict [("icd10Code", VStr "M25.561");
             ("cptCodes", VList [VStr "97161"; VStr "97110"]);
             ("visitsRequested", VInt 8)]);
     ("provider",
      VDict [("referringProviderName", VStr EmptyString);
             ("referringProviderNpi", VStr EmptyString);
             ("siteOfCare", VStr EmptyString)])].

(** Its flattened fields. *)
Definition defaulted_flat : dict :=
  [("patientFirst", VStr EmptyString);
   ("patientLast", VStr EmptyString);
   ("dob", VStr EmptyString);
   ("payerName", VStr EmptyString);
   ("planName", VStr EmptyString);
   ("groupNumber", VNone);
   ("memberId", VStr EmptyString);
   ("subscriberName", VStr EmptyString);
   ("referringProviderName", VStr EmptyString);
   ("referringProviderNpi", VStr EmptyString);
   ("siteOfCare", VStr EmptyString);
   ("cptCodes", VList [VStr "97161"; VStr "97110"]);
   ("icd10Code", VStr "M25.561");
   ("visitsRequested", VInt 8)].

(** The intake record the demo upload created. *)
Definition demo_record : dict :=
  [("_id", VStr demo_intake);
   ("createdAt", VDatetime 1735732800000000);
   ("updatedAt", VDatetime 1735732801000000);
   ("sourceFilePath",
    VStr "uploads/01234567-89ab-4def-8123-456789abcdef_referral.pdf");
   ("status", VStr "created")].

(** No session carries an authorization result. *)
Definition no_auth_result (w : World) : Prop :=
  map_Forall (fun _ s => Session.authResult s = None) (sessions w).

(** The collections that hold one derived record per intake. *)
Definition record_collection (c : collection) : bool :=
  match c with
  | eligibility_results | authorization_records | call_transcripts => true
  | pt_intakes | audit_events => false
  end.

(** How many documents of [c] are keyed by the intake [id]. *)
Definition records_of (c : collection) (id : string) (w : World) : nat :=
  length (Mongo.keyed "intakeId" id (Mongo.docs c (db w))).

(** No intake has two eligibility, authorization or transcript documents. *)
Definition at_most_one_each (w : World) : Prop :=
  forall c id, record_collection c = true -> (records_of c id w <= 1)%nat.

(** A computation never adds a second derived record for any intake. *)
Definition no_duplicates {A} (m : M A) : Prop :=
  forall w c id, record_collection c = true ->
    (records_of c id (exec m w) <= Nat.max 1 (records_of c id w))%nat.

(** The stores the intake routes can build, one request after the other. *)
Inductive reachable (E : Env) : World -> Prop :=
  | reach_init : reachable E World.init
  | reach_upload w filename :
      reachable E w -> reachable E (exec (upload_intake E filename) w)
  | reach_run w id :
      reachable E w -> reachable E (exec (run_intake_pipeline E id) w).

(** Every intake record names its source file. *)
Definition has_path (d : dict) : Prop :=
  exists p, Py.get "sourceFilePath" d = Some (VStr p).

Definition intakes_have_paths (w : World) : Prop :=
  Forall has_path (c_pt_intakes (db w)).

(** A computation keeps that. *)
Definition keeps_paths {A} (m : M A) : Prop :=
  forall w, intakes_have_paths w -> intakes_have_paths (exec m w).

(** The sequence of digits of the spec's IVR walk-through. *)
Definition auth_walk : list string :=
  ["2"; "1"; "2"; "3"; "#"; "1"; "9"; "9"; "0"; "0"; "1"; "0"; "1"; "#"].

(** The session [start] stores. *)
Definition fresh_session : Session.t :=
  Session.mk mainMenu IVRService.menu_prompt [] [] None None None None.

(** ** Vocabulary for the further properties *)

(** How far a session has come: the stages of a call, in order. *)
Definition rank (s : ivr_state) : nat :=
  match s with
  | mainMenu => 0
  | collectMemberIdElig | collectMemberIdAuth => 1
  | collectDobElig | collectDobAuth => 2
  | benefitsSummary | checkAuthRequirement => 3
  | ended => 4
  end.

(** A key press that a collecting state takes as data: neither the
    terminator [#] nor [0]. *)
Definition is_entry (d : string) : bool :=
  negb (String.eqb d "#") && negb (String.eqb d "0").

(** The presses of a list, concatenated. *)
Definition join (ds : list string) : string :=
  fold_right String.append EmptyString ds.

(** What a session created by [start] can look like after any presses:
    the buffers and the benefits are filled stage by stage, the transcript
    and the authorization never. *)
Definition session_staged (s : Session.t) : Prop :=
  Session.transcript s = [] /\
  match Session.state s with
  | mainMenu =>
      Session.memberId s = None /\ Session.dob s = None /\
      Session.benefits s = None
  | collectMemberIdElig | collectMemberIdAuth =>
      Session.dob s = None /\ Session.benefits s = None
  | collectDobElig | collectDobAuth => Session.benefits s = None
  | benefitsSummary | checkAuthRequirement =>
      Session.benefits s = Some IVRService._benefits_summary /\
      Session.dob s <> None
  | ended =>
      Session.benefits s = None \/
      Session.benefits s = Some IVRService._benefits_summary
  end.

(** A payload [apply_defaults] accepts: a dict whose [clinical] entry, if
    any, is a dict. *)
Definition well_shaped (payload : value) : bool :=
  match payload with
  | VDict d =>
      match Py.get "clinical" d with
      | None | Some (VDict _) => true
      | Some _ => false
      end
  | _ => false
  end.

(** The default [apply_defaults] has for a clinical field, if it has one. *)
Definition clinical_default (field : string) : option value :=
  if String.eqb field "cptCodes" then Some (VList [VStr "97161"; VStr "97110"])
  else if String.eqb field "icd10Code" then Some (VStr "M25.561")
  else if String.eqb field "visitsRequested" then Some (VInt 8)
  else None.

(** One [if not clinical.get(k): clinical[k] = v]. *)
Definition fill (k : string) (v : value) (clinical : dict) : dict :=
  if negb (Py.truthy (Py.get_default k VNone clinical))
  then Py.set k v clinical
  else clinical.

(** An extraction response with a diagnosis but no procedure codes and a
    zero visit count, and no provider group. *)
Definition sample_clinical : dict :=
  [("icd10Code", VStr "S83.241A"); ("cptCodes", VList []);
   ("visitsRequested", VInt 0); ("notes", VStr "post-op")].

Definition sample_payload : dict :=
  [("patient", VDict [("firstName", VStr "Ada"); ("lastName", VStr "Li")]);
   ("clinical", VDict sample_clinical)].




(** The derived records of a world: the three collections keyed by intake. *)
Definition derived_records (w : World) : list dict * list dict * list dict :=
  (c_eligibility_results (db w), c_authorization_records (db w),
   c_call_transcripts (db w)).

(** The fields [persist_results] sets on the intake record. *)
Definition patched_keys : list string :=
  ["updatedAt"; "status"; "patientFirst"; "patientLast"; "dob"; "payerName";
   "planName"; "groupNumber"; "memberId"; "subscriberName";
   "referringProviderName"; "referringProviderNpi"; "siteOfCare"; "cptCodes";
   "icd10Code"; "visitsRequested"].

(** The documents of a collection the query [{key: x}] does not select. *)
Definition others (key x : string) (l : list dict) : list dict :=
  List.filter (fun d => negb (Mongo.matches key x d)) l.

(** What does not belong to the intake [id]: the intake records of other
    ids, the derived records and audit events of other intakes, and the
    IVR sessions. *)
Definition foreign (id : string) (w : World) :
    list dict * list dict * list dict * list dict * list dict *
    gmap string Session.t :=
  (others "_id" id (c_pt_intakes (db w)),
   others "intakeId" id (c_eligibility_results (db w)),
   others "intakeId" id (c_authorization_records (db w)),
   others "intakeId" id (c_call_transcripts (db w)),
   others "entityId" id (c_audit_events (db w)),
   sessions w).

(** A computation that leaves all of that as it was, however it ends. *)
Definition confined (id : string) {A} (m : M A) : Prop :=
  forall w, foreign id (exec m w) = foreign id w.

(** ** [routes/intake.py] and [routes/audit.py]: the answers *)

(** What a route answers: a JSON body, or the [HTTPException] it raised. *)
Inductive response : Type :=
  | Json (body : dict)
  | HTTPException (status_code : Z) (detail : string).

(** [background_tasks.add_task(task)]: the task runs once the answer is on
    its way, and what it raises never reaches the client. *)
Definition add_task (task : M unit) : M unit :=
  fun w => (Ok tt, snd (task w)).

(** The projection [{"_id": 0}], and the comprehension
    [{k: v for k, v in ev.items() if k != "_id"}]. *)
Definition without_id (d : dict) : dict :=
  List.filter (fun kv => negb (String.eqb (fst kv) "_id")) d.

(** A [find_one] result as a value: the document, or [None]. *)
Definition doc_value (o : option dict) : value :=
  match o with
  | Some d => VDict d
  | None => VNone
  end.

(** The documents the query [{"entityType": t, "entityId": x}] selects. *)
Definition of_entity (t x : string) (l : list dict) : list dict :=
  List.filter
    (fun ev => Mongo.matches "entityType" t ev && Mongo.matches "entityId" x ev) l.

Section Answers.
Context (E : Env).
(** [cursor.sort("timestamp", 1)]: the order in which the server hands the
    selected documents back. *)
Context (sort_by_timestamp : list dict -> list dict).

Definition run_intake (intake_id : string) : M response :=
  exists_ ← find_one pt_intakes "_id" intake_id;
  if negb (Py.truthy (doc_value exists_))
  then mret (HTTPException 404 "intake not found")
  else
    add_task (run_intake_pipeline E intake_id);;
    mret (Json [("runId", VStr intake_id)]).

Definition get_intake (intake_id : string) : M response :=
  intake ← find_one pt_intakes "_id" intake_id;
  let intake := option_map without_id intake in
  if negb (Py.truthy (doc_value intake))
  then mret (HTTPException 404 "intake not found")
  else
    eligibility ← find_one eligibility_results "intakeId" intake_id;
    authorization ← find_one authorization_records "intakeId" intake_id;
    transcript ← find_one call_transcripts "intakeId" intake_id;
    d ← get_db;
    let audit_cursor :=
      sort_by_timestamp (Mongo.keyed "entityId" intake_id (c_audit_events d)) in
    let audit := map without_id audit_cursor in
    mret (Json [("intake", doc_value intake);
                ("eligibility", doc_value (option_map without_id eligibility));
                ("authorization", doc_value (option_map without_id authorization));
                ("transcript", doc_value (option_map without_id transcript));
                ("audit", VList (map VDict audit))]).

Definition get_audit (entity entity_id : string) : M response :=
  d ← get_db;
  let cursor := sort_by_timestamp (of_entity entity entity_id (c_audit_events d)) in
  let events := map without_id cursor in
  if negb (Py.truthy (VList (map VDict events)))
  then mret (Json [("events", VList [])])
  else mret (Json [("events", VList (map VDict events))]).

End Answers.

(** Every audit event is one of an intake. *)
Definition audit_typed (w : World) : Prop :=
  Forall (fun ev => Py.get "entityType" ev = Some (VStr "pt_intake"))
    (c_audit_events (db w)).

(** No top-level [_id] in a document, or in the documents of a list. *)
Definition hides_id (v : value) : Prop :=
  match v with
  | VDict d => Py.get "_id" d = None
  | VList l =>
      Forall (fun v => match v with VDict d => Py.get "_id" d = None | _ => True end) l
  | _ => True
  end.

(** A store in which the intake [demo_intake] holds nothing but its id. *)
Definition bare_world : World :=
  mkWorld (mkDatabase [[("_id", VStr demo_intake)]] [] [] [] []) ∅ 0 0 0 0.

(** A computation that only appends to the audit log, and only events
    satisfying [P]. *)
Definition logs (P : dict -> Prop) {A} (m : M A) : Prop :=
  forall w, exists events,
    c_audit_events (db (exec m w)) = c_audit_events (db w) ++ events /\
    Forall P events.

(** An audit event of an intake. *)
Definition intake_event (ev : dict) : Prop :=
  Py.get "entityType" ev = Some (VStr "pt_intake").

(** ** Sorting by timestamp *)


Definition stamp (d : dict) : Z :=
  match Py.get "timestamp" d with
  | Some (VDatetime t) => t
  | _ => 0
  end.

(** Ascending by timestamp. *)
Definition earlier (a b : dict) : Prop := stamp a <= stamp b.

#[global] Instance earlier_dec : RelDecision earlier :=
  fun a b => decide (stamp a <= stamp b).


(** * Properties *)

(** ** Stepping through the effect monad *)

Lemma bind_ok {A B} (m : M A) (k : A -> M B) w a w1 :
  m w = (Ok a, w1) -> (m ≫= k) w = k a w1.
Proof. intros H. unfold mbind, M_bind. now rewrite H. Qed.

Lemma bind_raise {A B} (m : M A) (k : A -> M B) w e w1 :
  m w = (Raise e, w1) -> (m ≫= k) w = (Raise e, w1).
Proof. intros H. unfold mbind, M_bind. now rewrite H. Qed.

Lemma bind_lift {A B} (r : result A) (k : A -> M B) w :
  (lift r ≫= k) w = match r with Ok a => k a w | Raise e => (Raise e, w) end.
Proof. destruct r; reflexivity. Qed.

Lemma rbind_ok {A B} (a : A) (k : A -> result B) : (Ok a ≫= k) = k a.
Proof. reflexivity. Qed.

Lemma rbind_raise {A B} (e : exn) (k : A -> result B) : (Raise e ≫= k) = Raise e.
Proof. reflexivity. Qed.

(** ** The IVR session state machine *)

Lemma dtmf_found sid d w s :
  sessions w !! sid = Some s ->
  IVRService.dtmf sid d w =
    (Ok (IVRService.reply sid (press d s)),
     mkWorld (db w) (<[sid := press d s]> (sessions w)) (clock_reads w)
       (uuid_draws w) (oid_draws w) (azure_calls w)).
Proof.
  intros H. unfold IVRService.dtmf, mbind, M_bind, get_sessions. simpl.
  rewrite H. reflexivity.
Qed.

Lemma dtmf_missing sid d w :
  sessions w !! sid = None ->
  IVRService.dtmf sid d w = (Ok IVRService.not_found, w).
Proof.
  intros H. unfold IVRService.dtmf, mbind, M_bind, get_sessions. simpl.
  rewrite H. reflexivity.
Qed.

Lemma dial_found sid ds : forall w s,
  sessions w !! sid = Some s ->
  sessions (exec (dial sid ds) w) !! sid =
    Some (fold_left (fun s d => press d s) ds s).
Proof.
  induction ds as [|d ds IH]; intros w s H; simpl.
  - exact H.
  - unfold exec in *. rewrite (bind_ok _ _ _ _ _ (dtmf_found sid d w s H)).
    apply IH. simpl. apply lookup_insert_eq.
Qed.

Lemma start_run E w :
  let sid := Uuid.str (Uuid.uuid4_int (urandom16 E (uuid_draws w))) in
  IVRService.start E w =
    (Ok [("sessionId", VStr sid); ("state", VStr "mainMenu");
         ("prompt", VStr IVRService.menu_prompt)],
     mkWorld (db w) (<[sid := fresh_session]> (sessions w)) (clock_reads w)
       (S (uuid_draws w)) (oid_draws w) (azure_calls w)).
Proof. reflexivity. Qed.

Lemma press_zero s :
  Session.state (press "0" s) = ended /\ Session.prompt (press "0" s) = "Goodbye".
Proof. split; reflexivity. Qed.

Lemma press_ended d s :
  Session.state s = ended -> Session.state (press d s) = ended.
Proof.
  intros H. unfold press, IVRService.on_state, IVRService.on_zero. simpl.
  rewrite H. destruct (String.eqb d "0"); simpl; auto.
Qed.

Lemma press_auth_result d s :
  Session.authResult (press d s) = Session.authResult s.
Proof.
  unfold press, IVRService.on_zero, IVRService.on_state.
  destruct s as [st pr dt tr mi dob be ar]; simpl.
  destruct st; simpl;
    repeat match goal with
           | |- context [if ?b then _ else _] => destruct b; simpl
           end; reflexivity.
Qed.

Lemma do_call_no_auth_result E c w :
  no_auth_result w -> no_auth_result (exec (do_call E c) w).
Proof.
  unfold no_auth_result, exec. intros H. destruct c as [|sid d|sid|v]; simpl.
  - apply map_Forall_insert_2; [reflexivity | exact H].
  - destruct (sessions w !! sid) as [s|] eqn:Hs.
    + rewrite (dtmf_found _ _ _ _ Hs). simpl.
      apply map_Forall_insert_2; [|exact H].
      rewrite press_auth_result. exact (H _ _ Hs).
    + rewrite (dtmf_missing _ _ _ Hs). exact H.
  - unfold IVRService.result, mbind, M_bind, get_sessions. simpl.
    destruct (sessions w !! sid); exact H.
  - unfold IVRService.calculate_auth, mbind, M_bind. simpl.
    destruct (v >? 6); exact H.
Qed.

Lemma do_calls_no_auth_result E cs : forall w,
  no_auth_result w -> no_auth_result (exec (do_calls E cs) w).
Proof.
  induction cs as [|c cs IH]; intros w H; simpl.
  - exact H.
  - pose proof (do_call_no_auth_result E c w H) as H1.
    unfold exec in *. unfold mbind, M_bind.
    destruct (do_call E c w) as [[a|e] w1]; simpl in *.
    + apply IH. exact H1.
    + exact H1.
Qed.

(** C3, as the code has it: from a fresh session the digits 2, 1, 2, 3 reach
    [collectMemberIdAuth] with member-id buffer "123", [#] reaches
    [collectDobAuth], and the digits 1, 9, 9, 0 leave the DOB buffer at
    "1990" with the session [ended] by the closing rule on 0; the rest of
    the sequence keeps it [ended], so it never reaches
    [checkAuthRequirement]. *)
Theorem auth_walk_ends_on_zero E w :
  let sid := Uuid.str (Uuid.uuid4_int (urandom16 E (uuid_draws w))) in
  let w0 := exec (IVRService.start E) w in
  let after ds := sessions (exec (dial sid ds) w0) !! sid in
  Session.state <$> after [] = Some mainMenu /\
  Session.state <$> after ["2"; "1"; "2"; "3"] = Some collectMemberIdAuth /\
  Session.memberId <$> after ["2"; "1"; "2"; "3"] = Some (Some "123") /\
  Session.state <$> after ["2"; "1"; "2"; "3"; "#"] = Some collectDobAuth /\
  Session.state <$> after ["2"; "1"; "2"; "3"; "#"; "1"; "9"; "9"] = Some collectDobAuth /\
  Session.dob <$> after ["2"; "1"; "2"; "3"; "#"; "1"; "9"; "9"] = Some (Some "199") /\
  Session.state <$> after ["2"; "1"; "2"; "3"; "#"; "1"; "9"; "9"; "0"] = Some ended /\
  Session.state <$> after auth_walk = Some ended /\
  Session.memberId <$> after auth_walk = Some (Some "123") /\
  Session.dob <$> after auth_walk = Some (Some "1990").
Proof.
  intros sid w0 after.
  assert (H0 : sessions w0 !! sid = Some fresh_session).
  { unfold w0, exec. rewrite start_run. simpl. apply lookup_insert_eq. }
  unfold after.
  repeat split;
    (rewrite (dial_found sid _ w0 fresh_session H0); reflexivity).
Qed.

(** C3, as stated, fails: on a fresh session the sequence ends in state
    [ended] with DOB buffer "1990", not in [checkAuthRequirement] with
    "19900101". *)
Lemma auth_walk_not_check_auth :
  let w0 := exec (IVRService.start demo_env) World.init in
  let s := sessions (exec (dial demo_intake auth_walk) w0) !! demo_intake in
  eval (IVRService.start demo_env) World.init =
    Ok [("sessionId", VStr demo_intake); ("state", VStr "mainMenu");
        ("prompt", VStr IVRService.menu_prompt)] /\
  Session.state <$> s = Some ended /\
  Session.dob <$> s = Some (Some "1990") /\
  Session.state <$> s <> Some checkAuthRequirement /\
  Session.dob <$> s <> Some (Some "19900101").
Proof. vm_compute. repeat split; congruence. Qed.

(** C4: on an existing session, in whatever state, the digit 0 leaves the
    session [ended] with prompt "Goodbye" and reports so; the closing rule
    does this to whatever the state-specific rule produced. *)
Theorem dtmf_zero_ends sid w s :
  sessions w !! sid = Some s ->
  (exists s',
     sessions (exec (IVRService.dtmf sid "0") w) !! sid = Some s' /\
     Session.state s' = ended /\ Session.prompt s' = "Goodbye") /\
  eval (IVRService.dtmf sid "0") w =
    Ok [("sessionId", VStr sid); ("state", VStr "ended"); ("prompt", VStr "Goodbye")] /\
  (forall x, Session.state (IVRService.on_zero "0" x) = ended /\
             Session.prompt (IVRService.on_zero "0" x) = "Goodbye").
Proof.
  intros H. unfold exec, eval. rewrite (dtmf_found _ _ _ _ H). simpl.
  split; [|split].
  - exists (press "0" s). split; [apply lookup_insert_eq | apply press_zero].
  - reflexivity.
  - intros x. split; reflexivity.
Qed.

Lemma dtmf_zero_ends_witness :
  let w := exec (IVRService.start demo_env;; dial demo_intake ["2"; "7"]) World.init in
  let s := fold_left (fun s d => press d s) ["2"; "7"] fresh_session in
  (sessions w !! demo_intake = Some s /\ Session.state s = collectMemberIdAuth) /\
  (exists s',
     sessions (exec (IVRService.dtmf demo_intake "0") w) !! demo_intake = Some s' /\
     Session.state s' = ended /\ Session.prompt s' = "Goodbye") /\
  eval (IVRService.dtmf demo_intake "0") w =
    Ok [("sessionId", VStr demo_intake); ("state", VStr "ended");
        ("prompt", VStr "Goodbye")] /\
  (forall x, Session.state (IVRService.on_zero "0" x) = ended /\
             Session.prompt (IVRService.on_zero "0" x) = "Goodbye").
Proof.
  intros w s.
  assert (H : sessions w !! demo_intake = Some s) by (vm_compute; reflexivity).
  split; [split; [exact H | reflexivity]|].
  exact (dtmf_zero_ends demo_intake w s H).
Defined.

(** C8, as the code has it: in [mainMenu] a digit other than 1, 2 and 0
    keeps the state and sets the prompt to the "Invalid. ..." text, which is
    not the prompt the session started with. *)
Theorem main_menu_invalid_digit sid w s d :
  sessions w !! sid = Some s ->
  Session.state s = mainMenu ->
  d <> "1" -> d <> "2" -> d <> "0" ->
  exists s',
    sessions (exec (IVRService.dtmf sid d) w) !! sid = Some s' /\
    Session.state s' = mainMenu /\
    Session.prompt s' = "Invalid. Press 1 for Eligibility, 2 for Prior auth, 0 to end" /\
    Session.prompt s' <> IVRService.menu_prompt /\
    eval (IVRService.dtmf sid d) w =
      Ok [("sessionId", VStr sid); ("state", VStr "mainMenu");
          ("prompt", VStr "Invalid. Press 1 for Eligibility, 2 for Prior auth, 0 to end")].
Proof.
  intros H Hst H1 H2 H0. unfold exec, eval. rewrite (dtmf_found _ _ _ _ H). simpl.
  exists (press d s). split; [apply lookup_insert_eq|].
  assert (Hp : press d s =
    IVRService.set_prompt "Invalid. Press 1 for Eligibility, 2 for Prior auth, 0 to end"
      (IVRService.set_dtmf (Session.dtmf s ++ [d]) s)).
  { unfold press, IVRService.on_state, IVRService.on_zero. simpl. rewrite Hst.
    apply String.eqb_neq in H1, H2, H0. rewrite H1, H2, H0. reflexivity. }
  unfold IVRService.reply. rewrite Hp. simpl. rewrite Hst.
  repeat split; try reflexivity. discriminate.
Qed.

Lemma main_menu_invalid_digit_witness :
  let w := exec (IVRService.start demo_env) World.init in
  (sessions w !! demo_intake = Some fresh_session /\
   Session.state fresh_session = mainMenu /\
   "5" <> "1" /\ "5" <> "2" /\ "5" <> "0") /\
  exists s',
    sessions (exec (IVRService.dtmf demo_intake "5") w) !! demo_intake = Some s' /\
    Session.state s' = mainMenu /\
    Session.prompt s' = "Invalid. Press 1 for Eligibility, 2 for Prior auth, 0 to end" /\
    Session.prompt s' <> IVRService.menu_prompt /\
    eval (IVRService.dtmf demo_intake "5") w =
      Ok [("sessionId", VStr demo_intake); ("state", VStr "mainMenu");
          ("prompt", VStr "Invalid. Press 1 for Eligibility, 2 for Prior auth, 0 to end")].
Proof.
  intros w.
  assert (H : sessions w !! demo_intake = Some fresh_session)
    by (vm_compute; reflexivity).
  split.
  - split; [exact H|]. split; [reflexivity|]. repeat split; discriminate.
  - apply (main_menu_invalid_digit demo_intake w fresh_session "5" H);
      [reflexivity | discriminate..].
Defined.

(** C8, as stated, fails: pressing 5 on a fresh session keeps [mainMenu]
    but the prompt is not the original menu text. *)
Lemma main_menu_reprompt_differs :
  let w := exec (IVRService.start demo_env) World.init in
  let before := sessions w !! demo_intake in
  let after := sessions (exec (IVRService.dtmf demo_intake "5") w) !! demo_intake in
  Session.state <$> before = Some mainMenu /\
  Session.prompt <$> before = Some IVRService.menu_prompt /\
  Session.state <$> after = Some mainMenu /\
  Session.prompt <$> after <> Some IVRService.menu_prompt.
Proof. vm_compute. repeat split; congruence. Qed.

(** C9: whatever calls the IVR service has served since it was created, no
    session has an authorization result, and [result] on an existing
    session returns [authResult] null. *)
Theorem result_auth_always_null E cs sid s :
  sessions (exec (do_calls E cs) World.init) !! sid = Some s ->
  Session.authResult s = None /\
  eval (IVRService.result sid) (exec (do_calls E cs) World.init) =
    Ok [("sessionId", VStr sid);
        ("benefits", IVRService.opt_value (Session.benefits s));
        ("authResult", VNone)].
Proof.
  intros H.
  assert (Hinv : no_auth_result (exec (do_calls E cs) World.init)).
  { apply do_calls_no_auth_result. unfold no_auth_result. simpl.
    apply map_Forall_empty. }
  pose proof (Hinv _ _ H) as Ha. split; [exact Ha|].
  unfold eval, IVRService.result, mbind, M_bind, get_sessions. simpl.
  rewrite H. simpl. rewrite Ha. reflexivity.
Qed.

Lemma result_auth_always_null_witness :
  let cs := CallStart :: map (CallDtmf demo_intake) ["2"; "1"; "#"; "7"; "#"; "9"] in
  let s := fold_left (fun s d => press d s) ["2"; "1"; "#"; "7"; "#"; "9"] fresh_session in
  (sessions (exec (do_calls demo_env cs) World.init) !! demo_intake = Some s /\
   Session.state s = checkAuthRequirement) /\
  Session.authResult s = None /\
  eval (IVRService.result demo_intake) (exec (do_calls demo_env cs) World.init) =
    Ok [("sessionId", VStr demo_intake);
        ("benefits", IVRService.opt_value (Session.benefits s));
        ("authResult", VNone)].
Proof.
  intros cs s.
  assert (H : sessions (exec (do_calls demo_env cs) World.init) !! demo_intake = Some s)
    by (vm_compute; reflexivity).
  split; [split; [exact H | reflexivity]|].
  exact (result_auth_always_null demo_env cs demo_intake s H).
Defined.

(** C10: [ended] is absorbing: once a session is [ended], any further
    digits leave it [ended]. *)
Theorem ended_is_absorbing sid ds w s :
  sessions w !! sid = Some s ->
  Session.state s = ended ->
  exists s',
    sessions (exec (dial sid ds) w) !! sid = Some s' /\
    Session.state s' = ended.
Proof.
  intros H Hst. rewrite (dial_found sid ds w s H).
  eexists; split; [reflexivity|].
  clear H. revert s Hst. induction ds as [|d ds IH]; intros s Hst; simpl.
  - exact Hst.
  - apply IH. apply press_ended. exact Hst.
Qed.

Lemma ended_is_absorbing_witness :
  let w := exec (IVRService.start demo_env;; dial demo_intake ["0"]) World.init in
  (sessions w !! demo_intake = Some (press "0" fresh_session) /\
   Session.state (press "0" fresh_session) = ended) /\
  exists s',
    sessions (exec (dial demo_intake ["1"; "2"; "#"; "9"; "0"; "5"]) w) !! demo_intake
      = Some s' /\
    Session.state s' = ended.
Proof.
  intros w.
  assert (H : sessions w !! demo_intake = Some (press "0" fresh_session))
    by (vm_compute; reflexivity).
  split; [split; [exact H | reflexivity]|].
  apply (ended_is_absorbing demo_intake _ w _ H). reflexivity.
Defined.

(** ** The rule engine *)

Lemma calculate_auth_run E v w :
  IVRService.calculate_auth E v w =
    (Ok [("authRequired", VBool (v >? 6));
         ("visitsApproved",
          VInt (if v >? 6 then Z.max 0 (Z.min 6 (Z.min (12 - 2) v)) else 0));
         ("authNumber",
          if v >? 6
          then VStr (IVRService.auth_number
                       (Uuid.uuid4_int (urandom16 E (uuid_draws w))))
          else VNone);
         ("validFrom", VStr (Cal.isoformat (Cal.date (utcnow E (clock_reads w)))));
         ("validTo",
          VStr (Cal.isoformat
                  (Cal.date (utcnow E (S (clock_reads w)) + Cal.timedelta_days 60))))],
     mkWorld (db w) (sessions w) (S (S (clock_reads w)))
       (if v >? 6 then S (uuid_draws w) else uuid_draws w)
       (oid_draws w) (azure_calls w)).
Proof.
  unfold IVRService.calculate_auth, IVRService._now, mbind, M_bind,
    datetime_utcnow, uuid4, mret, M_ret.
  destruct (v >? 6); reflexivity.
Qed.

Lemma hex_char_upper d : is_upper_hex (Py.upper_char (Uuid.hex_char d)) = true.
Proof.
  unfold Uuid.hex_char. generalize (Z.to_nat d). intros n.
  do 16 (destruct n as [|n]; [reflexivity|]). destruct n; reflexivity.
Qed.

Lemma forallb_map_all {A B} (p : B -> bool) (f : A -> B) (l : list A) :
  (forall x, p (f x) = true) -> forallb p (map f l) = true.
Proof.
  intros H. induction l as [|x l IH]; simpl; [reflexivity|].
  now rewrite H, IH.
Qed.

Lemma list_ascii_of_append s t :
  String.list_ascii_of_string (s +:+ t) =
  String.list_ascii_of_string s ++ String.list_ascii_of_string t.
Proof. induction s as [|c s IH]; simpl; [reflexivity|]. now rewrite IH. Qed.

Lemma auth_number_matches u : is_auth_number (IVRService.auth_number u) = true.
Proof.
  unfold is_auth_number, IVRService.auth_number.
  rewrite list_ascii_of_append, String.list_ascii_of_string_of_list_ascii.
  change (String.list_ascii_of_string "PT-") with ["P"; "T"; "-"]%char.
  cbn [app].
  unfold Py.upper, Uuid.hex. rewrite firstn_map, !length_map.
  change (firstn 8 (seq 0 32)) with (seq 0 8).
  rewrite length_seq, map_map. simpl Nat.eqb. cbn [andb].
  apply forallb_map_all. intros k. apply hex_char_upper.
Qed.

(** C1: for a non-negative [visitsRequested], [calculate_auth] returns
    [authRequired = (visitsRequested > 6)]; up to 6 visits it approves 0 and
    gives no authorization number; above 6 it approves
    [min(6, 12 - 2, visitsRequested)], which is not negative, with an
    authorization number of the form [PT-[0-9A-F]{8}]. *)
Theorem calculate_auth_rule E v w :
  0 <= v ->
  exists auth,
    eval (IVRService.calculate_auth E v) w = Ok auth /\
    Py.get "authRequired" auth = Some (VBool (v >? 6)) /\
    (v <= 6 ->
       Py.get "visitsApproved" auth = Some (VInt 0) /\
       Py.get "authNumber" auth = Some VNone) /\
    (v > 6 ->
       Py.get "visitsApproved" auth = Some (VInt (Z.min 6 (Z.min (12 - 2) v))) /\
       0 <= Z.min 6 (Z.min (12 - 2) v) /\
       exists n, Py.get "authNumber" auth = Some (VStr n) /\ is_auth_number n = true).
Proof.
  intros Hv. unfold eval. rewrite calculate_auth_run. simpl fst.
  eexists; split; [reflexivity|]. split; [reflexivity|]. split.
  - intros Hle. assert (Hb : (v >? 6) = false) by lia. rewrite Hb. split; reflexivity.
  - intros Hgt. assert (Hb : (v >? 6) = true) by lia. rewrite Hb.
    split; [|split; [lia|]].
    + cbn [Py.get String.eqb Ascii.eqb Bool.eqb]. do 3 f_equal. lia.
    + eexists. split; [reflexivity | apply auth_number_matches].
Qed.

Lemma calculate_auth_rule_witness :
  0 <= 8 /\
  exists auth,
    eval (IVRService.calculate_auth demo_env 8) World.init = Ok auth /\
    Py.get "authRequired" auth = Some (VBool (8 >? 6)) /\
    (8 <= 6 ->
       Py.get "visitsApproved" auth = Some (VInt 0) /\
       Py.get "authNumber" auth = Some VNone) /\
    (8 > 6 ->
       Py.get "visitsApproved" auth = Some (VInt (Z.min 6 (Z.min (12 - 2) 8))) /\
       0 <= Z.min 6 (Z.min (12 - 2) 8) /\
       exists n, Py.get "authNumber" auth = Some (VStr n) /\ is_auth_number n = true).
Proof.
  split; [lia|]. apply (calculate_auth_rule demo_env 8 World.init). lia.
Defined.

Example calculate_auth_demo :
  eval (IVRService.calculate_auth demo_env 8) World.init =
    Ok [("authRequired", VBool true); ("visitsApproved", VInt 6);
        ("authNumber", VStr "PT-01234567");
        ("validFrom", VStr "2025-01-01"); ("validTo", VStr "2025-03-02")] /\
  eval (IVRService.calculate_auth demo_env 6) World.init =
    Ok [("authRequired", VBool false); ("visitsApproved", VInt 0);
        ("authNumber", VNone);
        ("validFrom", VStr "2025-01-01"); ("validTo", VStr "2025-03-02")].
Proof. split; vm_compute; reflexivity. Qed.

Lemma validity_same_day t1 t2 :
  Cal.date t1 = Cal.date t2 ->
  Cal.date (t2 + Cal.timedelta_days 60) - Cal.date t1 = 60.
Proof.
  intros H. rewrite H. unfold Cal.date, Cal.timedelta_days.
  rewrite Z.div_add by (unfold Cal.us_per_day; lia). lia.
Qed.

(** The dates [calculate_auth] reports, and their distance when both clock
    readings fall on the same day. *)
Lemma calculate_auth_validity E v w :
  exists auth,
    eval (IVRService.calculate_auth E v) w = Ok auth /\
    let valid_from := Cal.date (utcnow E (clock_reads w)) in
    let valid_to :=
      Cal.date (utcnow E (S (clock_reads w)) + Cal.timedelta_days 60) in
    Py.get "validFrom" auth = Some (VStr (Cal.isoformat valid_from)) /\
    Py.get "validTo" auth = Some (VStr (Cal.isoformat valid_to)) /\
    (Cal.date (utcnow E (clock_reads w)) = Cal.date (utcnow E (S (clock_reads w))) ->
     valid_to - valid_from = 60).
Proof.
  unfold eval. rewrite calculate_auth_run. eexists. split; [reflexivity|].
  cbn zeta. split; [reflexivity|]. split; [reflexivity|].
  apply validity_same_day.
Qed.

(** C7 fails when midnight passes between the two clock readings of
    [calculate_auth]: read at 2025-01-01T23:59:59.999999 and then at
    2025-01-02T00:00:00, [validFrom] is 2025-01-01 and [validTo] is
    2025-03-03, which is 61 days later. *)
Theorem validity_across_midnight :
  let valid_from := Cal.date (utcnow midnight_env 0) in
  let valid_to := Cal.date (utcnow midnight_env 1 + Cal.timedelta_days 60) in
  eval (IVRService.calculate_auth midnight_env 8) World.init =
    Ok [("authRequired", VBool true); ("visitsApproved", VInt 6);
        ("authNumber", VStr "PT-01234567");
        ("validFrom", VStr (Cal.isoformat valid_from));
        ("validTo", VStr (Cal.isoformat valid_to))] /\
  Cal.isoformat valid_from = "2025-01-01" /\
  Cal.isoformat valid_to = "2025-03-03" /\
  valid_to - valid_from = 61.
Proof. vm_compute. repeat split; reflexivity. Qed.

(** ** Dicts and collections *)

Lemma get_set k k' v d :
  Py.get k (Py.set k' v d) = if String.eqb k k' then Some v else Py.get k d.
Proof.
  induction d as [|[k0 v0] r IH]; simpl.
  - reflexivity.
  - destruct (String.eqb k' k0) eqn:E0; simpl.
    + apply String.eqb_eq in E0. subst k0. destruct (String.eqb k k'); reflexivity.
    + rewrite IH. destruct (String.eqb k k0) eqn:E1; [|reflexivity].
      apply String.eqb_eq in E1. subst k0.
      rewrite String.eqb_sym, E0. reflexivity.
Qed.

Lemma get_update_other k d items :
  Py.get k items = None -> Py.get k (Py.update d items) = Py.get k d.
Proof.
  unfold Py.update. revert d.
  induction items as [|[k1 v1] r IH]; intros d H; simpl in *.
  - reflexivity.
  - destruct (String.eqb k k1) eqn:E1; [discriminate|].
    rewrite IH by exact H. rewrite get_set, E1. reflexivity.
Qed.

Lemma docs_with_docs c c' l d :
  Mongo.docs c' (Mongo.with_docs c l d) = if decide (c' = c) then l else Mongo.docs c' d.
Proof. destruct c, c'; reflexivity. Qed.

Lemma with_docs_same c d : Mongo.with_docs c (Mongo.docs c d) d = d.
Proof. destruct d, c; reflexivity. Qed.

Lemma matches_get key x d d' :
  Py.get key d' = Py.get key d -> Mongo.matches key x d' = Mongo.matches key x d.
Proof. unfold Mongo.matches. intros ->. reflexivity. Qed.

Lemma matches_str key x d :
  Py.get key d = Some (VStr x) -> Mongo.matches key x d = true.
Proof. unfold Mongo.matches. intros ->. simpl. apply String.eqb_refl. Qed.

Lemma find_app_none {A} (p : A -> bool) (l r : list A) :
  List.find p l = None -> List.find p (l ++ r) = List.find p r.
Proof.
  induction l as [|a l IH]; simpl; [reflexivity|].
  destruct (p a); [discriminate | exact IH].
Qed.

Section UpdateFirst.
Context (p : dict -> bool) (f : dict -> dict).
Hypothesis keeps : forall d, p d = true -> p (f d) = true.

Lemma update_first_none l :
  Mongo.update_first p f l = None -> List.filter p l = [] /\ List.find p l = None.
Proof.
  induction l as [|d r IH]; simpl; [auto|].
  destruct (p d); [discriminate|].
  destruct (Mongo.update_first p f r); [discriminate|]. auto.
Qed.

Lemma update_first_some l l' :
  Mongo.update_first p f l = Some l' ->
  length (List.filter p l') = length (List.filter p l) /\
  (1 <= length (List.filter p l))%nat /\
  exists d, List.find p l = Some d /\ List.find p l' = Some (f d).
Proof.
  revert l'. induction l as [|d r IH]; simpl; intros l' H; [discriminate|].
  destruct (p d) eqn:Hd.
  - injection H as <-. simpl. rewrite (keeps d Hd). simpl.
    split; [reflexivity|]. split; [lia|]. eauto.
  - destruct (Mongo.update_first p f r) as [r'|]; [|discriminate].
    injection H as <-. simpl. rewrite Hd. apply IH. reflexivity.
Qed.

Lemma update_first_found l d :
  List.find p l = Some d -> exists l', Mongo.update_first p f l = Some l'.
Proof.
  induction l as [|d0 r IH]; simpl; [discriminate|].
  destruct (p d0); [eauto|]. intros H. destruct (IH H) as [r' ->]. simpl. eauto.
Qed.

End UpdateFirst.

(** An upsert whose fields carry the key leaves exactly one document under
    the key if there was at most one, and never fewer than one. *)
Lemma keyed_upserted key x fields oid l :
  (forall d, Py.get key (Py.update d fields) = Some (VStr x)) ->
  length (Mongo.keyed key x (Mongo.upserted key x fields true oid l)) =
    Nat.max 1 (length (Mongo.keyed key x l)).
Proof.
  intros Hk. unfold Mongo.upserted, Mongo.keyed.
  destruct (Mongo.update_first _ _ l) as [l'|] eqn:Hu.
  - apply update_first_some in Hu as (Hlen & Hge & _).
    + rewrite Hlen. lia.
    + intros d _. apply matches_str, Hk.
  - apply update_first_none in Hu as [Hu _].
    rewrite List.filter_app, Hu. simpl.
    rewrite (matches_str key x _ (Hk _)). reflexivity.
Qed.

(** After an upsert, the first document under the key carries the fields. *)
Lemma find_one_upserted key x fields oid l :
  (forall d, Py.get key (Py.update d fields) = Some (VStr x)) ->
  exists d, Mongo.find_one key x (Mongo.upserted key x fields true oid l)
            = Some (Py.update d fields).
Proof.
  intros Hk. unfold Mongo.upserted, Mongo.find_one.
  destruct (Mongo.update_first _ _ l) as [l'|] eqn:Hu.
  - apply update_first_some in Hu as (_ & _ & d & _ & Hf); [eauto|].
    intros d _. apply matches_str, Hk.
  - apply update_first_none in Hu as [_ Hu].
    rewrite (find_app_none _ _ _ Hu). simpl.
    rewrite (matches_str key x _ (Hk _)). eauto.
Qed.

(** An update without upsert whose fields leave the key alone updates the
    document [find_one] returns. *)
Lemma find_one_updated key x fields oid l d :
  Py.get key fields = None ->
  Mongo.find_one key x l = Some d ->
  Mongo.find_one key x (Mongo.upserted key x fields false oid l)
    = Some (Py.update d fields).
Proof.
  intros Hk Hf. unfold Mongo.upserted, Mongo.find_one in *.
  assert (keeps : forall d0, Mongo.matches key x d0 = true ->
                  Mongo.matches key x (Py.update d0 fields) = true).
  { intros d0 H0. rewrite <- H0. apply matches_get, get_update_other, Hk. }
  destruct (update_first_found _ (fun doc => Py.update doc fields) l d Hf) as [l' Hu].
  rewrite Hu.
  apply (update_first_some _ _ keeps) in Hu as (_ & _ & d' & Hd' & Hf').
  rewrite Hf in Hd'. injection Hd' as <-. exact Hf'.
Qed.

(** ** The effects of the pipeline's steps *)

Lemma emit_audit_run E t id a b af w :
  emit_audit E t id a b af w =
    (Ok tt,
     mkWorld
       (Mongo.with_docs audit_events
          (c_audit_events (db w) ++
           [audit_event t id a b af (utcnow E (clock_reads w)) (oid_draws w)])
          (db w))
       (sessions w) (S (clock_reads w)) (uuid_draws w) (S (oid_draws w))
       (azure_calls w)).
Proof. reflexivity. Qed.

Lemma update_one_run c key x fields upsert w :
  exists n,
    update_one c key x fields upsert w =
      (Ok tt,
       mkWorld
         (Mongo.with_docs c
            (Mongo.upserted key x fields upsert (oid_draws w) (Mongo.docs c (db w)))
            (db w))
         (sessions w) (clock_reads w) (uuid_draws w) n (azure_calls w)).
Proof.
  unfold update_one, Mongo.upserted, mbind, M_bind, get_db. simpl.
  destruct (Mongo.update_first _ _ _) as [l|].
  - eexists. reflexivity.
  - destruct upsert.
    + eexists. reflexivity.
    + exists (oid_draws w). rewrite with_docs_same. destruct w; reflexivity.
Qed.

Lemma extract_run E url w :
  exists n,
    extract_fields_with_azure E url w =
      (Ok (extracted_payload E (azure_calls w) url),
       mkWorld (db w) (sessions w) (clock_reads w) (uuid_draws w) (oid_draws w) n).
Proof.
  unfold extract_fields_with_azure, extracted_payload.
  destruct (azure_configured E); simpl.
  - unfold mbind, M_bind, azure_chat. simpl.
    destruct (azure_response E (azure_calls w) url); eexists; reflexivity.
  - exists (azure_calls w). destruct w; reflexivity.
Qed.

Lemma utcnow_run E w :
  datetime_utcnow E w =
    (Ok (utcnow E (clock_reads w)),
     mkWorld (db w) (sessions w) (S (clock_reads w)) (uuid_draws w)
       (oid_draws w) (azure_calls w)).
Proof. reflexivity. Qed.

Lemma find_one_run c key x w :
  find_one c key x w = (Ok (Mongo.find_one key x (Mongo.docs c (db w))), w).
Proof. reflexivity. Qed.

Ltac step_with H := rewrite (bind_ok _ _ _ _ _ H).

Ltac store_simpl :=
  cbn [Mongo.docs Mongo.with_docs db sessions clock_reads uuid_draws oid_draws
       azure_calls c_pt_intakes c_eligibility_results c_authorization_records
       c_call_transcripts c_audit_events fst snd].

Lemma persist_results_run E id extracted benefits auth transcript w :
  match _flatten_extracted extracted with
  | Ok flat =>
      exists o1 o2 o3 o4 n,
        persist_results E id extracted benefits auth transcript w =
          (Ok tt,
           mkWorld
             (mkDatabase
                (Mongo.upserted "_id" id
                   (Py.update [("updatedAt", VDatetime (utcnow E (clock_reads w)));
                               ("status", VStr "saved")] flat)
                   false o4 (c_pt_intakes (db w)))
                (Mongo.upserted "intakeId" id
                   (Py.update [("intakeId", VStr id)] benefits)
                   true o1 (c_eligibility_results (db w)))
                (Mongo.upserted "intakeId" id
                   (Py.update [("intakeId", VStr id)] auth)
                   true o2 (c_authorization_records (db w)))
                (Mongo.upserted "intakeId" id
                   (Py.update [("intakeId", VStr id)] transcript)
                   true o3 (c_call_transcripts (db w)))
                (c_audit_events (db w)))
             (sessions w) (S (clock_reads w)) (uuid_draws w) n (azure_calls w))
  | Raise e => eval (persist_results E id extracted benefits auth transcript) w = Raise e
  end.
Proof.
  unfold persist_results, eval.
  destruct (update_one_run eligibility_results "intakeId" id
              (Py.update [("intakeId", VStr id)] benefits) true w) as [n1 H1].
  step_with H1.
  match goal with |- context [mbind _ (update_one _ _ _ _ _) ?w1] =>
    destruct (update_one_run authorization_records "intakeId" id
                (Py.update [("intakeId", VStr id)] auth) true w1) as [n2 H2]
  end.
  step_with H2.
  match goal with |- context [mbind _ (update_one _ _ _ _ _) ?w2] =>
    destruct (update_one_run call_transcripts "intakeId" id
                (Py.update [("intakeId", VStr id)] transcript) true w2) as [n3 H3]
  end.
  step_with H3.
  clear H1 H2 H3. store_simpl.
  erewrite (bind_ok (datetime_utcnow E)) by apply utcnow_run.
  store_simpl. rewrite bind_lift.
  destruct (_flatten_extracted extracted) as [flat|e]; [|reflexivity].
  match goal with |- context [update_one _ _ _ ?fs _ ?w3] =>
    destruct (update_one_run pt_intakes "_id" id fs false w3) as [n4 H4]
  end.
  exists (oid_draws w), n1, n2, n3, n4. exact H4.
Qed.

Lemma emit_either E id (b : bool) af :
  (if b then emit_audit E "pt_intake" id "authObtained" VNone af
   else emit_audit E "pt_intake" id "authWaived" VNone af) =
  emit_audit E "pt_intake" id (if b then "authObtained" else "authWaived") VNone af.
Proof. destruct b; reflexivity. Qed.

(** A run on an existing intake raises exactly when its plan does, and
    otherwise completes with the outcome above. *)
Lemma run_intake_pipeline_found E id w intake :
  Mongo.find_one "_id" id (c_pt_intakes (db w)) = Some intake ->
  match run_plan E (azure_calls w) intake with
  | Ok (extracted, v, flat) =>
      exists w', run_intake_pipeline E id w = (Ok tt, w') /\
                 run_outcome E id w w' extracted v flat
  | Raise e => eval (run_intake_pipeline E id) w = Raise e
  end.
Proof.
  intros Hf. unfold run_intake_pipeline, run_plan, eval.
  erewrite bind_ok by apply emit_audit_run.
  erewrite bind_ok by apply find_one_run.
  store_simpl. rewrite Hf. rewrite bind_lift.
  destruct (image_url_of E (Py.get_default "sourceFilePath" VNone intake))
    as [url|e]; [rewrite rbind_ok | reflexivity].
  match goal with |- context [(extract_fields_with_azure E url ≫= _) ?w1] =>
    destruct (extract_run E url w1) as [n He]
  end.
  step_with He. clear He. store_simpl. rewrite bind_lift.
  destruct (apply_defaults (extracted_payload E (azure_calls w) url))
    as [extracted|e]; [rewrite rbind_ok | reflexivity].
  erewrite bind_ok by apply emit_audit_run.
  rewrite bind_lift.
  destruct (visits_requested_of extracted) as [v|e]; [rewrite rbind_ok | reflexivity].
  erewrite bind_ok by apply calculate_auth_run.
  erewrite bind_ok by apply emit_audit_run.
  cbn [Py.get_default Py.get String.eqb Ascii.eqb Bool.eqb Py.truthy].
  rewrite emit_either.
  erewrite bind_ok by apply emit_audit_run.
  store_simpl.
  match goal with |- context [(persist_results E id extracted ?b ?a ?t ≫= _) ?w5] =>
    pose proof (persist_results_run E id extracted b a t w5) as Hp;
    set (auth := a) in *; set (wp := w5) in *
  end.
  destruct (_flatten_extracted extracted) as [flat|e];
    [rewrite rbind_ok | rewrite rbind_raise].
  - destruct Hp as (o1 & o2 & o3 & o4 & n' & Hp).
    step_with Hp. clear Hp.
    rewrite emit_audit_run.
    eexists. split; [reflexivity|].
    exists auth,
      (mkWorld (db w) (sessions w) (S (S (clock_reads w))) (uuid_draws w) 0%nat 0%nat).
    do 5 eexists. exists o1, o2, o3, o4. eexists.
    split; [unfold eval; rewrite calculate_auth_run; reflexivity|].
    unfold wp. store_simpl.
    repeat (split; [eexists; eexists; reflexivity|]).
    rewrite <- !app_assoc. reflexivity.
  - unfold eval in Hp.
    match type of Hp with fst ?x = _ => destruct x as [r w6] eqn:Hr end.
    simpl in Hp. subst r.
    rewrite (bind_raise _ _ _ _ _ Hr). reflexivity.
Qed.

Lemma get_app k d1 d2 :
  Py.get k (d1 ++ d2) =
    match Py.get k d1 with Some v => Some v | None => Py.get k d2 end.
Proof.
  induction d1 as [|[k1 v1] r IH]; simpl; [reflexivity|].
  destruct (String.eqb k k1); [reflexivity | exact IH].
Qed.

(** [d.update(items)]: the last item under a key wins, else [d]'s entry. *)
Lemma get_update k d items :
  Py.get k (Py.update d items) =
    match Py.get k (rev items) with Some v => Some v | None => Py.get k d end.
Proof.
  unfold Py.update. revert d.
  induction items as [|[k1 v1] r IH]; intros d; simpl; [reflexivity|].
  rewrite IH, get_app, get_set. simpl.
  destruct (Py.get k (rev r)); [reflexivity|].
  destruct (String.eqb k k1); reflexivity.
Qed.

Lemma flatten_shape extracted flat :
  _flatten_extracted extracted = Ok flat ->
  map fst flat =
    ["patientFirst"; "patientLast"; "dob"; "payerName"; "planName";
     "groupNumber"; "memberId"; "subscriberName"; "referringProviderName";
     "referringProviderNpi"; "siteOfCare"; "cptCodes"; "icd10Code";
     "visitsRequested"].
Proof.
  unfold _flatten_extracted.
  destruct (Py.as_dict extracted) as [e|]; [rewrite rbind_ok | discriminate].
  destruct (Py.as_dict (Py.get_default "patient" _ e)); [rewrite rbind_ok | discriminate].
  destruct (Py.as_dict (Py.get_default "insurance" _ e)); [rewrite rbind_ok | discriminate].
  destruct (Py.as_dict (Py.get_default "provider" _ e)); [rewrite rbind_ok | discriminate].
  destruct (Py.as_dict (Py.get_default "clinical" _ e)); [rewrite rbind_ok | discriminate].
  intros H. injection H as <-. reflexivity.
Qed.

Lemma get_none_keys k d : ~ In k (map fst d) -> Py.get k d = None.
Proof.
  induction d as [|[k1 v1] r IH]; simpl; [reflexivity|]. intros H.
  destruct (String.eqb k k1) eqn:E1.
  - apply String.eqb_eq in E1. subst. tauto.
  - apply IH. tauto.
Qed.

Lemma plan_ok E calls intake extracted v flat :
  run_plan E calls intake = Ok (extracted, v, flat) ->
  visits_requested_of extracted = Ok v /\ _flatten_extracted extracted = Ok flat.
Proof.
  unfold run_plan.
  destruct (image_url_of E _) as [url|]; [rewrite rbind_ok | discriminate].
  destruct (apply_defaults _) as [x|]; [rewrite rbind_ok | discriminate].
  destruct (visits_requested_of x) as [v'|] eqn:Hv; [rewrite rbind_ok | discriminate].
  destruct (_flatten_extracted x) as [f'|] eqn:Hfl; [rewrite rbind_ok | discriminate].
  intros H. injection H as <- <- <-. auto.
Qed.

(** A run that returns on an existing intake followed its plan. *)
Lemma run_ok_outcome E id w w' intake :
  Mongo.find_one "_id" id (c_pt_intakes (db w)) = Some intake ->
  run_intake_pipeline E id w = (Ok tt, w') ->
  exists extracted v flat,
    run_plan E (azure_calls w) intake = Ok (extracted, v, flat) /\
    run_outcome E id w w' extracted v flat.
Proof.
  intros Hf Hr. pose proof (run_intake_pipeline_found E id w intake Hf) as H.
  destruct (run_plan E (azure_calls w) intake) as [[[extracted v] flat]|e].
  - destruct H as (w'' & Hr' & Ho). rewrite Hr in Hr'. injection Hr' as <-.
    eauto.
  - unfold eval in H. rewrite Hr in H. discriminate.
Qed.

Lemma keyed_app key x l r :
  Mongo.keyed key x (l ++ r) = Mongo.keyed key x l ++ Mongo.keyed key x r.
Proof. apply List.filter_app. Qed.

(** The audit trail of a completed run: five events for the intake, in
    step order, the fourth carrying the authorization it computed. *)
Lemma outcome_audit E id w w' extracted v flat :
  run_outcome E id w w' extracted v flat ->
  exists events auth,
    c_audit_events (db w') = c_audit_events (db w) ++ events /\
    audit_of id w' = audit_of id w ++ events /\
    length events = 5%nat /\
    actions events = run_actions (v >? 6) /\
    Forall (fun ev => Py.get "entityType" ev = Some (VStr "pt_intake") /\
                      Py.get "entityId" ev = Some (VStr id)) events /\
    (events !! 3%nat ≫= Py.get "afterJson") = Some (VDict auth) /\
    Py.get "authRequired" auth = Some (VBool (v >? 6)).
Proof.
  intros (auth & wa & e1 & e2 & e3 & e4 & e5 & o1 & o2 & o3 & o4 & now &
          Ha & H1 & H2 & H3 & H4 & H5 & Hdb).
  destruct H1 as (? & ? & ->), H2 as (? & ? & ->), H3 as (? & ? & ->),
           H4 as (? & ? & ->), H5 as (? & ? & ->).
  unfold eval in Ha. rewrite calculate_auth_run in Ha. simpl in Ha.
  injection Ha as <-.
  eexists _, _. unfold audit_of. rewrite Hdb. store_simpl.
  split; [reflexivity|]. split.
  { rewrite keyed_app. f_equal. unfold Mongo.keyed, Mongo.matches. simpl.
    rewrite String.eqb_refl. reflexivity. }
  split; [reflexivity|]. split.
  { unfold actions, run_actions. simpl. destruct (v >? 6); reflexivity. }
  split; [repeat constructor|]. split; reflexivity.
Qed.

Lemma outcome_keyed E id w w' extracted v flat :
  run_outcome E id w w' extracted v flat ->
  length (Mongo.keyed "intakeId" id (c_eligibility_results (db w'))) =
    Nat.max 1 (length (Mongo.keyed "intakeId" id (c_eligibility_results (db w)))) /\
  length (Mongo.keyed "intakeId" id (c_authorization_records (db w'))) =
    Nat.max 1 (length (Mongo.keyed "intakeId" id (c_authorization_records (db w)))) /\
  length (Mongo.keyed "intakeId" id (c_call_transcripts (db w'))) =
    Nat.max 1 (length (Mongo.keyed "intakeId" id (c_call_transcripts (db w)))).
Proof.
  intros (auth & wa & e1 & e2 & e3 & e4 & e5 & o1 & o2 & o3 & o4 & now &
          Ha & _ & _ & _ & _ & _ & Hdb).
  unfold eval in Ha. rewrite calculate_auth_run in Ha. simpl in Ha.
  injection Ha as <-. rewrite Hdb. store_simpl.
  repeat split; apply keyed_upserted; intros d; rewrite get_update; reflexivity.
Qed.

Lemma outcome_authorization E id w w' extracted v flat :
  run_outcome E id w w' extracted v flat ->
  exists record,
    Mongo.find_one "intakeId" id (c_authorization_records (db w')) = Some record /\
    Py.get "authRequired" record = Some (VBool (v >? 6)) /\
    Py.get "visitsApproved" record =
      Some (VInt (if v >? 6 then Z.max 0 (Z.min 6 (Z.min (12 - 2) v)) else 0)).
Proof.
  intros (auth & wa & e1 & e2 & e3 & e4 & e5 & o1 & o2 & o3 & o4 & now &
          Ha & _ & _ & _ & _ & _ & Hdb).
  unfold eval in Ha. rewrite calculate_auth_run in Ha. simpl in Ha.
  injection Ha as <-. rewrite Hdb. store_simpl.
  match goal with |- context [Mongo.upserted _ _ ?fs true o2 ?l] =>
    destruct (find_one_upserted "intakeId" id fs o2 l) as [d Hd]
  end.
  { intros d. rewrite get_update. reflexivity. }
  eexists. split; [exact Hd|]. split; rewrite get_update; reflexivity.
Qed.

Lemma outcome_intake E id w w' extracted v flat intake :
  run_outcome E id w w' extracted v flat ->
  _flatten_extracted extracted = Ok flat ->
  Mongo.find_one "_id" id (c_pt_intakes (db w)) = Some intake ->
  exists now,
    Mongo.find_one "_id" id (c_pt_intakes (db w')) =
      Some (Py.update intake
              (Py.update [("updatedAt", VDatetime now); ("status", VStr "saved")] flat)).
Proof.
  intros (auth & wa & e1 & e2 & e3 & e4 & e5 & o1 & o2 & o3 & o4 & now &
          _ & _ & _ & _ & _ & _ & Hdb) Hfl Hf.
  exists now. rewrite Hdb. store_simpl.
  apply find_one_updated; [|exact Hf].
  rewrite get_update. rewrite (get_none_keys "_id" (rev flat)); [reflexivity|].
  rewrite map_rev, <- in_rev, (flatten_shape _ _ Hfl). simpl.
  intuition discriminate.
Qed.

(** ** The intake pipeline *)

(** C2, as the code has it: a run that completes for an existing intake
    appends exactly five audit events for that intake, with the actions
    runStarted, ocrExtracted, eligibilityChecked, then authObtained if the
    authorization it computed has [authRequired] and authWaived if not, then
    saved. *)
Theorem run_emits_five_actions E id w w' intake :
  Mongo.find_one "_id" id (c_pt_intakes (db w)) = Some intake ->
  run_intake_pipeline E id w = (Ok tt, w') ->
  exists events auth auth_required,
    c_audit_events (db w') = c_audit_events (db w) ++ events /\
    audit_of id w' = audit_of id w ++ events /\
    length events = 5%nat /\
    actions events = run_actions auth_required /\
    Forall (fun ev => Py.get "entityType" ev = Some (VStr "pt_intake") /\
                      Py.get "entityId" ev = Some (VStr id)) events /\
    (events !! 3%nat ≫= Py.get "afterJson") = Some (VDict auth) /\
    Py.get "authRequired" auth = Some (VBool auth_required).
Proof.
  intros Hf Hr.
  destruct (run_ok_outcome E id w w' intake Hf Hr) as (x & v & flat & _ & Ho).
  destruct (outcome_audit E id w w' x v flat Ho) as (events & auth & H).
  exists events, auth, (v >? 6). exact H.
Qed.

Lemma run_emits_five_actions_witness :
  let w' := exec (run_intake_pipeline demo_env demo_intake) demo_world in
  (Mongo.find_one "_id" demo_intake (c_pt_intakes (db demo_world)) = Some demo_record /\
   run_intake_pipeline demo_env demo_intake demo_world = (Ok tt, w')) /\
  exists events auth auth_required,
    c_audit_events (db w') = c_audit_events (db demo_world) ++ events /\
    audit_of demo_intake w' = audit_of demo_intake demo_world ++ events /\
    length events = 5%nat /\
    actions events = run_actions auth_required /\
    Forall (fun ev => Py.get "entityType" ev = Some (VStr "pt_intake") /\
                      Py.get "entityId" ev = Some (VStr demo_intake)) events /\
    (events !! 3%nat ≫= Py.get "afterJson") = Some (VDict auth) /\
    Py.get "authRequired" auth = Some (VBool auth_required).
Proof.
  intros w'.
  assert (Hf : Mongo.find_one "_id" demo_intake (c_pt_intakes (db demo_world))
               = Some demo_record) by (vm_compute; reflexivity).
  assert (Hr : run_intake_pipeline demo_env demo_intake demo_world = (Ok tt, w'))
    by (vm_compute; reflexivity).
  split; [split; assumption|].
  exact (run_emits_five_actions demo_env demo_intake demo_world w' demo_record Hf Hr).
Defined.

(** C2, as stated, fails: a completed run on an existing intake emits five
    audit actions, not six. *)
Lemma run_emits_five_not_six :
  let w' := exec (run_intake_pipeline demo_env demo_intake) demo_world in
  Mongo.find_one "_id" demo_intake (c_pt_intakes (db demo_world)) = Some demo_record /\
  eval (run_intake_pipeline demo_env demo_intake) demo_world = Ok tt /\
  audit_of demo_intake demo_world = [] /\
  actions (audit_of demo_intake w') = run_actions true /\
  length (audit_of demo_intake w') = 5%nat /\
  length (audit_of demo_intake w') <> 6%nat.
Proof. vm_compute. repeat split; congruence. Qed.

Lemma extract_eval E url w :
  eval (extract_fields_with_azure E url) w = Ok (extracted_payload E (azure_calls w) url).
Proof. unfold eval. destruct (extract_run E url w) as [n ->]. reflexivity. Qed.

(** C5: when the extraction returns the all-empty payload, [apply_defaults]
    fills in cptCodes ["97161","97110"], icd10Code "M25.561" and
    visitsRequested 8, and the run on an existing intake completes: the
    intake record ends with status "saved" and those fields, the stored
    authorization has [authRequired] true (8 > 6), and the run's audit
    actions are those of an authorized run. *)
Theorem empty_payload_run_saved E id w intake path :
  Mongo.find_one "_id" id (c_pt_intakes (db w)) = Some intake ->
  Py.get "sourceFilePath" intake = Some (VStr path) ->
  eval (extract_fields_with_azure E ("file://" +:+ abspath E path)) w
    = Ok _empty_payload ->
  apply_defaults _empty_payload = Ok defaulted_payload /\
  visits_requested_of defaulted_payload = Ok 8 /\
  exists w' record auth events,
    run_intake_pipeline E id w = (Ok tt, w') /\
    Mongo.find_one "_id" id (c_pt_intakes (db w')) = Some record /\
    Py.get "status" record = Some (VStr "saved") /\
    Py.get "cptCodes" record = Some (VList [VStr "97161"; VStr "97110"]) /\
    Py.get "icd10Code" record = Some (VStr "M25.561") /\
    Py.get "visitsRequested" record = Some (VInt 8) /\
    Mongo.find_one "intakeId" id (c_authorization_records (db w')) = Some auth /\
    Py.get "authRequired" auth = Some (VBool true) /\
    audit_of id w' = audit_of id w ++ events /\
    actions events = run_actions true.
Proof.
  intros Hf Hp He. split; [reflexivity|]. split; [reflexivity|].
  rewrite extract_eval in He. injection He as He.
  assert (Hplan : run_plan E (azure_calls w) intake
                  = Ok (defaulted_payload, 8, defaulted_flat)).
  { unfold run_plan, Py.get_default. rewrite Hp.
    cbn [image_url_of]. rewrite rbind_ok, He. reflexivity. }
  pose proof (run_intake_pipeline_found E id w intake Hf) as H.
  rewrite Hplan in H. destruct H as (w' & Hr & Ho).
  destruct (outcome_intake _ _ _ _ _ _ _ intake Ho eq_refl Hf) as (now & Hi).
  destruct (outcome_authorization _ _ _ _ _ _ _ Ho) as (auth & Ha & Hb & _).
  destruct (outcome_audit _ _ _ _ _ _ _ Ho) as (events & _ & _ & Hev & _ & Hact & _).
  exists w'. eexists. exists auth, events.
  split; [exact Hr|]. split; [exact Hi|].
  repeat (split; [rewrite get_update; reflexivity|]).
  split; [exact Ha|]. split; [exact Hb|]. split; [exact Hev | exact Hact].
Qed.

Lemma empty_payload_run_saved_witness :
  let path := "uploads/01234567-89ab-4def-8123-456789abcdef_referral.pdf" in
  (Mongo.find_one "_id" demo_intake (c_pt_intakes (db demo_world)) = Some demo_record /\
   Py.get "sourceFilePath" demo_record = Some (VStr path) /\
   eval (extract_fields_with_azure demo_env ("file://" +:+ abspath demo_env path))
     demo_world = Ok _empty_payload) /\
  apply_defaults _empty_payload = Ok defaulted_payload /\
  visits_requested_of defaulted_payload = Ok 8 /\
  exists w' record auth events,
    run_intake_pipeline demo_env demo_intake demo_world = (Ok tt, w') /\
    Mongo.find_one "_id" demo_intake (c_pt_intakes (db w')) = Some record /\
    Py.get "status" record = Some (VStr "saved") /\
    Py.get "cptCodes" record = Some (VList [VStr "97161"; VStr "97110"]) /\
    Py.get "icd10Code" record = Some (VStr "M25.561") /\
    Py.get "visitsRequested" record = Some (VInt 8) /\
    Mongo.find_one "intakeId" demo_intake (c_authorization_records (db w')) = Some auth /\
    Py.get "authRequired" auth = Some (VBool true) /\
    audit_of demo_intake w' = audit_of demo_intake demo_world ++ events /\
    actions events = run_actions true.
Proof.
  intros path.
  assert (Hf : Mongo.find_one "_id" demo_intake (c_pt_intakes (db demo_world))
               = Some demo_record) by (vm_compute; reflexivity).
  assert (Hp : Py.get "sourceFilePath" demo_record = Some (VStr path))
    by reflexivity.
  assert (He : eval (extract_fields_with_azure demo_env
                       ("file://" +:+ abspath demo_env path)) demo_world
               = Ok _empty_payload) by reflexivity.
  split; [repeat apply conj; assumption|].
  exact (empty_payload_run_saved demo_env demo_intake demo_world demo_record path
           Hf Hp He).
Defined.

(** C6: two completed runs, one after the other, for the same existing
    intake, on a store that held at most one eligibility, authorization and
    transcript document for it, leave exactly one of each keyed by the
    intake, the authorization being the second run's, while the audit trail
    gains two full sequences of five actions. *)
Theorem two_runs_one_record_each E id w w1 w2 intake :
  Mongo.find_one "_id" id (c_pt_intakes (db w)) = Some intake ->
  (length (Mongo.keyed "intakeId" id (c_eligibility_results (db w))) <= 1)%nat ->
  (length (Mongo.keyed "intakeId" id (c_authorization_records (db w))) <= 1)%nat ->
  (length (Mongo.keyed "intakeId" id (c_call_transcripts (db w))) <= 1)%nat ->
  run_intake_pipeline E id w = (Ok tt, w1) ->
  run_intake_pipeline E id w1 = (Ok tt, w2) ->
  length (Mongo.keyed "intakeId" id (c_eligibility_results (db w2))) = 1%nat /\
  length (Mongo.keyed "intakeId" id (c_authorization_records (db w2))) = 1%nat /\
  length (Mongo.keyed "intakeId" id (c_call_transcripts (db w2))) = 1%nat /\
  exists first second required1 required2 record,
    audit_of id w2 = audit_of id w ++ first ++ second /\
    c_audit_events (db w2) = c_audit_events (db w) ++ first ++ second /\
    actions first = run_actions required1 /\
    actions second = run_actions required2 /\
    Mongo.find_one "intakeId" id (c_authorization_records (db w2)) = Some record /\
    Py.get "authRequired" record = Some (VBool required2).
Proof.
  intros Hf He Ha Ht Hr1 Hr2.
  destruct (run_ok_outcome E id w w1 intake Hf Hr1) as (x1 & v1 & f1 & Hp1 & Ho1).
  apply plan_ok in Hp1 as [_ Hfl1].
  destruct (outcome_intake _ _ _ _ _ _ _ intake Ho1 Hfl1 Hf) as (now & Hf1).
  destruct (run_ok_outcome E id w1 w2 _ Hf1 Hr2) as (x2 & v2 & f2 & _ & Ho2).
  destruct (outcome_keyed _ _ _ _ _ _ _ Ho1) as (Ke1 & Ka1 & Kt1).
  destruct (outcome_keyed _ _ _ _ _ _ _ Ho2) as (Ke2 & Ka2 & Kt2).
  destruct (outcome_audit _ _ _ _ _ _ _ Ho1) as (ev1 & _ & Hc1 & Hev1 & _ & Hact1 & _).
  destruct (outcome_audit _ _ _ _ _ _ _ Ho2) as (ev2 & _ & Hc2 & Hev2 & _ & Hact2 & _).
  destruct (outcome_authorization _ _ _ _ _ _ _ Ho2) as (rec & Hrec & Hreq & _).
  split; [lia|]. split; [lia|]. split; [lia|].
  exists ev1, ev2, (v1 >? 6), (v2 >? 6), rec.
  rewrite Hev2, Hev1, Hc2, Hc1, <- !app_assoc. auto 10.
Qed.

Lemma two_runs_one_record_each_witness :
  let w1 := exec (run_intake_pipeline demo_env demo_intake) demo_world in
  let w2 := exec (run_intake_pipeline demo_env demo_intake) w1 in
  (Mongo.find_one "_id" demo_intake (c_pt_intakes (db demo_world)) = Some demo_record /\
   (length (Mongo.keyed "intakeId" demo_intake
              (c_eligibility_results (db demo_world))) <= 1)%nat /\
   (length (Mongo.keyed "intakeId" demo_intake
              (c_authorization_records (db demo_world))) <= 1)%nat /\
   (length (Mongo.keyed "intakeId" demo_intake
              (c_call_transcripts (db demo_world))) <= 1)%nat /\
   run_intake_pipeline demo_env demo_intake demo_world = (Ok tt, w1) /\
   run_intake_pipeline demo_env demo_intake w1 = (Ok tt, w2)) /\
  length (Mongo.keyed "intakeId" demo_intake (c_eligibility_results (db w2))) = 1%nat /\
  length (Mongo.keyed "intakeId" demo_intake (c_authorization_records (db w2))) = 1%nat /\
  length (Mongo.keyed "intakeId" demo_intake (c_call_transcripts (db w2))) = 1%nat /\
  exists first second required1 required2 record,
    audit_of demo_intake w2 = audit_of demo_intake demo_world ++ first ++ second /\
    c_audit_events (db w2) = c_audit_events (db demo_world) ++ first ++ second /\
    actions first = run_actions required1 /\
    actions second = run_actions required2 /\
    Mongo.find_one "intakeId" demo_intake (c_authorization_records (db w2))
      = Some record /\
    Py.get "authRequired" record = Some (VBool required2).
Proof.
  intros w1 w2.
  assert (Hf : Mongo.find_one "_id" demo_intake (c_pt_intakes (db demo_world))
               = Some demo_record) by (vm_compute; reflexivity).
  assert (He : (length (Mongo.keyed "intakeId" demo_intake
                  (c_eligibility_results (db demo_world))) <= 1)%nat)
    by (vm_compute; lia).
  assert (Ha : (length (Mongo.keyed "intakeId" demo_intake
                  (c_authorization_records (db demo_world))) <= 1)%nat)
    by (vm_compute; lia).
  assert (Ht : (length (Mongo.keyed "intakeId" demo_intake
                  (c_call_transcripts (db demo_world))) <= 1)%nat)
    by (vm_compute; lia).
  assert (Hr1 : run_intake_pipeline demo_env demo_intake demo_world = (Ok tt, w1))
    by (vm_compute; reflexivity).
  assert (Hr2 : run_intake_pipeline demo_env demo_intake w1 = (Ok tt, w2))
    by (vm_compute; reflexivity).
  split; [repeat apply conj; assumption|].
  exact (two_runs_one_record_each demo_env demo_intake demo_world w1 w2 demo_record
           Hf He Ha Ht Hr1 Hr2).
Defined.

(** ** Upserts never duplicate, whatever the outcome of a run *)

Lemma no_duplicates_ret {A} (a : A) : no_duplicates (mret a).
Proof. intros w c id _. unfold exec. simpl. lia. Qed.

Lemma no_duplicates_lift {A} (r : result A) : no_duplicates (lift r).
Proof. intros w c id _. unfold exec. simpl. lia. Qed.

Lemma no_duplicates_bind {A B} (m : M A) (k : A -> M B) :
  no_duplicates m -> (forall a, no_duplicates (k a)) -> no_duplicates (m ≫= k).
Proof.
  intros Hm Hk w c id Hc. specialize (Hm w c id Hc).
  unfold exec, mbind, M_bind in *.
  destruct (m w) as [[a|e] w1]; simpl in *; [|exact Hm].
  specialize (Hk a w1 c id Hc). unfold exec in Hk. lia.
Qed.

Lemma no_duplicates_same_db {A} (m : M A) :
  (forall w, db (exec m w) = db w) -> no_duplicates m.
Proof. intros H w c id _. unfold records_of. rewrite H. lia. Qed.

Lemma no_duplicates_other {A} (m : M A) c0 :
  record_collection c0 = false ->
  (forall w, exists l, db (exec m w) = Mongo.with_docs c0 l (db w)) ->
  no_duplicates m.
Proof.
  intros H0 H w c id Hc. destruct (H w) as [l Hl]. unfold records_of.
  rewrite Hl, docs_with_docs. destruct (decide (c = c0)) as [->|_]; [congruence | lia].
Qed.

Lemma keyed_update_first_le key x y f l l' :
  Mongo.update_first (Mongo.matches key x) f l = Some l' ->
  (forall d, Mongo.matches key y (f d) = false) ->
  (length (Mongo.keyed key y l') <= length (Mongo.keyed key y l))%nat.
Proof.
  intros Hu Hf. revert l' Hu. unfold Mongo.keyed.
  induction l as [|d r IH]; simpl; intros l' Hu; [discriminate|].
  destruct (Mongo.matches key x d).
  - injection Hu as <-. simpl. rewrite Hf.
    destruct (Mongo.matches key y d); simpl; lia.
  - destruct (Mongo.update_first _ f r) as [r'|]; [|discriminate].
    injection Hu as <-. simpl. specialize (IH r' eq_refl).
    destruct (Mongo.matches key y d); simpl; lia.
Qed.

Lemma matches_other key x y d :
  Py.get key d = Some (VStr x) -> x <> y -> Mongo.matches key y d = false.
Proof.
  unfold Mongo.matches. intros -> H. simpl. now apply String.eqb_neq.
Qed.

Lemma keyed_upserted_le key x y fields oid l :
  (forall d, Py.get key (Py.update d fields) = Some (VStr x)) ->
  (length (Mongo.keyed key y (Mongo.upserted key x fields true oid l))
   <= Nat.max 1 (length (Mongo.keyed key y l)))%nat.
Proof.
  intros Hk. destruct (decide (x = y)) as [<-|Hne].
  - rewrite keyed_upserted by exact Hk. lia.
  - unfold Mongo.upserted.
    destruct (Mongo.update_first _ _ l) as [l'|] eqn:Hu.
    + apply keyed_update_first_le with (y := y) in Hu; [lia|].
      intros d. apply matches_other with (x := x); [apply Hk | exact Hne].
    + rewrite keyed_app. simpl.
      rewrite (matches_other key x y _ (Hk _) Hne). rewrite length_app. simpl. lia.
Qed.

Lemma no_duplicates_upsert c x fields :
  (forall d, Py.get "intakeId" (Py.update d fields) = Some (VStr x)) ->
  no_duplicates (update_one c "intakeId" x fields true).
Proof.
  intros Hk w c' id _. unfold exec, records_of.
  destruct (update_one_run c "intakeId" x fields true w) as [n ->].
  store_simpl. rewrite docs_with_docs.
  destruct (decide (c' = c)) as [->|_]; [|lia].
  apply keyed_upserted_le, Hk.
Qed.

Lemma no_duplicates_emit E t id a b af : no_duplicates (emit_audit E t id a b af).
Proof.
  apply (no_duplicates_other _ audit_events); [reflexivity|].
  intros w. unfold exec. rewrite emit_audit_run. eexists. reflexivity.
Qed.

Lemma no_duplicates_bind_with {A B} (P : A -> Prop) (m : M A) (k : A -> M B) :
  (forall w a w', m w = (Ok a, w') -> P a) ->
  no_duplicates m -> (forall a, P a -> no_duplicates (k a)) ->
  no_duplicates (m ≫= k).
Proof.
  intros HP Hm Hk w c id Hc. specialize (Hm w c id Hc). specialize (HP w).
  unfold exec, mbind, M_bind in *.
  destruct (m w) as [[a|e] w1]; simpl in *; [|exact Hm].
  specialize (Hk a (HP a w1 eq_refl) w1 c id Hc). unfold exec in Hk. lia.
Qed.

Lemma get_rev_none k d : Py.get k d = None -> Py.get k (rev d) = None.
Proof.
  induction d as [|[k1 v1] r IH]; simpl; [reflexivity|].
  destruct (String.eqb k k1) eqn:E1; [discriminate|]. intros H.
  rewrite get_app, (IH H). simpl. rewrite E1. reflexivity.
Qed.

Lemma update_keeps_head k v t items :
  Py.get k items = None ->
  Py.update ((k, v) :: t) items = (k, v) :: Py.update t items.
Proof.
  unfold Py.update. revert t.
  induction items as [|[k1 v1] r IH]; intros t H; simpl in *; [reflexivity|].
  destruct (String.eqb k k1) eqn:E1; [discriminate|].
  rewrite String.eqb_sym, E1. apply IH, H.
Qed.

(** [{"intakeId": id, **items}] keeps the intake id when [items] has no
    such key, and so does a document updated with it. *)
Lemma keyed_fields k v items d :
  Py.get k items = None ->
  Py.get k (Py.update d (Py.update [(k, v)] items)) = Some v.
Proof.
  intros H. rewrite get_update, (update_keeps_head _ _ _ _ H). simpl.
  rewrite get_app, get_rev_none.
  - simpl. rewrite String.eqb_refl. reflexivity.
  - rewrite get_update_other by exact H. reflexivity.
Qed.

Lemma no_duplicates_persist E id extracted benefits auth transcript :
  Py.get "intakeId" benefits = None ->
  Py.get "intakeId" auth = None ->
  Py.get "intakeId" transcript = None ->
  no_duplicates (persist_results E id extracted benefits auth transcript).
Proof.
  intros Hb Ha Ht. unfold persist_results.
  apply no_duplicates_bind;
    [apply no_duplicates_upsert; intros d; apply keyed_fields, Hb | intros _].
  apply no_duplicates_bind;
    [apply no_duplicates_upsert; intros d; apply keyed_fields, Ha | intros _].
  apply no_duplicates_bind;
    [apply no_duplicates_upsert; intros d; apply keyed_fields, Ht | intros _].
  apply no_duplicates_bind; [apply no_duplicates_same_db; reflexivity|]. intros now.
  apply no_duplicates_bind; [apply no_duplicates_lift|]. intros flat.
  apply (no_duplicates_other _ pt_intakes); [reflexivity|]. intros w. unfold exec.
  destruct (update_one_run pt_intakes "_id" id
              (Py.update [("updatedAt", VDatetime now); ("status", VStr "saved")] flat)
              false w) as [n ->].
  eexists. reflexivity.
Qed.

Lemma no_duplicates_run E id : no_duplicates (run_intake_pipeline E id).
Proof.
  unfold run_intake_pipeline.
  apply no_duplicates_bind; [apply no_duplicates_emit|]. intros _.
  apply no_duplicates_bind; [apply no_duplicates_same_db; reflexivity|].
  intros [intake|]; [|apply no_duplicates_ret].
  apply no_duplicates_bind; [apply no_duplicates_lift|]. intros url.
  apply no_duplicates_bind.
  { apply no_duplicates_same_db. intros w. unfold exec.
    destruct (extract_run E url w) as [n ->]. reflexivity. }
  intros payload.
  apply no_duplicates_bind; [apply no_duplicates_lift|]. intros extracted.
  apply no_duplicates_bind; [apply no_duplicates_emit|]. intros _.
  apply no_duplicates_bind; [apply no_duplicates_lift|]. intros v.
  apply (no_duplicates_bind_with (fun auth => Py.get "intakeId" auth = None)).
  { intros w a w' H. rewrite calculate_auth_run in H. injection H as <- _.
    reflexivity. }
  { apply no_duplicates_same_db. intros w. unfold exec.
    rewrite calculate_auth_run. reflexivity. }
  intros auth Hauth.
  apply no_duplicates_bind; [apply no_duplicates_emit|]. intros _.
  apply no_duplicates_bind.
  { destruct (Py.truthy _); apply no_duplicates_emit. }
  intros _.
  apply no_duplicates_bind;
    [apply no_duplicates_persist; [reflexivity | exact Hauth | reflexivity]|].
  intros _. apply no_duplicates_emit.
Qed.

Lemma no_duplicates_upload E filename : no_duplicates (upload_intake E filename).
Proof.
  unfold upload_intake.
  apply no_duplicates_bind; [apply no_duplicates_same_db; reflexivity|]. intros u.
  apply no_duplicates_bind; [apply no_duplicates_same_db; reflexivity|]. intros t1.
  apply no_duplicates_bind; [apply no_duplicates_same_db; reflexivity|]. intros t2.
  apply no_duplicates_bind; [|intros _; apply no_duplicates_ret].
  apply (no_duplicates_other _ pt_intakes); [reflexivity|]. intros w.
  unfold exec, insert_one, mbind, M_bind, get_db. simpl.
  destruct (existsb _ _); simpl.
  - exists (c_pt_intakes (db w)). destruct (db w); reflexivity.
  - eexists. reflexivity.
Qed.

(** Every store the routes can build holds at most one eligibility,
    authorization and transcript document per intake. *)
Lemma reachable_at_most_one E w : reachable E w -> at_most_one_each w.
Proof.
  induction 1 as [|w filename _ IH|w id _ IH]; intros c i Hc.
  - destruct c; simpl; unfold records_of; simpl; lia.
  - pose proof (no_duplicates_upload E filename w c i Hc).
    specialize (IH c i Hc). lia.
  - pose proof (no_duplicates_run E id w c i Hc).
    specialize (IH c i Hc). lia.
Qed.

(** ** Intake records keep their source path *)

Lemma keeps_paths_ret {A} (a : A) : keeps_paths (mret a).
Proof. intros w H. exact H. Qed.

Lemma keeps_paths_lift {A} (r : result A) : keeps_paths (lift r).
Proof. intros w H. exact H. Qed.

Lemma keeps_paths_bind_with {A B} (P : A -> Prop) (m : M A) (k : A -> M B) :
  (forall w a w', m w = (Ok a, w') -> P a) ->
  keeps_paths m -> (forall a, P a -> keeps_paths (k a)) ->
  keeps_paths (m ≫= k).
Proof.
  intros HP Hm Hk w H. specialize (Hm w H). specialize (HP w).
  unfold exec, mbind, M_bind in *.
  destruct (m w) as [[a|e] w1]; simpl in *; [|exact Hm].
  exact (Hk a (HP a w1 eq_refl) w1 Hm).
Qed.

Lemma keeps_paths_bind {A B} (m : M A) (k : A -> M B) :
  keeps_paths m -> (forall a, keeps_paths (k a)) -> keeps_paths (m ≫= k).
Proof.
  intros Hm Hk. apply (keeps_paths_bind_with (fun _ => True)); auto.
Qed.

Lemma keeps_paths_same {A} (m : M A) :
  (forall w, c_pt_intakes (db (exec m w)) = c_pt_intakes (db w)) -> keeps_paths m.
Proof. intros H w. unfold intakes_have_paths. rewrite H. auto. Qed.

Lemma keeps_paths_emit E t id a b af : keeps_paths (emit_audit E t id a b af).
Proof. apply keeps_paths_same. reflexivity. Qed.

Lemma keeps_paths_update_other c key x fields upsert :
  c <> pt_intakes -> keeps_paths (update_one c key x fields upsert).
Proof.
  intros Hc. apply keeps_paths_same. intros w. unfold exec.
  destruct (update_one_run c key x fields upsert w) as [n ->].
  store_simpl. destruct c; try reflexivity. congruence.
Qed.

Lemma update_first_forall (P : dict -> Prop) p f l l' :
  Mongo.update_first p f l = Some l' ->
  (forall d, P d -> P (f d)) -> Forall P l -> Forall P l'.
Proof.
  intros Hu Hf. revert l' Hu. induction l as [|d r IH]; simpl; intros l' Hu HF;
    [discriminate|].
  inversion HF as [|? ? Hd Hr]; subst.
  destruct (p d).
  - injection Hu as <-. constructor; auto.
  - destruct (Mongo.update_first p f r) as [r'|]; [|discriminate].
    injection Hu as <-. constructor; auto.
Qed.

Lemma keeps_paths_update_intake id fields :
  Py.get "sourceFilePath" fields = None ->
  keeps_paths (update_one pt_intakes "_id" id fields false).
Proof.
  intros Hk w H. unfold intakes_have_paths, exec in *.
  destruct (update_one_run pt_intakes "_id" id fields false w) as [n ->].
  store_simpl. unfold Mongo.upserted.
  destruct (Mongo.update_first _ _ _) as [l'|] eqn:Hu; [|exact H].
  apply (update_first_forall _ _ _ _ _ Hu); [|exact H].
  intros d [p Hp]. exists p. rewrite get_update_other by exact Hk. exact Hp.
Qed.

Lemma keeps_paths_run E id : keeps_paths (run_intake_pipeline E id).
Proof.
  unfold run_intake_pipeline.
  apply keeps_paths_bind; [apply keeps_paths_emit|]. intros _.
  apply keeps_paths_bind; [apply keeps_paths_same; reflexivity|].
  intros [intake|]; [|apply keeps_paths_ret].
  apply keeps_paths_bind; [apply keeps_paths_lift|]. intros url.
  apply keeps_paths_bind.
  { apply keeps_paths_same. intros w. unfold exec.
    destruct (extract_run E url w) as [n ->]. reflexivity. }
  intros payload.
  apply keeps_paths_bind; [apply keeps_paths_lift|]. intros extracted.
  apply keeps_paths_bind; [apply keeps_paths_emit|]. intros _.
  apply keeps_paths_bind; [apply keeps_paths_lift|]. intros v.
  apply keeps_paths_bind.
  { apply keeps_paths_same. intros w. unfold exec.
    rewrite calculate_auth_run. reflexivity. }
  intros auth.
  apply keeps_paths_bind; [apply keeps_paths_emit|]. intros _.
  apply keeps_paths_bind.
  { destruct (Py.truthy _); apply keeps_paths_emit. }
  intros _.
  apply keeps_paths_bind; [|intros _; apply keeps_paths_emit].
  unfold persist_results.
  do 3 (apply keeps_paths_bind;
        [apply keeps_paths_update_other; discriminate | intros _]).
  apply keeps_paths_bind; [apply keeps_paths_same; reflexivity|]. intros now.
  apply (keeps_paths_bind_with
           (fun flat => _flatten_extracted extracted = Ok flat)).
  { intros w a w' H. unfold lift in H. injection H as -> _. reflexivity. }
  { apply keeps_paths_lift. }
  intros flat Hfl. apply keeps_paths_update_intake.
  rewrite get_update. rewrite (get_none_keys "sourceFilePath" (rev flat));
    [reflexivity|].
  rewrite map_rev, <- in_rev, (flatten_shape _ _ Hfl). simpl.
  intuition discriminate.
Qed.

Lemma keeps_paths_upload E filename : keeps_paths (upload_intake E filename).
Proof.
  unfold upload_intake.
  apply keeps_paths_bind; [apply keeps_paths_same; reflexivity|]. intros u.
  apply keeps_paths_bind; [apply keeps_paths_same; reflexivity|]. intros t1.
  apply keeps_paths_bind; [apply keeps_paths_same; reflexivity|]. intros t2.
  apply keeps_paths_bind; [|intros _; apply keeps_paths_ret].
  intros w H. unfold intakes_have_paths, exec, insert_one, mbind, M_bind, get_db in *.
  simpl. destruct (existsb _ _); simpl; [exact H|].
  apply Forall_app. split; [exact H|]. repeat constructor. eexists. reflexivity.
Qed.

Lemma reachable_paths E w : reachable E w -> intakes_have_paths w.
Proof.
  induction 1 as [|w filename _ IH|w id _ IH].
  - constructor.
  - apply keeps_paths_upload, IH.
  - apply keeps_paths_run, IH.
Qed.

(** In every store the routes can build, each intake record has a source
    path, as the pipeline needs to start the extraction. *)
Lemma reachable_intake_has_path E w id intake :
  reachable E w ->
  Mongo.find_one "_id" id (c_pt_intakes (db w)) = Some intake ->
  has_path intake.
Proof.
  intros Hr Hf. pose proof (reachable_paths E w Hr) as H.
  unfold intakes_have_paths in H. rewrite List.Forall_forall in H.
  apply H. unfold Mongo.find_one in Hf. apply find_some in Hf. tauto.
Qed.

(** * Further properties *)

(** ** The IVR service beyond the walk-through *)

Lemma append_assoc (a b c : string) : (a +:+ b) +:+ c = a +:+ (b +:+ c).
Proof.
  induction a as [|x a IH]; [reflexivity|].
  change (String x ((a +:+ b) +:+ c) = String x (a +:+ (b +:+ c))).
  now rewrite IH.
Qed.

Lemma append_empty_r (a : string) : a +:+ EmptyString = a.
Proof.
  induction a as [|x a IH]; [reflexivity|].
  change (String x (a +:+ EmptyString) = String x a). now rewrite IH.
Qed.

Lemma is_entry_spec d :
  is_entry d = true -> String.eqb d "#" = false /\ String.eqb d "0" = false.
Proof.
  unfold is_entry. intros H. apply andb_prop in H as [H1 H2].
  split; [now apply negb_true_iff in H1 | now apply negb_true_iff in H2].
Qed.

Lemma press_dtmf d s : Session.dtmf (press d s) = Session.dtmf s ++ [d].
Proof.
  unfold press, IVRService.on_zero, IVRService.on_state.
  destruct s as [st pr dt tr mi dob be ar]; simpl.
  destruct st; simpl;
    repeat match goal with
           | |- context [if ?b then _ else _] => destruct b; simpl
           end; reflexivity.
Qed.

Lemma result_found sid w s :
  sessions w !! sid = Some s ->
  IVRService.result sid w =
    (Ok [("sessionId", VStr sid);
         ("benefits", IVRService.opt_value (Session.benefits s));
         ("authResult", IVRService.opt_value (Session.authResult s))], w).
Proof.
  intros H. unfold IVRService.result, mbind, M_bind, get_sessions. simpl.
  rewrite H. reflexivity.
Qed.

(** X1: for a session id the service does not know, [dtmf] and [result]
    both answer "session not found" and leave the whole state as it was; no
    session is created by the attempt. *)
Theorem unknown_session_rejected sid d w :
  sessions w !! sid = None ->
  IVRService.dtmf sid d w = (Ok [("error", VStr "session not found")], w) /\
  IVRService.result sid w = (Ok [("error", VStr "session not found")], w).
Proof.
  intros H. split; [exact (dtmf_missing sid d w H)|].
  unfold IVRService.result, mbind, M_bind, get_sessions. simpl.
  rewrite H. reflexivity.
Qed.

Lemma unknown_session_rejected_witness :
  sessions World.init !! "no-such-session" = None /\
  IVRService.dtmf "no-such-session" "1" World.init
    = (Ok [("error", VStr "session not found")], World.init) /\
  IVRService.result "no-such-session" World.init
    = (Ok [("error", VStr "session not found")], World.init).
Proof.
  assert (H : sessions World.init !! "no-such-session" = None) by reflexivity.
  split; [exact H|]. exact (unknown_session_rejected "no-such-session" "1" World.init H).
Defined.

(** X2: the session's [dtmf] list is a complete log: after any presses on
    an existing session it is the earlier log followed by exactly those
    presses, in order, whatever state the session is in (ended included). *)
Theorem dial_logs_every_digit sid ds w s :
  sessions w !! sid = Some s ->
  exists s',
    sessions (exec (dial sid ds) w) !! sid = Some s' /\
    Session.dtmf s' = Session.dtmf s ++ ds.
Proof.
  intros H. rewrite (dial_found sid ds w s H). eexists. split; [reflexivity|].
  clear H. revert s. induction ds as [|d ds IH]; intros s; simpl.
  - now rewrite app_nil_r.
  - rewrite IH, press_dtmf, <- app_assoc. reflexivity.
Qed.

Lemma dial_logs_every_digit_witness :
  let w := exec (IVRService.start demo_env;; dial demo_intake ["0"]) World.init in
  sessions w !! demo_intake = Some (press "0" fresh_session) /\
  exists s',
    sessions (exec (dial demo_intake ["7"; "#"; "0"]) w) !! demo_intake = Some s' /\
    Session.dtmf s' = Session.dtmf (press "0" fresh_session) ++ ["7"; "#"; "0"].
Proof.
  intros w.
  assert (H : sessions w !! demo_intake = Some (press "0" fresh_session))
    by (vm_compute; reflexivity).
  split; [exact H|].
  exact (dial_logs_every_digit demo_intake ["7"; "#"; "0"] w _ H).
Defined.

(** X3: presses sent to one session never change another session, and
    never write to the store. *)
Theorem dial_leaves_others sid sid' ds w :
  sid' <> sid ->
  sessions (exec (dial sid ds) w) !! sid' = sessions w !! sid' /\
  db (exec (dial sid ds) w) = db w.
Proof.
  intros Hne. revert w. induction ds as [|d ds IH]; intros w; simpl.
  - split; reflexivity.
  - unfold exec in *. destruct (sessions w !! sid) as [s|] eqn:Hs.
    + rewrite (bind_ok _ _ _ _ _ (dtmf_found sid d w s Hs)).
      destruct (IH (mkWorld (db w) (<[sid := press d s]> (sessions w))
                      (clock_reads w) (uuid_draws w) (oid_draws w) (azure_calls w)))
        as [H1 H2].
      rewrite H1, H2. simpl. split; [|reflexivity].
      apply lookup_insert_ne. congruence.
    + rewrite (bind_ok _ _ _ _ _ (dtmf_missing sid d w Hs)). apply IH.
Qed.

Lemma dial_leaves_others_witness :
  let w := exec (IVRService.start demo_env;; IVRService.start demo_env) World.init in
  let other := "01234567-89ab-4def-8123-456789abcdf0" in
  other <> demo_intake /\
  sessions w !! other = Some fresh_session /\
  sessions (exec (dial demo_intake ["2"; "5"; "0"]) w) !! other = sessions w !! other /\
  db (exec (dial demo_intake ["2"; "5"; "0"]) w) = db w.
Proof.
  intros w other.
  assert (Hne : other <> demo_intake) by discriminate.
  split; [exact Hne|]. split; [vm_compute; reflexivity|].
  exact (dial_leaves_others demo_intake other ["2"; "5"; "0"] w Hne).
Defined.

Lemma press_entry_member d s :
  is_entry d = true ->
  Session.state s = collectMemberIdElig \/ Session.state s = collectMemberIdAuth ->
  press d s =
    IVRService.set_prompt "Continue entering member ID, then #"
      (IVRService.set_memberId
         (Some (IVRService.or_empty (Session.memberId s) +:+ d))
         (IVRService.set_dtmf (Session.dtmf s ++ [d]) s)).
Proof.
  intros Hd Hst. apply is_entry_spec in Hd as [Hh Hz].
  unfold press, IVRService.on_state, IVRService.on_zero. simpl.
  destruct Hst as [-> | ->]; rewrite Hh, Hz; reflexivity.
Qed.

Lemma press_entry_dob d s :
  is_entry d = true ->
  Session.state s = collectDobElig \/ Session.state s = collectDobAuth ->
  press d s =
    IVRService.set_prompt "Continue entering DOB, then #"
      (IVRService.set_dob
         (Some (IVRService.or_empty (Session.dob s) +:+ d))
         (IVRService.set_dtmf (Session.dtmf s ++ [d]) s)).
Proof.
  intros Hd Hst. apply is_entry_spec in Hd as [Hh Hz].
  unfold press, IVRService.on_state, IVRService.on_zero. simpl.
  destruct Hst as [-> | ->]; rewrite Hh, Hz; reflexivity.
Qed.

Lemma entries_member ds : forall s,
  forallb is_entry ds = true ->
  Session.state s = collectMemberIdElig \/ Session.state s = collectMemberIdAuth ->
  let s' := fold_left (fun s d => press d s) ds s in
  Session.state s' = Session.state s /\
  IVRService.or_empty (Session.memberId s')
    = IVRService.or_empty (Session.memberId s) +:+ join ds /\
  Session.dob s' = Session.dob s /\
  Session.benefits s' = Session.benefits s.
Proof.
  induction ds as [|d ds IH]; intros s Hds Hst; simpl in *.
  - rewrite append_empty_r. auto.
  - apply andb_prop in Hds as [Hd Hds].
    rewrite (press_entry_member d s Hd Hst).
    match goal with |- context [fold_left _ ds ?x] =>
      destruct (IH x Hds) as (H1 & H2 & H3 & H4); [exact Hst|]
    end.
    rewrite H1, H2, H3, H4. simpl. rewrite append_assoc. auto.
Qed.

Lemma entries_dob ds : forall s,
  forallb is_entry ds = true ->
  Session.state s = collectDobElig \/ Session.state s = collectDobAuth ->
  let s' := fold_left (fun s d => press d s) ds s in
  Session.state s' = Session.state s /\
  IVRService.or_empty (Session.dob s')
    = IVRService.or_empty (Session.dob s) +:+ join ds /\
  Session.memberId s' = Session.memberId s /\
  Session.benefits s' = Session.benefits s.
Proof.
  induction ds as [|d ds IH]; intros s Hds Hst; simpl in *.
  - rewrite append_empty_r. auto.
  - apply andb_prop in Hds as [Hd Hds].
    rewrite (press_entry_dob d s Hd Hst).
    match goal with |- context [fold_left _ ds ?x] =>
      destruct (IH x Hds) as (H1 & H2 & H3 & H4); [exact Hst|]
    end.
    rewrite H1, H2, H3, H4. simpl. rewrite append_assoc. auto.
Qed.

(** X4: while a session collects the member id, presses other than [#] and
    [0] only grow the member-id buffer: the state, the DOB buffer and the
    benefits stay, and the buffer is the old one followed by the presses. *)
Theorem member_id_accumulates sid ds w s :
  sessions w !! sid = Some s ->
  Session.state s = collectMemberIdElig \/ Session.state s = collectMemberIdAuth ->
  forallb is_entry ds = true ->
  exists s',
    sessions (exec (dial sid ds) w) !! sid = Some s' /\
    Session.state s' = Session.state s /\
    IVRService.or_empty (Session.memberId s')
      = IVRService.or_empty (Session.memberId s) +:+ join ds /\
    Session.dob s' = Session.dob s /\
    Session.benefits s' = Session.benefits s.
Proof.
  intros H Hst Hds. rewrite (dial_found sid ds w s H).
  eexists. split; [reflexivity|]. exact (entries_member ds s Hds Hst).
Qed.

Lemma member_id_accumulates_witness :
  let w := exec (IVRService.start demo_env;; dial demo_intake ["1"; "4"]) World.init in
  let s := fold_left (fun s d => press d s) ["1"; "4"] fresh_session in
  (sessions w !! demo_intake = Some s /\
   (Session.state s = collectMemberIdElig \/ Session.state s = collectMemberIdAuth) /\
   forallb is_entry ["2"; "*"; "9"] = true) /\
  exists s',
    sessions (exec (dial demo_intake ["2"; "*"; "9"]) w) !! demo_intake = Some s' /\
    Session.state s' = Session.state s /\
    IVRService.or_empty (Session.memberId s')
      = IVRService.or_empty (Session.memberId s) +:+ join ["2"; "*"; "9"] /\
    Session.dob s' = Session.dob s /\
    Session.benefits s' = Session.benefits s.
Proof.
  intros w s.
  assert (H : sessions w !! demo_intake = Some s) by (vm_compute; reflexivity).
  assert (Hst : Session.state s = collectMemberIdElig \/
                Session.state s = collectMemberIdAuth) by (left; reflexivity).
  assert (Hds : forallb is_entry ["2"; "*"; "9"] = true) by reflexivity.
  split; [repeat apply conj; assumption|].
  exact (member_id_accumulates demo_intake ["2"; "*"; "9"] w s H Hst Hds).
Defined.

Lemma presses_dtmf ds : forall s,
  Session.dtmf (fold_left (fun s d => press d s) ds s) = Session.dtmf s ++ ds.
Proof.
  induction ds as [|d ds IH]; intros s; simpl.
  - now rewrite app_nil_r.
  - rewrite IH, press_dtmf, <- app_assoc. reflexivity.
Qed.

Lemma press_hash_member s :
  Session.state s = collectMemberIdElig \/ Session.state s = collectMemberIdAuth ->
  let s' := press "#" s in
  Session.state s' =
    (if decide (Session.state s = collectMemberIdElig)
     then collectDobElig else collectDobAuth) /\
  Session.memberId s' = Session.memberId s /\
  Session.dob s' = Session.dob s /\
  Session.benefits s' = Session.benefits s.
Proof.
  unfold press, IVRService.on_state, IVRService.on_zero. simpl.
  intros [-> | ->]; simpl; auto.
Qed.

Lemma press_hash_dob s :
  Session.state s = collectDobElig \/ Session.state s = collectDobAuth ->
  let s' := press "#" s in
  Session.state s' =
    (if decide (Session.state s = collectDobElig)
     then benefitsSummary else checkAuthRequirement) /\
  Session.memberId s' = Session.memberId s /\
  Session.dob s' = Some (IVRService.or_empty (Session.dob s)) /\
  Session.benefits s' = Some IVRService._benefits_summary.
Proof.
  unfold press, IVRService.on_state, IVRService.on_zero. simpl.
  intros [-> | ->]; simpl; auto.
Qed.

(** X5: a whole call without zeros: on a fresh session, 1 (or 2), any
    member-id presses, [#], any DOB presses, [#] ends in [benefitsSummary]
    (or [checkAuthRequirement]) with the two buffers holding exactly the
    presses made, the fixed benefits stored, and every press logged.  An
    empty member id or DOB is accepted like any other. *)
Theorem service_walk_completes E w (auth : bool) member dob :
  forallb is_entry member = true ->
  forallb is_entry dob = true ->
  let sid := Uuid.str (Uuid.uuid4_int (urandom16 E (uuid_draws w))) in
  let keys := (if auth then "2" else "1") :: member ++ "#" :: dob ++ ["#"] in
  exists s,
    sessions (exec (IVRService.start E;; dial sid keys) w) !! sid = Some s /\
    Session.state s = (if auth then checkAuthRequirement else benefitsSummary) /\
    IVRService.or_empty (Session.memberId s) = join member /\
    Session.dob s = Some (join dob) /\
    Session.benefits s = Some IVRService._benefits_summary /\
    Session.dtmf s = keys.
Proof.
  intros Hm Hd sid keys.
  assert (H0 : sessions (exec (IVRService.start E) w) !! sid = Some fresh_session).
  { unfold exec. rewrite start_run. simpl. apply lookup_insert_eq. }
  assert (Hrun : exec (IVRService.start E;; dial sid keys) w
                 = exec (dial sid keys) (exec (IVRService.start E) w)).
  { unfold exec. rewrite (bind_ok _ _ _ _ _ (start_run E w)).
    rewrite start_run. reflexivity. }
  rewrite Hrun, (dial_found sid keys _ fresh_session H0).
  eexists. split; [reflexivity|].
  assert (Hlog : Session.dtmf (fold_left (fun s d => press d s) keys fresh_session)
                 = keys) by apply presses_dtmf.
  unfold keys in *. cbn [fold_left]. rewrite fold_left_app. cbn [fold_left].
  rewrite fold_left_app. cbn [fold_left].
  set (s1 := press (if auth then "2" else "1") fresh_session).
  assert (Hs1 : Session.state s1 =
                  (if auth then collectMemberIdAuth else collectMemberIdElig) /\
                Session.memberId s1 = None /\ Session.dob s1 = None).
  { unfold s1. destruct auth; repeat split. }
  destruct Hs1 as (Hst1 & Hm1 & Hd1).
  assert (Hc1 : Session.state s1 = collectMemberIdElig \/
                Session.state s1 = collectMemberIdAuth)
    by (rewrite Hst1; destruct auth; auto).
  destruct (entries_member member s1 Hm Hc1) as (Hst2 & Hm2 & Hd2 & _).
  set (s2 := fold_left (fun s d => press d s) member s1) in *.
  assert (Hc2 : Session.state s2 = collectMemberIdElig \/
                Session.state s2 = collectMemberIdAuth) by (rewrite Hst2; exact Hc1).
  destruct (press_hash_member s2 Hc2) as (Hst3 & Hm3 & Hd3 & _).
  set (s3 := press "#" s2) in *.
  assert (Hc3 : Session.state s3 = collectDobElig \/ Session.state s3 = collectDobAuth).
  { rewrite Hst3. destruct (decide _); auto. }
  destruct (entries_dob dob s3 Hd Hc3) as (Hst4 & Hd4 & Hm4 & _).
  set (s4 := fold_left (fun s d => press d s) dob s3) in *.
  assert (Hc4 : Session.state s4 = collectDobElig \/ Session.state s4 = collectDobAuth)
    by (rewrite Hst4; exact Hc3).
  destruct (press_hash_dob s4 Hc4) as (Hst5 & Hm5 & Hd5 & Hb5).
  set (s5 := press "#" s4) in *.
  split; [|split; [|split; [|split]]].
  - rewrite Hst5, Hst4, Hst3, Hst2, Hst1. destruct auth; reflexivity.
  - rewrite Hm5, Hm4, Hm3, Hm2, Hm1. reflexivity.
  - rewrite Hd5, Hd4, Hd3, Hd2, Hd1. reflexivity.
  - exact Hb5.
  - rewrite <- Hlog. cbn [fold_left]. rewrite fold_left_app. cbn [fold_left].
    rewrite fold_left_app. reflexivity.
Qed.

Lemma service_walk_completes_witness :
  let member := ["1"; "2"; "3"] in
  let dob := ["1"; "9"; "9"; "9"; "1"; "2"; "3"; "1"] in
  (forallb is_entry member = true /\ forallb is_entry dob = true) /\
  let sid := Uuid.str (Uuid.uuid4_int (urandom16 demo_env (uuid_draws World.init))) in
  let keys := "2" :: member ++ "#" :: dob ++ ["#"] in
  exists s,
    sessions (exec (IVRService.start demo_env;; dial sid keys) World.init) !! sid
      = Some s /\
    Session.state s = checkAuthRequirement /\
    IVRService.or_empty (Session.memberId s) = join member /\
    Session.dob s = Some (join dob) /\
    Session.benefits s = Some IVRService._benefits_summary /\
    Session.dtmf s = keys.
Proof.
  intros member dob. split; [split; reflexivity|].
  exact (service_walk_completes demo_env World.init true member dob eq_refl eq_refl).
Defined.

Lemma press_rank d s :
  (rank (Session.state s) <= rank (Session.state (press d s)))%nat.
Proof.
  unfold press, IVRService.on_zero, IVRService.on_state.
  destruct s as [st pr dt tr mi dob be ar]; simpl.
  destruct st; simpl;
    repeat match goal with
           | |- context [if ?b then _ else _] => destruct b; simpl
           end; lia.
Qed.

(** X6: a call only moves forward: through any presses the stage of a
    session (menu, member id, DOB, result, ended) never goes back, so no
    session ever returns to the menu or to an earlier prompt. *)
Theorem session_never_goes_back sid ds w s :
  sessions w !! sid = Some s ->
  exists s',
    sessions (exec (dial sid ds) w) !! sid = Some s' /\
    (rank (Session.state s) <= rank (Session.state s'))%nat.
Proof.
  intros H. rewrite (dial_found sid ds w s H). eexists. split; [reflexivity|].
  clear H. revert s. induction ds as [|d ds IH]; intros s; simpl; [lia|].
  pose proof (press_rank d s). specialize (IH (press d s)). lia.
Qed.

Lemma session_never_goes_back_witness :
  let w := exec (IVRService.start demo_env;; dial demo_intake ["1"; "7"; "#"]) World.init in
  let s := fold_left (fun s d => press d s) ["1"; "7"; "#"] fresh_session in
  (sessions w !! demo_intake = Some s /\ Session.state s = collectDobElig) /\
  exists s',
    sessions (exec (dial demo_intake ["1"; "2"; "9"; "#"; "9"]) w) !! demo_intake
      = Some s' /\
    (rank (Session.state s) <= rank (Session.state s'))%nat.
Proof.
  intros w s.
  assert (H : sessions w !! demo_intake = Some s) by (vm_compute; reflexivity).
  split; [split; [exact H | reflexivity]|].
  exact (session_never_goes_back demo_intake ["1"; "2"; "9"; "#"; "9"] w s H).
Defined.

Lemma press_staged d s : session_staged s -> session_staged (press d s).
Proof.
  unfold session_staged, press, IVRService.on_zero, IVRService.on_state.
  destruct s as [st pr dt tr mi dob be ar]; simpl.
  destruct st; simpl; intros [Ht H];
    repeat match goal with
           | |- context [if ?b then _ else _] => destruct b; simpl
           end;
    (split; [exact Ht|]); intuition (auto; discriminate).
Qed.

(** An invariant of single sessions holds of every session the service
    holds, whatever calls it served. *)
Lemma do_calls_sessions_invariant (P : Session.t -> Prop) E cs :
  P fresh_session ->
  (forall d s, P s -> P (press d s)) ->
  forall w,
    map_Forall (fun _ s => P s) (sessions w) ->
    map_Forall (fun _ s => P s) (sessions (exec (do_calls E cs) w)).
Proof.
  intros H0 Hp. induction cs as [|c cs IH]; intros w H; simpl; [exact H|].
  unfold exec in *. unfold mbind, M_bind.
  assert (H1 : map_Forall (fun _ s => P s) (sessions (snd (do_call E c w)))).
  { destruct c as [|sid d|sid|v]; simpl.
    - apply map_Forall_insert_2; [exact H0 | exact H].
    - destruct (sessions w !! sid) as [s|] eqn:Hs.
      + rewrite (dtmf_found _ _ _ _ Hs). simpl.
        apply map_Forall_insert_2; [|exact H]. apply Hp. exact (H _ _ Hs).
      + rewrite (dtmf_missing _ _ _ Hs). exact H.
    - unfold IVRService.result, mbind, M_bind, get_sessions. simpl.
      destruct (sessions w !! sid); exact H.
    - rewrite calculate_auth_run. exact H. }
  destruct (do_call E c w) as [[a|e] w1]; simpl in *; [apply IH|]; exact H1.
Qed.

(** X7: what [result] reports follows the stage of the call.  Whatever
    calls the service has served, a session that has not passed the DOB
    step reports null benefits, a session in [benefitsSummary] or
    [checkAuthRequirement] reports the fixed benefits summary and has a DOB
    recorded, and no session ever has a transcript entry. *)
Theorem result_follows_stage E cs sid s :
  let w := exec (do_calls E cs) World.init in
  sessions w !! sid = Some s ->
  Session.transcript s = [] /\
  ((rank (Session.state s) < 3)%nat ->
     eval (IVRService.result sid) w =
       Ok [("sessionId", VStr sid); ("benefits", VNone); ("authResult", VNone)]) /\
  (rank (Session.state s) = 3%nat ->
     Session.dob s <> None /\
     eval (IVRService.result sid) w =
       Ok [("sessionId", VStr sid);
           ("benefits", VDict IVRService._benefits_summary);
           ("authResult", VNone)]).
Proof.
  intros w H.
  assert (Hst : session_staged s).
  { refine (do_calls_sessions_invariant session_staged E cs _ press_staged
              World.init _ sid s H).
    - repeat split.
    - apply map_Forall_empty. }
  assert (Hau : Session.authResult s = None).
  { refine (do_calls_no_auth_result E cs World.init _ sid s H).
    apply map_Forall_empty. }
  unfold eval. rewrite (result_found sid w s H), Hau. simpl.
  destruct Hst as [Ht Hst]. split; [exact Ht|].
  destruct (Session.state s); simpl in *; split; intros Hr; try lia;
    try (destruct Hst as (? & ? & ->); reflexivity);
    try (destruct Hst as (? & ->); reflexivity);
    try (rewrite Hst; reflexivity);
    destruct Hst as [-> Hd]; (split; [exact Hd | reflexivity]).
Qed.

Lemma result_follows_stage_witness :
  let cs := CallStart :: map (CallDtmf demo_intake) ["1"; "4"; "2"; "#"; "#"] in
  let s := fold_left (fun s d => press d s) ["1"; "4"; "2"; "#"; "#"] fresh_session in
  let w := exec (do_calls demo_env cs) World.init in
  (sessions w !! demo_intake = Some s /\ rank (Session.state s) = 3%nat) /\
  Session.transcript s = [] /\
  ((rank (Session.state s) < 3)%nat ->
     eval (IVRService.result demo_intake) w =
       Ok [("sessionId", VStr demo_intake); ("benefits", VNone);
           ("authResult", VNone)]) /\
  (rank (Session.state s) = 3%nat ->
     Session.dob s <> None /\
     eval (IVRService.result demo_intake) w =
       Ok [("sessionId", VStr demo_intake);
           ("benefits", VDict IVRService._benefits_summary);
           ("authResult", VNone)]).
Proof.
  intros cs s w.
  assert (H : sessions w !! demo_intake = Some s) by (vm_compute; reflexivity).
  split; [split; [exact H | reflexivity]|].
  exact (result_follows_stage demo_env cs demo_intake s H).
Defined.

Lemma press_summary d s :
  d <> "0" ->
  Session.state s = benefitsSummary \/ Session.state s = checkAuthRequirement ->
  let s' := press d s in
  Session.state s' = Session.state s /\
  Session.benefits s' = Session.benefits s /\
  Session.memberId s' = Session.memberId s /\
  Session.dob s' = Session.dob s.
Proof.
  intros Hd Hst. apply String.eqb_neq in Hd.
  unfold press, IVRService.on_state, IVRService.on_zero.
  destruct s as [st pr dt tr mi dob be ar]; simpl in *.
  destruct Hst as [-> | ->]; simpl; rewrite ?Hd; simpl.
  - destruct (String.eqb d "9"); simpl; rewrite ?Hd; auto.
  - auto.
Qed.

(** X8: the two result states are left only by 0: in [benefitsSummary] or
    [checkAuthRequirement] any presses without a 0 keep the state, the
    benefits and both buffers (so 9 "repeats" and every other key is
    ignored but for the prompt). *)
Theorem result_state_left_only_by_zero sid ds w s :
  sessions w !! sid = Some s ->
  Session.state s = benefitsSummary \/ Session.state s = checkAuthRequirement ->
  Forall (fun d => d <> "0") ds ->
  exists s',
    sessions (exec (dial sid ds) w) !! sid = Some s' /\
    Session.state s' = Session.state s /\
    Session.benefits s' = Session.benefits s /\
    Session.memberId s' = Session.memberId s /\
    Session.dob s' = Session.dob s.
Proof.
  intros H Hst Hds. rewrite (dial_found sid ds w s H).
  eexists. split; [reflexivity|]. clear H. revert s Hst.
  induction Hds as [|d ds Hd _ IH]; intros s Hst; simpl; [auto|].
  destruct (press_summary d s Hd Hst) as (H1 & H2 & H3 & H4).
  destruct (IH (press d s)) as (K1 & K2 & K3 & K4); [rewrite H1; exact Hst|].
  rewrite K1, K2, K3, K4. auto.
Qed.

Lemma result_state_left_only_by_zero_witness :
  let w := exec (IVRService.start demo_env;; dial demo_intake ["2"; "#"; "#"])
             World.init in
  let s := fold_left (fun s d => press d s) ["2"; "#"; "#"] fresh_session in
  (sessions w !! demo_intake = Some s /\
   (Session.state s = benefitsSummary \/ Session.state s = checkAuthRequirement) /\
   Forall (fun d => d <> "0") ["9"; "1"; "#"; "2"]) /\
  exists s',
    sessions (exec (dial demo_intake ["9"; "1"; "#"; "2"]) w) !! demo_intake = Some s' /\
    Session.state s' = Session.state s /\
    Session.benefits s' = Session.benefits s /\
    Session.memberId s' = Session.memberId s /\
    Session.dob s' = Session.dob s.
Proof.
  intros w s.
  assert (H : sessions w !! demo_intake = Some s) by (vm_compute; reflexivity).
  assert (Hst : Session.state s = benefitsSummary \/
                Session.state s = checkAuthRequirement) by (right; reflexivity).
  assert (Hds : Forall (fun d => d <> "0") ["9"; "1"; "#"; "2"])
    by (repeat constructor; discriminate).
  split; [repeat apply conj; assumption|].
  exact (result_state_left_only_by_zero demo_intake _ w s H Hst Hds).
Defined.

(** ** The rule engine beyond its stated rule *)

(** X9: authorization is all or nothing, for every integer input: at most
    6 requested visits (a negative count included) approve 0 with no
    number, and any larger request approves exactly 6, never more and never
    fewer, so the plan's remaining visits (12 - 2) never limit the
    approval. *)
Theorem approval_all_or_nothing E v w :
  exists auth,
    eval (IVRService.calculate_auth E v) w = Ok auth /\
    (v <= 6 ->
       Py.get "authRequired" auth = Some (VBool false) /\
       Py.get "visitsApproved" auth = Some (VInt 0) /\
       Py.get "authNumber" auth = Some VNone) /\
    (6 < v ->
       Py.get "authRequired" auth = Some (VBool true) /\
       Py.get "visitsApproved" auth = Some (VInt 6) /\
       exists n, Py.get "authNumber" auth = Some (VStr n)).
Proof.
  unfold eval. rewrite calculate_auth_run. eexists. split; [reflexivity|].
  split; intros Hv.
  - assert (Hb : (v >? 6) = false) by lia. rewrite Hb. repeat split.
  - assert (Hb : (v >? 6) = true) by lia. rewrite Hb.
    split; [reflexivity|]. split; [|eexists; reflexivity].
    cbn [Py.get String.eqb Ascii.eqb Bool.eqb]. do 3 f_equal. lia.
Qed.

(** X10: with a clock that does not run backwards and two readings less
    than a day apart, the validity window [calculate_auth] reports is 60 or
    61 days, never shorter. *)
Theorem validity_sixty_or_sixty_one E v w :
  let t1 := utcnow E (clock_reads w) in
  let t2 := utcnow E (S (clock_reads w)) in
  t1 <= t2 -> t2 < t1 + Cal.us_per_day ->
  exists auth valid_from valid_to,
    eval (IVRService.calculate_auth E v) w = Ok auth /\
    Py.get "validFrom" auth = Some (VStr (Cal.isoformat valid_from)) /\
    Py.get "validTo" auth = Some (VStr (Cal.isoformat valid_to)) /\
    valid_from = Cal.date t1 /\
    (valid_to - valid_from = 60 \/ valid_to - valid_from = 61).
Proof.
  intros t1 t2 Hle Hlt. unfold eval. rewrite calculate_auth_run.
  eexists _, _, _. split; [reflexivity|]. split; [reflexivity|].
  split; [reflexivity|]. split; [reflexivity|].
  fold t1 t2. unfold Cal.date, Cal.timedelta_days in *.
  assert (HD : 0 < Cal.us_per_day) by (unfold Cal.us_per_day; lia).
  rewrite Z.div_add by lia.
  assert (H1 : t1 / Cal.us_per_day <= t2 / Cal.us_per_day)
    by (apply Z.div_le_mono; lia).
  assert (H2 : t2 / Cal.us_per_day <= (t1 + 1 * Cal.us_per_day) / Cal.us_per_day)
    by (apply Z.div_le_mono; lia).
  rewrite Z.div_add in H2 by lia. lia.
Qed.

Lemma validity_sixty_or_sixty_one_witness :
  let t1 := utcnow midnight_env (clock_reads World.init) in
  let t2 := utcnow midnight_env (S (clock_reads World.init)) in
  (t1 <= t2 /\ t2 < t1 + Cal.us_per_day) /\
  exists auth valid_from valid_to,
    eval (IVRService.calculate_auth midnight_env 7) World.init = Ok auth /\
    Py.get "validFrom" auth = Some (VStr (Cal.isoformat valid_from)) /\
    Py.get "validTo" auth = Some (VStr (Cal.isoformat valid_to)) /\
    valid_from = Cal.date t1 /\
    (valid_to - valid_from = 60 \/ valid_to - valid_from = 61).
Proof.
  intros t1 t2.
  assert (H1 : t1 <= t2) by (vm_compute; discriminate).
  assert (H2 : t2 < t1 + Cal.us_per_day) by (vm_compute; reflexivity).
  split; [split; assumption|].
  exact (validity_sixty_or_sixty_one midnight_env 7 World.init H1 H2).
Defined.

(** ** [apply_defaults] *)

Lemma get_fill f k v c :
  Py.get f (fill k v c) =
    if String.eqb f k && negb (Py.truthy (Py.get_default k VNone c))
    then Some v else Py.get f c.
Proof.
  unfold fill. destruct (Py.truthy (Py.get_default k VNone c)); simpl.
  - now rewrite andb_false_r.
  - rewrite andb_true_r. apply get_set.
Qed.

Lemma apply_defaults_dict d c :
  Py.get_default "clinical" (VDict []) d = VDict c ->
  apply_defaults (VDict d) =
    Ok (VDict (Py.set "clinical"
                 (VDict (fill "visitsRequested" (VInt 8)
                           (fill "icd10Code" (VStr "M25.561")
                              (fill "cptCodes" (VList [VStr "97161"; VStr "97110"]) c))))
                 (match Py.get "clinical" d with
                  | Some _ => d
                  | None => Py.set "clinical" (VDict []) d
                  end))).
Proof.
  unfold apply_defaults, Py.get_default. cbn [Py.as_dict]. rewrite rbind_ok.
  destruct (Py.get "clinical" d) as [v|] eqn:Hc; intros Hv.
  - subst v. rewrite Hc. reflexivity.
  - injection Hv as <-. rewrite get_set, String.eqb_refl. reflexivity.
Qed.

Lemma set_same k v d : Py.get k d = Some v -> Py.set k v d = d.
Proof.
  induction d as [|[k0 v0] r IH]; simpl; [discriminate|].
  destruct (String.eqb k k0) eqn:E0.
  - apply String.eqb_eq in E0. subst k0. intros H. now injection H as ->.
  - intros H. now rewrite IH.
Qed.

Lemma get_set_other k k' v d :
  k <> k' -> Py.get k (Py.set k' v d) = Py.get k d.
Proof. intros H. rewrite get_set. apply String.eqb_neq in H. now rewrite H. Qed.

(** X11: what [apply_defaults] changes.  On a dict payload whose [clinical]
    entry is a dict [c] (or absent, read as empty) it returns a dict that
    agrees with the payload on every other key, and whose [clinical] dict
    agrees with [c] on every field except that [cptCodes], [icd10Code] and
    [visitsRequested] get their default when [c] has them missing or falsy;
    a value that is present and truthy is never replaced. *)
Theorem apply_defaults_fills_only_missing d c :
  Py.get_default "clinical" (VDict []) d = VDict c ->
  exists d' c',
    apply_defaults (VDict d) = Ok (VDict d') /\
    Py.get "clinical" d' = Some (VDict c') /\
    (forall k, k <> "clinical" -> Py.get k d' = Py.get k d) /\
    (forall f,
       Py.get f c' =
         match clinical_default f with
         | Some v =>
             if Py.truthy (Py.get_default f VNone c) then Py.get f c else Some v
         | None => Py.get f c
         end).
Proof.
  intros Hc. rewrite (apply_defaults_dict d c Hc). eexists _, _.
  split; [reflexivity|]. split; [now rewrite get_set, String.eqb_refl|]. split.
  - intros k Hk. rewrite get_set_other by exact Hk.
    destruct (Py.get "clinical" d); [reflexivity|]. now apply get_set_other.
  - intros f. rewrite !get_fill. unfold Py.get_default at 1 2. rewrite !get_fill.
    unfold clinical_default. cbn [String.eqb Ascii.eqb Bool.eqb andb].
    fold (Py.get_default "cptCodes" VNone c) (Py.get_default "icd10Code" VNone c)
         (Py.get_default "visitsRequested" VNone c).
    destruct (String.eqb f "cptCodes") eqn:E1.
    { apply String.eqb_eq in E1. subst f. cbn [String.eqb Ascii.eqb Bool.eqb andb].
      destruct (Py.truthy (Py.get_default "cptCodes" VNone c)); reflexivity. }
    destruct (String.eqb f "icd10Code") eqn:E2.
    { apply String.eqb_eq in E2. subst f. cbn [String.eqb Ascii.eqb Bool.eqb andb].
      destruct (Py.truthy (Py.get_default "icd10Code" VNone c)); reflexivity. }
    destruct (String.eqb f "visitsRequested") eqn:E3.
    { apply String.eqb_eq in E3. subst f.
      destruct (Py.truthy (Py.get_default "visitsRequested" VNone c)); reflexivity. }
    reflexivity.
Qed.

Lemma apply_defaults_fills_only_missing_witness :
  Py.get_default "clinical" (VDict []) sample_payload = VDict sample_clinical /\
  exists d' c',
    apply_defaults (VDict sample_payload) = Ok (VDict d') /\
    Py.get "clinical" d' = Some (VDict c') /\
    (forall k, k <> "clinical" -> Py.get k d' = Py.get k sample_payload) /\
    (forall f,
       Py.get f c' =
         match clinical_default f with
         | Some v =>
             if Py.truthy (Py.get_default f VNone sample_clinical)
             then Py.get f sample_clinical else Some v
         | None => Py.get f sample_clinical
         end).
Proof.
  split; [reflexivity|].
  exact (apply_defaults_fills_only_missing sample_payload sample_clinical eq_refl).
Defined.

Example apply_defaults_sample :
  apply_defaults (VDict sample_payload) =
    Ok (VDict
          [("patient", VDict [("firstName", VStr "Ada"); ("lastName", VStr "Li")]);
           ("clinical",
            VDict [("icd10Code", VStr "S83.241A");
                   ("cptCodes", VList [VStr "97161"; VStr "97110"]);
                   ("visitsRequested", VInt 8); ("notes", VStr "post-op")])]).
Proof. reflexivity. Qed.


Lemma fill_truthy k v c :
  Py.truthy v = true -> Py.truthy (Py.get_default k VNone (fill k v c)) = true.
Proof.
  intros Hv. unfold Py.get_default at 1. rewrite get_fill, String.eqb_refl. simpl.
  destruct (Py.truthy (Py.get_default k VNone c)) eqn:Ht; simpl; [|exact Hv].
  exact Ht.
Qed.

Lemma fill_other k k' v c :
  k' <> k -> Py.get_default k' VNone (fill k v c) = Py.get_default k' VNone c.
Proof.
  intros H. unfold Py.get_default. rewrite get_fill.
  apply String.eqb_neq in H. now rewrite H.
Qed.




Lemma fill_id k v c :
  Py.truthy (Py.get_default k VNone c) = true -> fill k v c = c.
Proof. intros H. unfold fill. now rewrite H. Qed.

(** X13: when [apply_defaults] fails.  It raises exactly on a payload that
    is not a dict or whose [clinical] entry is present but not a dict (null
    included), always with [AttributeError]; on every other payload it
    returns. *)
Theorem apply_defaults_outcome p :
  match apply_defaults p with
  | Ok _ => well_shaped p = true
  | Raise e => e = AttributeError /\ well_shaped p = false
  end.
Proof.
  unfold apply_defaults, well_shaped.
  destruct p as [| | | | |d| |]; try (apply conj; reflexivity).
  cbn [Py.as_dict]. rewrite rbind_ok. unfold Py.get_default.
  destruct (Py.get "clinical" d) as [v|] eqn:Hc.
  - rewrite Hc. destruct v; first [apply conj; reflexivity | reflexivity].
  - rewrite get_set, String.eqb_refl. reflexivity.
Qed.

Lemma apply_defaults_ok_inv p p' :
  apply_defaults p = Ok p' ->
  exists d c, p = VDict d /\ Py.get_default "clinical" (VDict []) d = VDict c.
Proof.
  intros H. pose proof (apply_defaults_outcome p) as Ho. rewrite H in Ho.
  unfold well_shaped in Ho. destruct p as [| | | | |d| |]; try discriminate.
  exists d. unfold Py.get_default.
  destruct (Py.get "clinical" d) as [[| | | | |c| |]|]; try discriminate; eauto.
Qed.

(** X12: [apply_defaults] is idempotent: applied to its own result it
    returns that result unchanged, so backfilling an already backfilled
    payload (as a second run would) alters nothing. *)
Theorem apply_defaults_idempotent p p' :
  apply_defaults p = Ok p' -> apply_defaults p' = Ok p'.
Proof.
  intros H. destruct (apply_defaults_ok_inv p p' H) as (d & c & -> & Hc).
  rewrite (apply_defaults_dict d c Hc) in H. injection H as <-.
  set (c3 := fill "visitsRequested" (VInt 8)
               (fill "icd10Code" (VStr "M25.561")
                  (fill "cptCodes" (VList [VStr "97161"; VStr "97110"]) c))).
  set (d0 := match Py.get "clinical" d with
             | Some _ => d
             | None => Py.set "clinical" (VDict []) d
             end).
  assert (Hg : Py.get "clinical" (Py.set "clinical" (VDict c3) d0) = Some (VDict c3))
    by now rewrite get_set, String.eqb_refl.
  rewrite (apply_defaults_dict _ c3) by (unfold Py.get_default; now rewrite Hg).
  rewrite Hg.
  assert (H1 : Py.truthy (Py.get_default "cptCodes" VNone c3) = true).
  { unfold c3. rewrite !fill_other by discriminate. now apply fill_truthy. }
  assert (H2 : Py.truthy (Py.get_default "icd10Code" VNone c3) = true).
  { unfold c3. rewrite fill_other by discriminate. now apply fill_truthy. }
  assert (H3 : Py.truthy (Py.get_default "visitsRequested" VNone c3) = true).
  { unfold c3. now apply fill_truthy. }
  rewrite (fill_id "cptCodes" _ c3 H1), (fill_id "icd10Code" _ c3 H2),
    (fill_id "visitsRequested" _ c3 H3).
  now rewrite (set_same _ _ _ Hg).
Qed.

Lemma apply_defaults_idempotent_witness :
  exists p',
    apply_defaults (VDict sample_payload) = Ok p' /\ apply_defaults p' = Ok p'.
Proof.
  eexists. split; [reflexivity|].
  exact (apply_defaults_idempotent (VDict sample_payload) _ eq_refl).
Defined.



(** ** Runs that do not complete *)


(** X15: the pipeline run for an id with no intake record returns
    normally, and yet it has already recorded [runStarted]: exactly that
    one audit event is appended, and nothing else in the store changes. *)
Theorem run_on_missing_intake E id w :
  Mongo.find_one "_id" id (c_pt_intakes (db w)) = None ->
  exists w' ev,
    run_intake_pipeline E id w = (Ok tt, w') /\
    c_audit_events (db w') = c_audit_events (db w) ++ [ev] /\
    Py.get "action" ev = Some (VStr "runStarted") /\
    Py.get "entityId" ev = Some (VStr id) /\
    c_pt_intakes (db w') = c_pt_intakes (db w) /\
    derived_records w' = derived_records w.
Proof.
  intros Hf. unfold run_intake_pipeline.
  erewrite bind_ok by apply emit_audit_run.
  erewrite bind_ok by apply find_one_run.
  store_simpl. rewrite Hf.
  eexists _, _. split; [reflexivity|]. store_simpl. repeat split.
Qed.

Lemma run_on_missing_intake_witness :
  Mongo.find_one "_id" "no-such-intake" (c_pt_intakes (db demo_world)) = None /\
  exists w' ev,
    run_intake_pipeline demo_env "no-such-intake" demo_world = (Ok tt, w') /\
    c_audit_events (db w') = c_audit_events (db demo_world) ++ [ev] /\
    Py.get "action" ev = Some (VStr "runStarted") /\
    Py.get "entityId" ev = Some (VStr "no-such-intake") /\
    c_pt_intakes (db w') = c_pt_intakes (db demo_world) /\
    derived_records w' = derived_records demo_world.
Proof.
  assert (Hf : Mongo.find_one "_id" "no-such-intake" (c_pt_intakes (db demo_world))
               = None) by (vm_compute; reflexivity).
  split; [exact Hf|].
  exact (run_on_missing_intake demo_env "no-such-intake" demo_world Hf).
Defined.








(** ** Dicts have one entry per key *)

Lemma keys_set k v d :
  map fst (Py.set k v d) =
    if existsb (String.eqb k) (map fst d) then map fst d else map fst d ++ [k].
Proof.
  induction d as [|[k0 v0] r IH]; simpl; [reflexivity|].
  destruct (String.eqb k k0) eqn:E0; simpl.
  - apply String.eqb_eq in E0. now subst.
  - rewrite IH. destruct (existsb (String.eqb k) (map fst r)); reflexivity.
Qed.

Lemma set_nodup k v d : NoDup (map fst d) -> NoDup (map fst (Py.set k v d)).
Proof.
  intros H. rewrite keys_set.
  destruct (existsb (String.eqb k) (map fst d)) eqn:Ex; [exact H|].
  apply NoDup_app. split; [exact H|]. split; [|repeat constructor; intros []%elem_of_nil].
  intros x Hx Hk. apply list_elem_of_singleton in Hk. subst x.
  apply list_elem_of_In in Hx.
  assert (Ht : existsb (String.eqb k) (map fst d) = true).
  { apply existsb_exists. exists k. split; [exact Hx | apply String.eqb_refl]. }
  congruence.
Qed.

Lemma update_nodup d items :
  NoDup (map fst d) -> NoDup (map fst (Py.update d items)).
Proof.
  unfold Py.update. revert d.
  induction items as [|[k v] r IH]; intros d H; simpl; [exact H|].
  apply IH, set_nodup, H.
Qed.

Lemma get_rev_nodup k d : NoDup (map fst d) -> Py.get k (rev d) = Py.get k d.
Proof.
  induction d as [|[k1 v1] r IH]; intros H; simpl; [reflexivity|].
  simpl in H. apply NoDup_cons in H as [Hk1 Hr].
  rewrite get_app, (IH Hr). simpl.
  destruct (String.eqb k k1) eqn:E1.
  - apply String.eqb_eq in E1. subst k1.
    rewrite get_none_keys; [reflexivity|]. intros Hin. apply Hk1.
    now apply list_elem_of_In.
  - destruct (Py.get k r); reflexivity.
Qed.

(** [d.update(items)] read key by key, for [items] that is a dict. *)
Lemma get_update_dict k d items :
  NoDup (map fst items) ->
  Py.get k (Py.update d items) =
    match Py.get k items with Some v => Some v | None => Py.get k d end.
Proof. intros H. now rewrite get_update, (get_rev_nodup k items H). Qed.

(** ** What a completed run stores *)

(** X18: a completed run patches the intake record in place: the record
    found under the id afterwards has status saved and agrees with the
    record before on every field [persist_results] does not set, so its
    [_id], [createdAt] and [sourceFilePath] are kept. *)
Theorem completed_run_keeps_identity E id w w' intake :
  Mongo.find_one "_id" id (c_pt_intakes (db w)) = Some intake ->
  run_intake_pipeline E id w = (Ok tt, w') ->
  exists record,
    Mongo.find_one "_id" id (c_pt_intakes (db w')) = Some record /\
    Py.get "status" record = Some (VStr "saved") /\
    (forall k, ~ In k patched_keys -> Py.get k record = Py.get k intake) /\
    Py.get "_id" record = Py.get "_id" intake /\
    Py.get "createdAt" record = Py.get "createdAt" intake /\
    Py.get "sourceFilePath" record = Py.get "sourceFilePath" intake.
Proof.
  intros Hf Hr.
  destruct (run_ok_outcome E id w w' intake Hf Hr) as (x & v & flat & Hp & Ho).
  apply plan_ok in Hp as [_ Hfl].
  destruct (outcome_intake _ _ _ _ _ _ _ intake Ho Hfl Hf) as (now & Hi).
  eexists. split; [exact Hi|].
  pose proof (flatten_shape _ _ Hfl) as Hkeys.
  set (patch := Py.update [("updatedAt", VDatetime now); ("status", VStr "saved")] flat).
  assert (Hnd : NoDup (map fst patch)).
  { apply update_nodup. simpl. apply (bool_decide_unpack _). reflexivity. }
  assert (Hflat : forall k, ~ In k (map fst flat) -> Py.get k patch =
            Py.get k [("updatedAt", VDatetime now); ("status", VStr "saved")]).
  { intros k Hk. apply get_update_other, get_none_keys, Hk. }
  assert (Hother : forall k, ~ In k patched_keys ->
            Py.get k (Py.update intake patch) = Py.get k intake).
  { intros k Hk. rewrite (get_update_dict k intake patch Hnd), Hflat.
    - rewrite get_none_keys; [reflexivity|]. unfold patched_keys in Hk.
      simpl in *. tauto.
    - rewrite Hkeys. unfold patched_keys in Hk. simpl in *. tauto. }
  split.
  { rewrite (get_update_dict _ intake patch Hnd), Hflat; [reflexivity|].
    rewrite Hkeys. simpl. intuition discriminate. }
  split; [exact Hother|].
  repeat split; apply Hother; unfold patched_keys; simpl; intuition discriminate.
Qed.

Lemma completed_run_keeps_identity_witness :
  let w' := exec (run_intake_pipeline demo_env demo_intake) demo_world in
  (Mongo.find_one "_id" demo_intake (c_pt_intakes (db demo_world)) = Some demo_record /\
   run_intake_pipeline demo_env demo_intake demo_world = (Ok tt, w')) /\
  exists record,
    Mongo.find_one "_id" demo_intake (c_pt_intakes (db w')) = Some record /\
    Py.get "status" record = Some (VStr "saved") /\
    (forall k, ~ In k patched_keys -> Py.get k record = Py.get k demo_record) /\
    Py.get "_id" record = Py.get "_id" demo_record /\
    Py.get "createdAt" record = Py.get "createdAt" demo_record /\
    Py.get "sourceFilePath" record = Py.get "sourceFilePath" demo_record.
Proof.
  intros w'.
  assert (Hf : Mongo.find_one "_id" demo_intake (c_pt_intakes (db demo_world))
               = Some demo_record) by (vm_compute; reflexivity).
  assert (Hr : run_intake_pipeline demo_env demo_intake demo_world = (Ok tt, w'))
    by (vm_compute; reflexivity).
  split; [split; assumption|].
  exact (completed_run_keeps_identity demo_env demo_intake demo_world w' demo_record
           Hf Hr).
Defined.

(** X19: what is stored is what was logged.  After a completed run the
    authorization record found for the intake carries, field by field, the
    authorization in the [afterJson] of the run's fourth audit event, the
    eligibility record carries the benefits summary logged by the third,
    and both are keyed by the intake id. *)
Theorem stored_records_match_audit E id w w' intake :
  Mongo.find_one "_id" id (c_pt_intakes (db w)) = Some intake ->
  run_intake_pipeline E id w = (Ok tt, w') ->
  exists events auth eligibility authorization,
    c_audit_events (db w') = c_audit_events (db w) ++ events /\
    (events !! 2%nat ≫= Py.get "afterJson") = Some (VDict IVRService._benefits_summary) /\
    (events !! 3%nat ≫= Py.get "afterJson") = Some (VDict auth) /\
    Mongo.find_one "intakeId" id (c_eligibility_results (db w')) = Some eligibility /\
    Mongo.find_one "intakeId" id (c_authorization_records (db w')) = Some authorization /\
    Py.get "intakeId" eligibility = Some (VStr id) /\
    Py.get "intakeId" authorization = Some (VStr id) /\
    Forall (fun k => Py.get k eligibility = Py.get k IVRService._benefits_summary)
      ["coverageStart"; "coverageEnd"; "copayOrCoins"; "ptVisitLimit"; "ptVisitsUsed"] /\
    Forall (fun k => Py.get k authorization = Py.get k auth /\ Py.get k auth <> None)
      ["authRequired"; "visitsApproved"; "authNumber"; "validFrom"; "validTo"].
Proof.
  intros Hf Hr.
  destruct (run_ok_outcome E id w w' intake Hf Hr) as (x & v & flat & _ & Ho).
  destruct Ho as (auth & wa & e1 & e2 & e3 & e4 & e5 & o1 & o2 & o3 & o4 & now &
                  Ha & H1 & H2 & H3 & H4 & H5 & Hdb).
  destruct H1 as (? & ? & ->), H2 as (? & ? & ->), H3 as (? & ? & ->),
           H4 as (? & ? & ->), H5 as (? & ? & ->).
  unfold eval in Ha. rewrite calculate_auth_run in Ha. simpl in Ha.
  injection Ha as <-. rewrite Hdb. store_simpl.
  match goal with |- context [Mongo.upserted _ _ ?fs true o1 ?l] =>
    destruct (find_one_upserted "intakeId" id fs o1 l) as [d1 Hd1];
      [intros d; rewrite get_update; reflexivity|]
  end.
  match goal with |- context [Mongo.upserted _ _ ?fs true o2 ?l] =>
    destruct (find_one_upserted "intakeId" id fs o2 l) as [d2 Hd2];
      [intros d; rewrite get_update; reflexivity|]
  end.
  eexists _, _, _, _. split; [reflexivity|]. split; [reflexivity|].
  split; [reflexivity|]. split; [exact Hd1|]. split; [exact Hd2|].
  split; [rewrite get_update; reflexivity|].
  split; [rewrite get_update; reflexivity|].
  split.
  - repeat constructor; rewrite get_update; reflexivity.
  - repeat constructor; try (rewrite get_update; reflexivity); discriminate.
Qed.

Lemma stored_records_match_audit_witness :
  let w' := exec (run_intake_pipeline demo_env demo_intake) demo_world in
  (Mongo.find_one "_id" demo_intake (c_pt_intakes (db demo_world)) = Some demo_record /\
   run_intake_pipeline demo_env demo_intake demo_world = (Ok tt, w')) /\
  exists events auth eligibility authorization,
    c_audit_events (db w') = c_audit_events (db demo_world) ++ events /\
    (events !! 2%nat ≫= Py.get "afterJson") = Some (VDict IVRService._benefits_summary) /\
    (events !! 3%nat ≫= Py.get "afterJson") = Some (VDict auth) /\
    Mongo.find_one "intakeId" demo_intake (c_eligibility_results (db w'))
      = Some eligibility /\
    Mongo.find_one "intakeId" demo_intake (c_authorization_records (db w'))
      = Some authorization /\
    Py.get "intakeId" eligibility = Some (VStr demo_intake) /\
    Py.get "intakeId" authorization = Some (VStr demo_intake) /\
    Forall (fun k => Py.get k eligibility = Py.get k IVRService._benefits_summary)
      ["coverageStart"; "coverageEnd"; "copayOrCoins"; "ptVisitLimit"; "ptVisitsUsed"] /\
    Forall (fun k => Py.get k authorization = Py.get k auth /\ Py.get k auth <> None)
      ["authRequired"; "visitsApproved"; "authNumber"; "validFrom"; "validTo"].
Proof.
  intros w'.
  assert (Hf : Mongo.find_one "_id" demo_intake (c_pt_intakes (db demo_world))
               = Some demo_record) by (vm_compute; reflexivity).
  assert (Hr : run_intake_pipeline demo_env demo_intake demo_world = (Ok tt, w'))
    by (vm_compute; reflexivity).
  split; [split; assumption|].
  exact (stored_records_match_audit demo_env demo_intake demo_world w' demo_record
           Hf Hr).
Defined.

(** ** A run stays within its intake *)

Lemma confined_ret id {A} (a : A) : confined id (mret a).
Proof. intros w. reflexivity. Qed.

Lemma confined_lift id {A} (r : result A) : confined id (lift r).
Proof. intros w. reflexivity. Qed.

Lemma confined_bind_with id {A B} (P : A -> Prop) (m : M A) (k : A -> M B) :
  (forall w a w', m w = (Ok a, w') -> P a) ->
  confined id m -> (forall a, P a -> confined id (k a)) ->
  confined id (m ≫= k).
Proof.
  intros HP Hm Hk w. specialize (Hm w). specialize (HP w).
  unfold exec, mbind, M_bind in *.
  destruct (m w) as [[a|e] w1]; simpl in *; [|exact Hm].
  rewrite <- Hm. exact (Hk a (HP a w1 eq_refl) w1).
Qed.

Lemma confined_bind id {A B} (m : M A) (k : A -> M B) :
  confined id m -> (forall a, confined id (k a)) -> confined id (m ≫= k).
Proof.
  intros Hm Hk. apply (confined_bind_with id (fun _ => True)); auto.
Qed.

Lemma confined_same id {A} (m : M A) :
  (forall w, db (exec m w) = db w /\ sessions (exec m w) = sessions w) ->
  confined id m.
Proof. intros H w. destruct (H w) as [Hd Hs]. unfold foreign. now rewrite Hd, Hs. Qed.

Lemma others_app key x l r : others key x (l ++ r) = others key x l ++ others key x r.
Proof. apply List.filter_app. Qed.

Lemma others_snoc key x l d :
  Mongo.matches key x d = true -> others key x (l ++ [d]) = others key x l.
Proof.
  intros H. rewrite others_app. unfold others at 2. simpl. rewrite H.
  apply app_nil_r.
Qed.

Lemma others_update_first key x f l l' :
  Mongo.update_first (Mongo.matches key x) f l = Some l' ->
  (forall d, Mongo.matches key x d = true -> Mongo.matches key x (f d) = true) ->
  others key x l' = others key x l.
Proof.
  intros Hu Hf. revert l' Hu. unfold others.
  induction l as [|d r IH]; simpl; intros l' Hu; [discriminate|].
  destruct (Mongo.matches key x d) eqn:Hd.
  - injection Hu as <-. simpl. now rewrite (Hf d Hd).
  - destruct (Mongo.update_first _ f r) as [r'|]; [|discriminate].
    injection Hu as <-. simpl. rewrite Hd. simpl. f_equal. now apply IH.
Qed.

(** An update or upsert under [{key: x}] whose result is still selected by
    the query leaves the other documents in place. *)
Lemma others_upserted key x fields upsert oid l :
  (forall d, Mongo.matches key x d = true ->
             Mongo.matches key x (Py.update d fields) = true) ->
  (upsert = true ->
   Mongo.matches key x (Py.update [("_id", VObjectId oid); (key, VStr x)] fields)
     = true) ->
  others key x (Mongo.upserted key x fields upsert oid l) = others key x l.
Proof.
  intros Hf Hnew. unfold Mongo.upserted.
  destruct (Mongo.update_first _ _ l) as [l'|] eqn:Hu.
  - exact (others_update_first _ _ _ _ _ Hu Hf).
  - destruct upsert; [|reflexivity].
    apply others_snoc, Hnew. reflexivity.
Qed.

Lemma confined_emit E id a b af : confined id (emit_audit E "pt_intake" id a b af).
Proof.
  intros w. unfold exec. rewrite emit_audit_run. unfold foreign. store_simpl.
  rewrite others_snoc by (apply matches_str; reflexivity).
  destruct (db w); reflexivity.
Qed.

Lemma confined_upsert id c fields :
  record_collection c = true ->
  (forall d, Py.get "intakeId" (Py.update d fields) = Some (VStr id)) ->
  confined id (update_one c "intakeId" id fields true).
Proof.
  intros Hc Hk w. unfold exec.
  destruct (update_one_run c "intakeId" id fields true w) as [n ->].
  unfold foreign. store_simpl.
  assert (Ho : others "intakeId" id
                 (Mongo.upserted "intakeId" id fields true (oid_draws w)
                    (Mongo.docs c (db w)))
               = others "intakeId" id (Mongo.docs c (db w))).
  { apply others_upserted; intros; apply matches_str, Hk. }
  destruct c; try discriminate; destruct (db w); simpl in *; now rewrite Ho.
Qed.

Lemma confined_update_intake id fields :
  Py.get "_id" fields = None ->
  confined id (update_one pt_intakes "_id" id fields false).
Proof.
  intros Hk w. unfold exec.
  destruct (update_one_run pt_intakes "_id" id fields false w) as [n ->].
  unfold foreign. store_simpl.
  rewrite others_upserted; [destruct (db w); reflexivity | | discriminate].
  intros d Hd.
  rewrite (matches_get "_id" id d (Py.update d fields)); [exact Hd|].
  apply get_update_other, Hk.
Qed.

Lemma confined_persist E id extracted benefits auth transcript :
  Py.get "intakeId" benefits = None ->
  Py.get "intakeId" auth = None ->
  Py.get "intakeId" transcript = None ->
  confined id (persist_results E id extracted benefits auth transcript).
Proof.
  intros Hb Ha Ht. unfold persist_results.
  apply confined_bind;
    [apply confined_upsert; [reflexivity | intros d; apply keyed_fields, Hb] | intros _].
  apply confined_bind;
    [apply confined_upsert; [reflexivity | intros d; apply keyed_fields, Ha] | intros _].
  apply confined_bind;
    [apply confined_upsert; [reflexivity | intros d; apply keyed_fields, Ht] | intros _].
  apply confined_bind; [apply confined_same; intros w; split; reflexivity|].
  intros now.
  apply (confined_bind_with id
           (fun flat => _flatten_extracted extracted = Ok flat)).
  { intros w a w' H. unfold lift in H. now injection H as -> _. }
  { apply confined_lift. }
  intros flat Hfl. apply confined_update_intake.
  rewrite get_update_other; [reflexivity|].
  apply get_none_keys. rewrite (flatten_shape _ _ Hfl). simpl. intuition discriminate.
Qed.

(** X20: a run stays within its intake, however it ends, and whether or
    not the intake exists.  The intake records of other ids, the
    eligibility, authorization and transcript records of other intakes,
    the audit events of other entities and the IVR sessions are all left
    exactly as they were, in the same order. *)
Theorem run_confined_to_intake E id w :
  foreign id (exec (run_intake_pipeline E id) w) = foreign id w.
Proof.
  revert w. change (confined id (run_intake_pipeline E id)).
  unfold run_intake_pipeline.
  apply confined_bind; [apply confined_emit|]. intros _.
  apply confined_bind; [apply confined_same; intros w; split; reflexivity|].
  intros [intake|]; [|apply confined_ret].
  apply confined_bind; [apply confined_lift|]. intros url.
  apply confined_bind.
  { apply confined_same. intros w. unfold exec.
    destruct (extract_run E url w) as [n ->]. split; reflexivity. }
  intros payload.
  apply confined_bind; [apply confined_lift|]. intros extracted.
  apply confined_bind; [apply confined_emit|]. intros _.
  apply confined_bind; [apply confined_lift|]. intros v.
  apply (confined_bind_with id (fun auth => Py.get "intakeId" auth = None)).
  { intros w a w' H. rewrite calculate_auth_run in H. injection H as <- _.
    reflexivity. }
  { apply confined_same. intros w. unfold exec.
    rewrite calculate_auth_run. split; reflexivity. }
  intros auth Hauth.
  apply confined_bind; [apply confined_emit|]. intros _.
  apply confined_bind.
  { destruct (Py.truthy _); apply confined_emit. }
  intros _.
  apply confined_bind; [|intros _; apply confined_emit].
  apply confined_persist; [reflexivity | exact Hauth | reflexivity].
Qed.

(** ** The answers of the routes *)

Lemma matches_nonempty key x d : Mongo.matches key x d = true -> Py.truthy (VDict d) = true.
Proof. destruct d; [discriminate | reflexivity]. Qed.

Lemma find_one_matches key x l d :
  Mongo.find_one key x l = Some d -> Mongo.matches key x d = true.
Proof. intros H. apply List.find_some in H. tauto. Qed.

Lemma get_without_id k d :
  Py.get k (without_id d) = if String.eqb k "_id" then None else Py.get k d.
Proof.
  induction d as [|[k1 v1] r IH]; simpl.
  - destruct (String.eqb k "_id"); reflexivity.
  - destruct (String.eqb k1 "_id") eqn:E1; simpl.
    + apply String.eqb_eq in E1. subst k1. rewrite IH.
      destruct (String.eqb k "_id"); reflexivity.
    + rewrite IH. destruct (String.eqb k k1) eqn:E2; [|reflexivity].
      apply String.eqb_eq in E2. subst k1. rewrite E1. reflexivity.
Qed.

Lemma without_id_hides d : Py.get "_id" (without_id d) = None.
Proof. rewrite get_without_id. reflexivity. Qed.

Lemma without_id_truthy k v d :
  k <> "_id" -> Py.get k d = Some v -> Py.truthy (VDict (without_id d)) = true.
Proof.
  intros Hk Hg. assert (H : Py.get k (without_id d) = Some v).
  { rewrite get_without_id. apply String.eqb_neq in Hk. now rewrite Hk. }
  destruct (without_id d); [discriminate | reflexivity].
Qed.

Lemma run_intake_run E id w :
  run_intake E id w =
    match Mongo.find_one "_id" id (c_pt_intakes (db w)) with
    | None => (Ok (HTTPException 404 "intake not found"), w)
    | Some _ => (Ok (Json [("runId", VStr id)]), exec (run_intake_pipeline E id) w)
    end.
Proof.
  unfold run_intake. erewrite bind_ok by apply find_one_run. store_simpl.
  destruct (Mongo.find_one _ _ _) as [d|] eqn:Hf; [|reflexivity].
  cbn [doc_value].
  rewrite (matches_nonempty "_id" id d (find_one_matches _ _ _ _ Hf)). reflexivity.
Qed.

Lemma get_intake_run sort id w :
  get_intake sort id w =
    (Ok (let found c key := option_map without_id (Mongo.find_one key id (Mongo.docs c (db w))) in
         if Py.truthy (doc_value (found pt_intakes "_id"))
         then Json [("intake", doc_value (found pt_intakes "_id"));
                    ("eligibility", doc_value (found eligibility_results "intakeId"));
                    ("authorization", doc_value (found authorization_records "intakeId"));
                    ("transcript", doc_value (found call_transcripts "intakeId"));
                    ("audit",
                     VList (map VDict (map without_id (sort (audit_of id w)))))]
         else HTTPException 404 "intake not found"),
     w).
Proof.
  unfold get_intake. erewrite bind_ok by apply find_one_run. store_simpl.
  cbv zeta. destruct (Py.truthy _); reflexivity.
Qed.

Lemma get_audit_run sort entity id w :
  get_audit sort entity id w =
    (Ok (Json [("events",
                VList (map VDict (map without_id
                         (sort (of_entity entity id (c_audit_events (db w)))))))]),
     w).
Proof.
  unfold get_audit, mbind, M_bind, get_db. cbv zeta.
  destruct (map VDict _); reflexivity.
Qed.

(** X21: asking to run an intake that does not exist is answered 404 and
    leaves the whole state as it was: the pipeline is not scheduled, so
    not even its runStarted audit event is recorded. *)
Theorem run_intake_unknown_id E id w :
  Mongo.find_one "_id" id (c_pt_intakes (db w)) = None ->
  run_intake E id w = (Ok (HTTPException 404 "intake not found"), w).
Proof. intros H. rewrite run_intake_run, H. reflexivity. Qed.

Lemma run_intake_unknown_id_witness :
  Mongo.find_one "_id" "no-such-intake" (c_pt_intakes (db demo_world)) = None /\
  run_intake demo_env "no-such-intake" demo_world
    = (Ok (HTTPException 404 "intake not found"), demo_world).
Proof.
  assert (H : Mongo.find_one "_id" "no-such-intake" (c_pt_intakes (db demo_world))
              = None) by (vm_compute; reflexivity).
  split; [exact H|].
  exact (run_intake_unknown_id demo_env "no-such-intake" demo_world H).
Defined.



(** X23: a record that holds nothing but its [_id] is an intake for the
    run route and none for the read route.  [get_intake] tests the record
    after projecting [_id] away, so it answers 404, while [run_intake],
    which tests the record as found, accepts the run. *)
Theorem bare_record_split E sort id w d :
  Mongo.find_one "_id" id (c_pt_intakes (db w)) = Some d ->
  without_id d = [] ->
  eval (get_intake sort id) w = Ok (HTTPException 404 "intake not found") /\
  eval (run_intake E id) w = Ok (Json [("runId", VStr id)]).
Proof.
  intros Hf Hd. unfold eval. rewrite get_intake_run, run_intake_run. store_simpl.
  rewrite Hf. cbv zeta. simpl. rewrite Hd. split; reflexivity.
Qed.

Lemma bare_record_split_witness :
  (Mongo.find_one "_id" demo_intake (c_pt_intakes (db bare_world))
     = Some [("_id", VStr demo_intake)] /\
   without_id [("_id", VStr demo_intake)] = []) /\
  eval (get_intake (fun l => l) demo_intake) bare_world
    = Ok (HTTPException 404 "intake not found") /\
  eval (run_intake demo_env demo_intake) bare_world
    = Ok (Json [("runId", VStr demo_intake)]).
Proof.
  assert (Hf : Mongo.find_one "_id" demo_intake (c_pt_intakes (db bare_world))
               = Some [("_id", VStr demo_intake)]) by (vm_compute; reflexivity).
  assert (Hd : without_id [("_id", VStr demo_intake)] = []) by reflexivity.
  split; [split; assumption|].
  exact (bare_record_split demo_env (fun l => l) demo_intake bare_world _ Hf Hd).
Defined.

Lemma patched_record extracted flat intake now :
  _flatten_extracted extracted = Ok flat ->
  let record :=
    Py.update intake
      (Py.update [("updatedAt", VDatetime now); ("status", VStr "saved")] flat) in
  Py.get "status" record = Some (VStr "saved") /\
  forall k, ~ In k patched_keys -> Py.get k record = Py.get k intake.
Proof.
  intros Hfl record. subst record.
  pose proof (flatten_shape _ _ Hfl) as Hkeys.
  set (patch := Py.update [("updatedAt", VDatetime now); ("status", VStr "saved")] flat).
  assert (Hnd : NoDup (map fst patch)).
  { apply update_nodup. simpl. apply (bool_decide_unpack _). reflexivity. }
  assert (Hflat : forall k, ~ In k (map fst flat) -> Py.get k patch =
            Py.get k [("updatedAt", VDatetime now); ("status", VStr "saved")]).
  { intros k Hk. apply get_update_other, get_none_keys, Hk. }
  split.
  - rewrite (get_update_dict _ intake patch Hnd), Hflat; [reflexivity|].
    rewrite Hkeys. simpl. intuition discriminate.
  - intros k Hk. rewrite (get_update_dict k intake patch Hnd), Hflat.
    + rewrite get_none_keys; [reflexivity|]. unfold patched_keys in Hk.
      simpl in *. tauto.
    + rewrite Hkeys. unfold patched_keys in Hk. simpl in *. tauto.
Qed.

(** X24: reading an intake back after a completed run.  [get_intake]
    answers with the five parts: the intake record with status saved and
    its source path kept, an eligibility and an authorization record keyed
    by the intake, the simulated transcript, and the audit events of the
    intake from before together with the five of this run, in the order
    the server sorts them.  The authorization's authRequired is the one
    that decided the run's fourth audit action. *)
Theorem get_intake_after_run E sort id w w' intake :
  Mongo.find_one "_id" id (c_pt_intakes (db w)) = Some intake ->
  run_intake_pipeline E id w = (Ok tt, w') ->
  exists record eligibility authorization transcript events b,
    get_intake sort id w' =
      (Ok (Json [("intake", VDict record);
                 ("eligibility", VDict eligibility);
                 ("authorization", VDict authorization);
                 ("transcript", VDict transcript);
                 ("audit",
                  VList (map VDict (map without_id (sort (audit_of id w ++ events)))))]),
       w') /\
    Py.get "status" record = Some (VStr "saved") /\
    Py.get "sourceFilePath" record = Py.get "sourceFilePath" intake /\
    Py.get "intakeId" eligibility = Some (VStr id) /\
    Py.get "intakeId" authorization = Some (VStr id) /\
    Py.get "authRequired" authorization = Some (VBool b) /\
    Py.get "outcomeSummary" transcript = Some (VStr "simulated") /\
    actions events = run_actions b.
Proof.
  intros Hf Hr.
  destruct (run_ok_outcome E id w w' intake Hf Hr) as (x & v & flat & Hp & Ho).
  apply plan_ok in Hp as [_ Hfl].
  destruct (outcome_intake _ _ _ _ _ _ _ intake Ho Hfl Hf) as (now & Hi).
  destruct (patched_record x flat intake now Hfl) as [Hst Hother].
  destruct (outcome_audit _ _ _ _ _ _ _ Ho)
    as (events & auth0 & _ & Haud & _ & Hact & _).
  destruct Ho as (auth & wa & e1 & e2 & e3 & e4 & e5 & o1 & o2 & o3 & o4 & now' &
                  Ha & _ & _ & _ & _ & _ & Hdb).
  unfold eval in Ha. rewrite calculate_auth_run in Ha. simpl in Ha.
  injection Ha as <-.
  assert (H1 : exists d, Mongo.find_one "intakeId" id (c_eligibility_results (db w'))
                         = Some (Py.update d
                                   (Py.update [("intakeId", VStr id)]
                                      IVRService._benefits_summary))).
  { rewrite Hdb. store_simpl. apply find_one_upserted.
    intros d; rewrite get_update; reflexivity. }
  assert (H2 : exists d fields,
             Mongo.find_one "intakeId" id (c_authorization_records (db w'))
               = Some (Py.update d fields) /\
             (forall d', Py.get "intakeId" (Py.update d' fields) = Some (VStr id)) /\
             (forall d', Py.get "authRequired" (Py.update d' fields)
                         = Some (VBool (v >? 6)))).
  { rewrite Hdb. store_simpl.
    match goal with |- context [Mongo.upserted _ _ ?fs true o2 ?l] =>
      destruct (find_one_upserted "intakeId" id fs o2 l) as [d Hd];
        [intros d; rewrite get_update; reflexivity|];
        exists d, fs
    end.
    split; [exact Hd|].
    split; intros d'; rewrite get_update; reflexivity. }
  assert (H3 : exists d, Mongo.find_one "intakeId" id (c_call_transcripts (db w'))
                         = Some (Py.update d
                                   (Py.update [("intakeId", VStr id)] run_transcript))).
  { rewrite Hdb. store_simpl. apply find_one_upserted.
    intros d; rewrite get_update; reflexivity. }
  destruct H1 as [d1 H1], H2 as (d2 & fs2 & H2 & Hk2 & Hr2), H3 as [d3 H3].
  clear Hdb.
  eexists _, _, _, _, events, (v >? 6).
  split.
  { rewrite get_intake_run. cbv zeta. cbn [Mongo.docs].
    rewrite Hi, H1, H2, H3, Haud. cbn [option_map doc_value].
    rewrite (without_id_truthy "status" (VStr "saved")); [reflexivity| |exact Hst].
    discriminate. }
  rewrite !get_without_id. cbn [String.eqb Ascii.eqb Bool.eqb].
  split; [exact Hst|].
  split; [apply Hother; unfold patched_keys; simpl; intuition discriminate|].
  split; [rewrite get_update; reflexivity|].
  split; [apply Hk2|]. split; [apply Hr2|].
  split; [rewrite get_update; reflexivity | exact Hact].
Qed.

Lemma get_intake_after_run_witness :
  let w' := exec (run_intake_pipeline demo_env demo_intake) demo_world in
  (Mongo.find_one "_id" demo_intake (c_pt_intakes (db demo_world)) = Some demo_record /\
   run_intake_pipeline demo_env demo_intake demo_world = (Ok tt, w')) /\
  exists record eligibility authorization transcript events b,
    get_intake (fun l => l) demo_intake w' =
      (Ok (Json [("intake", VDict record);
                 ("eligibility", VDict eligibility);
                 ("authorization", VDict authorization);
                 ("transcript", VDict transcript);
                 ("audit",
                  VList (map VDict (map without_id
                           (audit_of demo_intake demo_world ++ events))))]),
       w') /\
    Py.get "status" record = Some (VStr "saved") /\
    Py.get "sourceFilePath" record = Py.get "sourceFilePath" demo_record /\
    Py.get "intakeId" eligibility = Some (VStr demo_intake) /\
    Py.get "intakeId" authorization = Some (VStr demo_intake) /\
    Py.get "authRequired" authorization = Some (VBool b) /\
    Py.get "outcomeSummary" transcript = Some (VStr "simulated") /\
    actions events = run_actions b.
Proof.
  intros w'.
  assert (Hf : Mongo.find_one "_id" demo_intake (c_pt_intakes (db demo_world))
               = Some demo_record) by (vm_compute; reflexivity).
  assert (Hr : run_intake_pipeline demo_env demo_intake demo_world = (Ok tt, w'))
    by (vm_compute; reflexivity).
  split; [split; assumption|].
  exact (get_intake_after_run demo_env (fun l => l) demo_intake demo_world w'
           demo_record Hf Hr).
Defined.

(** ** The audit log *)

Lemma logs_same P {A} (m : M A) :
  (forall w, c_audit_events (db (exec m w)) = c_audit_events (db w)) -> logs P m.
Proof. intros H w. exists []. rewrite H, app_nil_r. auto. Qed.

Lemma logs_ret P {A} (a : A) : logs P (mret a).
Proof. apply logs_same. reflexivity. Qed.

Lemma logs_lift P {A} (r : result A) : logs P (lift r).
Proof. apply logs_same. reflexivity. Qed.

Lemma logs_bind P {A B} (m : M A) (k : A -> M B) :
  logs P m -> (forall a, logs P (k a)) -> logs P (m ≫= k).
Proof.
  intros Hm Hk w. destruct (Hm w) as (ev1 & H1 & F1).
  unfold exec, mbind, M_bind in *.
  destruct (m w) as [[a|e] w1]; simpl in *; [|eauto].
  destruct (Hk a w1) as (ev2 & H2 & F2). unfold exec in H2.
  exists (ev1 ++ ev2). rewrite H2, H1, app_assoc. split; [reflexivity|].
  apply Forall_app. auto.
Qed.

Lemma logs_emit (P : dict -> Prop) E t id a b af :
  (forall now oid, P (audit_event t id a b af now oid)) ->
  logs P (emit_audit E t id a b af).
Proof.
  intros HP w. unfold exec. rewrite emit_audit_run. store_simpl.
  eexists. split; [reflexivity|]. repeat constructor. apply HP.
Qed.

Lemma logs_update_one P c key x fields upsert :
  c <> audit_events -> logs P (update_one c key x fields upsert).
Proof.
  intros Hc. apply logs_same. intros w. unfold exec.
  destruct (update_one_run c key x fields upsert w) as [n ->].
  store_simpl. destruct c; try reflexivity. congruence.
Qed.

Lemma logs_run E id : logs intake_event (run_intake_pipeline E id).
Proof.
  unfold run_intake_pipeline.
  apply logs_bind; [apply logs_emit; reflexivity|]. intros _.
  apply logs_bind; [apply logs_same; reflexivity|].
  intros [intake|]; [|apply logs_ret].
  apply logs_bind; [apply logs_lift|]. intros url.
  apply logs_bind.
  { apply logs_same. intros w. unfold exec.
    destruct (extract_run E url w) as [n ->]. reflexivity. }
  intros payload.
  apply logs_bind; [apply logs_lift|]. intros extracted.
  apply logs_bind; [apply logs_emit; reflexivity|]. intros _.
  apply logs_bind; [apply logs_lift|]. intros v.
  apply logs_bind.
  { apply logs_same. intros w. unfold exec. rewrite calculate_auth_run. reflexivity. }
  intros auth.
  apply logs_bind; [apply logs_emit; reflexivity|]. intros _.
  apply logs_bind.
  { destruct (Py.truthy _); apply logs_emit; reflexivity. }
  intros _.
  apply logs_bind; [|intros _; apply logs_emit; reflexivity].
  unfold persist_results.
  apply logs_bind; [apply logs_update_one; discriminate | intros _].
  apply logs_bind; [apply logs_update_one; discriminate | intros _].
  apply logs_bind; [apply logs_update_one; discriminate | intros _].
  apply logs_bind; [apply logs_same; reflexivity | intros now].
  apply logs_bind; [apply logs_lift | intros flat].
  apply logs_update_one. discriminate.
Qed.

Lemma logs_upload P E filename : logs P (upload_intake E filename).
Proof.
  unfold upload_intake.
  apply logs_bind; [apply logs_same; reflexivity|]. intros u.
  apply logs_bind; [apply logs_same; reflexivity|]. intros t1.
  apply logs_bind; [apply logs_same; reflexivity|]. intros t2.
  apply logs_bind; [|intros _; apply logs_ret].
  apply logs_same. intros w.
  unfold exec, insert_one, mbind, M_bind, get_db. simpl.
  destruct (existsb _ _); reflexivity.
Qed.

Lemma reachable_audit_typed E w : reachable E w -> audit_typed w.
Proof.
  unfold audit_typed. induction 1 as [|w filename _ IH|w id _ IH].
  - constructor.
  - destruct (logs_upload intake_event E filename w) as (ev & -> & F).
    apply Forall_app. auto.
  - destruct (logs_run E id w) as (ev & -> & F). apply Forall_app. auto.
Qed.

Lemma of_entity_typed id l :
  Forall intake_event l -> of_entity "pt_intake" id l = Mongo.keyed "entityId" id l.
Proof.
  intros F. unfold of_entity, Mongo.keyed. induction F as [|ev r Hev _ IH]; simpl.
  - reflexivity.
  - rewrite (matches_str "entityType" "pt_intake" ev Hev), IH. reflexivity.
Qed.

Lemma of_entity_other entity id l :
  entity <> "pt_intake" -> Forall intake_event l -> of_entity entity id l = [].
Proof.
  intros Hne F. unfold of_entity. induction F as [|ev r Hev _ IH]; simpl.
  - reflexivity.
  - rewrite (matches_other "entityType" "pt_intake" entity ev Hev), IH by congruence.
    reflexivity.
Qed.

(** X25: the two audit listings agree.  In every store the intake routes
    can build, all audit events are events of intakes, so [get_audit] for
    [pt_intake] and an id lists exactly the events [get_intake] reports for
    that id (which selects by id alone), and [get_audit] for any other
    entity name selects no event at all. *)
Theorem audit_routes_agree E sort id w :
  reachable E w ->
  exists events,
    eval (get_audit sort "pt_intake" id) w = Ok (Json [("events", events)]) /\
    (eval (get_intake sort id) w = Ok (HTTPException 404 "intake not found") \/
     exists body, eval (get_intake sort id) w = Ok (Json body) /\
                  Py.get "audit" body = Some events) /\
    forall entity, entity <> "pt_intake" ->
      eval (get_audit sort entity id) w
        = Ok (Json [("events", VList (map VDict (map without_id (sort []))))]).
Proof.
  intros Hr. apply reachable_audit_typed in Hr. unfold audit_typed in Hr.
  eexists. unfold eval. rewrite get_audit_run, get_intake_run. cbv zeta.
  cbn [fst]. rewrite (of_entity_typed id _ Hr).
  split; [reflexivity|]. split.
  - destruct (Py.truthy _); [right | left; reflexivity].
    eexists. split; reflexivity.
  - intros entity Hne. rewrite get_audit_run. cbn [fst].
    rewrite (of_entity_other entity id _ Hne Hr). reflexivity.
Qed.

Lemma audit_routes_agree_witness :
  let w := exec (run_intake_pipeline demo_env demo_intake) demo_world in
  reachable demo_env w /\
  exists events,
    eval (get_audit (fun l => l) "pt_intake" demo_intake) w
      = Ok (Json [("events", events)]) /\
    (eval (get_intake (fun l => l) demo_intake) w
       = Ok (HTTPException 404 "intake not found") \/
     exists body, eval (get_intake (fun l => l) demo_intake) w = Ok (Json body) /\
                  Py.get "audit" body = Some events) /\
    forall entity, entity <> "pt_intake" ->
      eval (get_audit (fun l => l) entity demo_intake) w
        = Ok (Json [("events", VList (map VDict (map without_id [])))]).
Proof.
  intros w.
  assert (Hr : reachable demo_env w).
  { exact (reach_run demo_env _ demo_intake
             (reach_upload demo_env _ "referral.pdf" (reach_init demo_env))). }
  split; [exact Hr|].
  exact (audit_routes_agree demo_env (fun l => l) demo_intake w Hr).
Defined.

Lemma doc_value_hides o : hides_id (doc_value (option_map without_id o)).
Proof. destruct o; simpl; [apply without_id_hides | exact I]. Qed.

Lemma listing_hides l : hides_id (VList (map VDict (map without_id l))).
Proof.
  simpl. induction l as [|d r IH]; simpl; constructor; [apply without_id_hides | exact IH].
Qed.

(** X26: the read routes never show a store id and never write.  Whatever
    the store holds, [get_intake] returns, leaving the state as it is,
    either the 404 answer or a body in which neither the intake, the
    eligibility, the authorization, the transcript nor any audit event has
    an [_id]; [get_audit] always returns a body, and no event in it has
    an [_id]. *)
Theorem answers_hide_ids sort entity id w :
  (exists r, get_intake sort id w = (Ok r, w) /\
     match r with
     | Json body => Forall (fun part => hides_id (snd part)) body
     | HTTPException code _ => code = 404
     end) /\
  (exists body, get_audit sort entity id w = (Ok (Json body), w) /\
     Forall (fun part => hides_id (snd part)) body).
Proof.
  split.
  - eexists. split; [apply get_intake_run|]. cbv zeta.
    destruct (Py.truthy _); [|reflexivity].
    repeat constructor; cbn [snd];
      first [apply doc_value_hides | apply (listing_hides (sort _))].
  - eexists. split; [apply get_audit_run|].
    repeat constructor. apply (listing_hides (sort _)).
Qed.

(** ** The order of the audit listing *)









(** ** Uploads *)




